(** * The order-processing saga: orchestrator, participants, outbox and bus

    A shallow embedding of the saga core of the repository
    (src/shared/events.py, outbox.py, message_broker.py and the order,
    inventory, payment and shipping services), followed by the theorems
    that settle the statements of the specification about it.

    Conventions of the embedding.
    - A table is the list of its rows in insertion order; [select ... where]
      is [List.filter]; [scalar_one_or_none] raises on more than one row.
    - A handler is a computation in the monad [M]: it threads the session
      (tables, outbox, identifier supply) and may raise.  A raised exception
      leaves the database as it was (rollback, or no commit).
    - [uuid4()] draws from a supply carried by the session, so generated
      identifiers are fresh; the uniqueness constraints on generated
      columns therefore never fire and are not modelled.  The constraints
      on columns filled from the incoming event (order_id, idempotency_key)
      are checked on insert.
    - [datetime.utcnow()] is the parameter [now] of a handler.
    - A Python float amount is a rational number; the JSON text held in
      [OutboxMessage.event_data] is the event it serialises. *)

From Stdlib Require Import ZArith QArith Qminmax Qpower Lia.
From Stdlib Require Import String Ascii List DecimalString DecimalPos DecimalZ.
From stdpp Require Import base gmap strings list.
Import ListNotations.

Local Open Scope Z_scope.
Local Open Scope string_scope.
Local Open Scope list_scope.

(** ** Identifiers, timestamps and Python conversions *)

Definition UUID := N.
Bind Scope N_scope with UUID.
Definition datetime := Z.
Definition JsonObject := list (string * string).

Definition hex_alphabet : list ascii :=
  ["0"; "1"; "2"; "3"; "4"; "5"; "6"; "7";
   "8"; "9"; "a"; "b"; "c"; "d"; "e"; "f"]%char.

Definition hex_char (d : N) : ascii := List.nth (N.to_nat d) hex_alphabet "0"%char.

Fixpoint hex_digits (n : nat) (x : N) : list ascii :=
  match n with
  | O => []
  | S k => hex_digits k (x / 16)%N ++ [hex_char (x mod 16)%N]
  end.

(** [UUID.hex]: thirty-two lower-case hexadecimal digits. *)
Definition uuid_hex (u : UUID) : string := string_of_list_ascii (hex_digits 32 u).

(** [str(uuid)]: the digits grouped 8-4-4-4-12. *)
Definition uuid_str (u : UUID) : string :=
  let h := uuid_hex u in
  substring 0 8 h ++ "-" ++ substring 8 4 h ++ "-" ++ substring 12 4 h
    ++ "-" ++ substring 16 4 h ++ "-" ++ substring 20 12 h.

Definition upper_char (c : ascii) : ascii :=
  let n := nat_of_ascii c in
  if ((97 <=? n) && (n <=? 122))%nat then ascii_of_nat (n - 32) else c.

Fixpoint upper (s : string) : string :=
  match s with
  | EmptyString => EmptyString
  | String c r => String (upper_char c) (upper r)
  end.

(** [str(n)] and [int(s)] on decimal text.  [int] is modelled on an
    optional minus sign followed by digits, which covers every text that
    [str] produces. *)
Definition py_str (z : Z) : string := NilZero.string_of_int (Z.to_int z).

Definition py_int (s : string) : option Z :=
  match NilZero.int_of_string s with
  | Some d => Some (Z.of_int d)
  | None => None
  end.

(** ** Exceptions and the session monad *)

Inductive exn :=
| MultipleResultsFound | IntegrityError | ValueError | DecodeError
| ValidationError | StatementError
| HandlerError (message : string).

Inductive result (A : Type) :=
| Ok (a : A)
| Raise (e : exn).
Arguments Ok {A} a.
Arguments Raise {A} e.

Definition M (S A : Type) : Type := S -> result (A * S).

Definition ret {S A} (a : A) : M S A := fun s => Ok (a, s).

Definition bind {S A B} (c : M S A) (k : A -> M S B) : M S B :=
  fun s => match c s with
           | Ok (a, s') => k a s'
           | Raise e => Raise e
           end.

Definition raise {S A} (e : exn) : M S A := fun _ => Raise e.
Definition get {S} : M S S := fun s => Ok (s, s).
Definition modify {S} (f : S -> S) : M S unit := fun s => Ok (tt, f s).
Definition lift {S A} (r : result A) : M S A :=
  fun s => match r with Ok a => Ok (a, s) | Raise e => Raise e end.

Notation "x <- c ;; k" := (bind c (fun x => k))
  (at level 100, c at next level, right associativity).
Notation "c ;;; k" := (bind c (fun _ => k))
  (at level 100, right associativity).

(** The final state of a handler run, when it returns. *)
Definition exec {S A} (c : M S A) (s : S) : result S :=
  match c s with
  | Ok (_, s') => Ok s'
  | Raise e => Raise e
  end.

(** [Result.scalar_one_or_none()] on the rows a query selects. *)
Definition scalar_one_or_none {A} (rows : list A) : result (option A) :=
  match rows with
  | [] => Ok None
  | [r] => Ok (Some r)
  | _ :: _ :: _ => Raise MultipleResultsFound
  end.

(** [for x in xs: body x], in the monad. *)
Fixpoint for_each {S A} (xs : list A) (body : A -> M S unit) : M S unit :=
  match xs with
  | [] => ret tt
  | x :: r => body x ;;; for_each r body
  end.

(** ** Events (src/shared/events.py) *)

Module EventType.
Inductive t :=
| ORDER_PLACED | ORDER_CONFIRMED | ORDER_CANCELLED | ORDER_FAILED
| INVENTORY_RESERVE_REQUESTED | INVENTORY_RESERVED
| INVENTORY_RESERVE_FAILED | INVENTORY_RELEASED
| PAYMENT_REQUESTED | PAYMENT_PROCESSED | PAYMENT_FAILED | PAYMENT_REFUNDED
| SHIPPING_SCHEDULED | SHIPPING_DISPATCHED | SHIPPING_DELIVERED | SHIPPING_FAILED
| NOTIFICATION_SENT | NOTIFICATION_FAILED.

Definition value (e : t) : string :=
  match e with
  | ORDER_PLACED => "order.placed"
  | ORDER_CONFIRMED => "order.confirmed"
  | ORDER_CANCELLED => "order.cancelled"
  | ORDER_FAILED => "order.failed"
  | INVENTORY_RESERVE_REQUESTED => "inventory.reserve.requested"
  | INVENTORY_RESERVED => "inventory.reserved"
  | INVENTORY_RESERVE_FAILED => "inventory.reserve.failed"
  | INVENTORY_RELEASED => "inventory.released"
  | PAYMENT_REQUESTED => "payment.requested"
  | PAYMENT_PROCESSED => "payment.processed"
  | PAYMENT_FAILED => "payment.failed"
  | PAYMENT_REFUNDED => "payment.refunded"
  | SHIPPING_SCHEDULED => "shipping.scheduled"
  | SHIPPING_DISPATCHED => "shipping.dispatched"
  | SHIPPING_DELIVERED => "shipping.delivered"
  | SHIPPING_FAILED => "shipping.failed"
  | NOTIFICATION_SENT => "notification.sent"
  | NOTIFICATION_FAILED => "notification.failed"
  end.
End EventType.

(** An order line as [OrderItem.model_dump()] gives it, the item of a
    reservation request, and an entry of [unavailable_items]. *)
Record OrderLine := mkOrderLine
  { line_product_id : UUID; line_quantity : Z; line_price : Q }.

Record Item := mkItem { product_id : UUID; quantity : Z }.

Record Unavailable := mkUnavailable
  { un_product_id : string; requested : Z; available : Z }.

(** The event classes, as a tagged sum of their own fields. *)
Inductive Payload :=
| OrderPlacedEvent (customer_id : UUID) (items : list OrderLine)
    (total_amount : Q) (shipping_address : JsonObject)
| OrderConfirmedEvent (order_id : UUID)
| OrderCancelledEvent (order_id : UUID) (reason : string)
| OrderFailedEvent (order_id : UUID) (reason : string) (failed_step : string)
| InventoryReserveRequestedEvent (order_id : UUID) (items : list Item)
| InventoryReservedEvent (order_id : UUID) (reservation_id : UUID)
    (items : list Item)
| InventoryReserveFailedEvent (order_id : UUID) (reason : string)
    (unavailable_items : list Unavailable)
| InventoryReleasedEvent (order_id : UUID) (reservation_id : UUID)
| PaymentRequestedEvent (order_id : UUID) (customer_id : UUID) (amount : Q)
    (currency : string) (payment_method : JsonObject)
| PaymentProcessedEvent (order_id : UUID) (transaction_id : UUID)
    (amount : Q) (currency : string)
| PaymentFailedEvent (order_id : UUID) (reason : string)
    (error_code : option string)
| PaymentRefundedEvent (order_id : UUID) (transaction_id : UUID)
    (refund_id : UUID) (amount : Q)
| ShippingScheduledEvent (order_id : UUID) (shipping_id : UUID)
    (estimated_delivery : datetime) (shipping_address : JsonObject).

(** [BaseEvent] with the subclass fields in [payload]. *)
Record Event := mkEvent
  { event_id : UUID;
    aggregate_id : UUID;
    timestamp : datetime;
    version : Z;
    correlation_id : UUID;
    causation_id : option UUID;
    metadata : list (string * JsonObject);
    payload : Payload }.

(** The class default of [event_type]. *)
Definition event_type (e : Event) : EventType.t :=
  match payload e with
  | OrderPlacedEvent _ _ _ _ => EventType.ORDER_PLACED
  | OrderConfirmedEvent _ => EventType.ORDER_CONFIRMED
  | OrderCancelledEvent _ _ => EventType.ORDER_CANCELLED
  | OrderFailedEvent _ _ _ => EventType.ORDER_FAILED
  | InventoryReserveRequestedEvent _ _ => EventType.INVENTORY_RESERVE_REQUESTED
  | InventoryReservedEvent _ _ _ => EventType.INVENTORY_RESERVED
  | InventoryReserveFailedEvent _ _ _ => EventType.INVENTORY_RESERVE_FAILED
  | InventoryReleasedEvent _ _ => EventType.INVENTORY_RELEASED
  | PaymentRequestedEvent _ _ _ _ _ => EventType.PAYMENT_REQUESTED
  | PaymentProcessedEvent _ _ _ _ => EventType.PAYMENT_PROCESSED
  | PaymentFailedEvent _ _ _ => EventType.PAYMENT_FAILED
  | PaymentRefundedEvent _ _ _ _ => EventType.PAYMENT_REFUNDED
  | ShippingScheduledEvent _ _ _ _ => EventType.SHIPPING_SCHEDULED
  end.

(** ** The outbox table and the session (src/shared/outbox.py) *)

Module OutboxStatus.
Inductive t := PENDING | PUBLISHED | FAILED.
Definition value (s : t) : string :=
  match s with
  | PENDING => "pending" | PUBLISHED => "published" | FAILED => "failed"
  end.
Definition eqb (a b : t) : bool :=
  match a, b with
  | PENDING, PENDING | PUBLISHED, PUBLISHED | FAILED, FAILED => true
  | _, _ => false
  end.
End OutboxStatus.

(** A row of [outbox].  The surrogate key [id] is never read and is left
    out; [event_id] is UNIQUE and identifies the row.  [retry_count] is a
    text column. *)
Record OutboxMessage := mkOutboxMessage
  { ob_event_id : UUID;
    ob_event_type : string;
    ob_aggregate_id : UUID;
    ob_event_data : Event;
    ob_status : OutboxStatus.t;
    ob_created_at : datetime;
    ob_published_at : option datetime;
    ob_retry_count : string;
    ob_error_message : option string }.

(** What a session sees: the service's own tables [T], the outbox and
    the identifier supply. *)
Record Db (T : Type) := mkDb
  { tables : T;
    outbox : list OutboxMessage;
    uuid_supply : N }.
Arguments mkDb {T} _ _ _.
Arguments tables {T} _.
Arguments outbox {T} _.
Arguments uuid_supply {T} _.

Definition uuid4 {T} : M (Db T) UUID :=
  fun db => Ok (uuid_supply db,
                mkDb (tables db) (outbox db) (N.succ (uuid_supply db))).

Definition read_tables {T} : M (Db T) T := fun db => Ok (tables db, db).

Definition write_tables {T} (f : T -> T) : M (Db T) unit :=
  modify (fun db => mkDb (f (tables db)) (outbox db) (uuid_supply db)).

(** An event under construction: every field but [event_id], which the
    [default_factory] draws. *)
Definition new_event {T} (now : datetime) (aggregate correlation : UUID)
    (causation : option UUID) (p : Payload) : M (Db T) Event :=
  eid <- uuid4 ;;
  ret (mkEvent eid aggregate now 1 correlation causation [] p).

Definition save_event_to_outbox {T} (now : datetime) (event : Event)
  : M (Db T) unit :=
  modify (fun db =>
    mkDb (tables db)
         (outbox db ++
            [mkOutboxMessage (event_id event)
               (EventType.value (event_type event))
               (aggregate_id event) event OutboxStatus.PENDING now
               None "0" None])
         (uuid_supply db)).

(** The events a run added to the outbox. *)
Definition emitted {T} (before after : Db T) : list Event :=
  List.map ob_event_data
    (List.skipn (List.length (outbox before)) (outbox after)).

Module OutboxPublisher.

Definition set_status (s : OutboxStatus.t) (m : OutboxMessage) : OutboxMessage :=
  mkOutboxMessage (ob_event_id m) (ob_event_type m) (ob_aggregate_id m)
    (ob_event_data m) s (ob_created_at m) (ob_published_at m)
    (ob_retry_count m) (ob_error_message m).

Definition set_published_at (t : option datetime) (m : OutboxMessage) : OutboxMessage :=
  mkOutboxMessage (ob_event_id m) (ob_event_type m) (ob_aggregate_id m)
    (ob_event_data m) (ob_status m) (ob_created_at m) t
    (ob_retry_count m) (ob_error_message m).

Definition set_retry (count : string) (err : option string) (m : OutboxMessage)
  : OutboxMessage :=
  mkOutboxMessage (ob_event_id m) (ob_event_type m) (ob_aggregate_id m)
    (ob_event_data m) (ob_status m) (ob_created_at m) (ob_published_at m)
    count err.

(** [ORDER BY created_at]: rows with equal timestamps keep their
    insertion order. *)
Fixpoint insert_by_created_at (m : OutboxMessage) (l : list OutboxMessage)
  : list OutboxMessage :=
  match l with
  | [] => [m]
  | x :: r =>
      if (ob_created_at m <=? ob_created_at x)%Z then m :: x :: r
      else x :: insert_by_created_at m r
  end.

Definition order_by_created_at (l : list OutboxMessage) : list OutboxMessage :=
  List.fold_right insert_by_created_at [] l.

(** [select(OutboxMessage).where(status == s).order_by(created_at).limit(n)] *)
Definition select_by_status (s : OutboxStatus.t) (n : nat)
    (table : list OutboxMessage) : list OutboxMessage :=
  List.firstn n
    (order_by_created_at
       (List.filter (fun m => OutboxStatus.eqb (ob_status m) s) table)).

Definition loaded (batch : list OutboxMessage) (m : OutboxMessage) : bool :=
  List.existsb (fun b => N.eqb (ob_event_id b) (ob_event_id m)) batch.

(** The rows a session loaded are written back in place at commit. *)
Definition flush (f : OutboxMessage -> OutboxMessage)
    (batch table : list OutboxMessage) : list OutboxMessage :=
  List.map (fun m => if loaded batch m then f m else m) table.

(** [max_retries: int = 3] *)
Definition default_max_retries : Z := 3.

Section Publisher.

(** [publish m] is [None] when decoding [m.event_data] and
    [message_broker.publish_event] return, and [Some (str e)] when one of
    them raises [e]. *)
Variable publish : OutboxMessage -> option string.
Variable batch_size : nat.
Variable max_retries : Z.
Variable now : datetime.

(** The body of the loop over the batch. *)
Definition publish_one (message : OutboxMessage) : result OutboxMessage :=
  match publish message with
  | None =>
      Ok (set_published_at (Some now)
            (set_status OutboxStatus.PUBLISHED message))
  | Some e =>
      match py_int (ob_retry_count message) with
      | None => Raise ValueError
      | Some retry_count =>
          let retry_count := (retry_count + 1)%Z in
          let message := set_retry (py_str retry_count) (Some e) message in
          if (max_retries <=? retry_count)%Z
          then Ok (set_status OutboxStatus.FAILED message)
          else Ok message
      end
  end.

Fixpoint publish_all (messages : list OutboxMessage)
  : result (list OutboxMessage) :=
  match messages with
  | [] => Ok []
  | m :: r =>
      match publish_one m with
      | Raise e => Raise e
      | Ok m' =>
          match publish_all r with
          | Raise e => Raise e
          | Ok r' => Ok (m' :: r')
          end
      end
  end.

Definition written (updated : list OutboxMessage) (m : OutboxMessage)
  : OutboxMessage :=
  match List.find (fun u => N.eqb (ob_event_id u) (ob_event_id m)) updated with
  | Some u => u
  | None => m
  end.

Definition _publish_pending_messages {T} : M (Db T) unit :=
  db <- get ;;
  let messages := select_by_status OutboxStatus.PENDING batch_size (outbox db) in
  match messages with
  | [] => ret tt
  | _ :: _ =>
      updated <- lift (publish_all messages) ;;
      modify (fun db =>
        mkDb (tables db) (List.map (written updated) (outbox db))
             (uuid_supply db))
  end.

End Publisher.

Definition reset (m : OutboxMessage) : OutboxMessage :=
  set_retry "0" None (set_status OutboxStatus.PENDING m).

Definition retry_failed_messages {T} (limit : nat) : M (Db T) unit :=
  db <- get ;;
  let messages := select_by_status OutboxStatus.FAILED limit (outbox db) in
  modify (fun db =>
    mkDb (tables db) (flush reset messages (outbox db)) (uuid_supply db)).

End OutboxPublisher.

(** ** The event bus consumer (src/shared/message_broker.py) *)

Module MessageBroker.

Inductive hval := HInt (z : Z) | HStr (s : string).

Inductive DeliveryMode := NOT_PERSISTENT | PERSISTENT.

Record Message := mkMessage
  { body : string;
    delivery_mode : DeliveryMode;
    content_type : option string;
    headers : gmap string hval }.

Record IncomingMessage := mkIncoming
  { incoming : Message;
    routing_key : string }.

(** What the consumer does to the channel, in order, and how the delivery
    is settled when [message.process(requeue=False)] exits. *)
Inductive effect :=
| Sleep (seconds : Q)
| Publish (exchange : string) (message : Message) (key : string).

Inductive settlement := Ack | Reject (requeue : bool).

Definition exchange_name : string := "saga_events".

(** [max_retries: int = 3] *)
Definition default_max_retries : Z := 3.

(** [int(message.headers["x-retry-count"])], or 0 without the header. *)
Definition header_retry_count (m : IncomingMessage) : result Z :=
  match headers (incoming m) !! "x-retry-count" with
  | None => Ok 0
  | Some (HInt z) => Ok z
  | Some (HStr s) =>
      match py_int s with
      | Some z => Ok z
      | None => Raise ValueError
      end
  end.

(** [min(2 ** retry_count, 60)]; a negative exponent gives a fraction. *)
Definition backoff (retry_count : Z) : Q := Qmin (Qpower (2 # 1) retry_count) (60 # 1).

Definition retry_message (m : IncomingMessage) (retry_count : Z) : Message :=
  mkMessage (body (incoming m)) PERSISTENT (content_type (incoming m))
    (<["x-retry-count" := HInt retry_count]> (headers (incoming m))).

(** The [async with message.process(requeue=False)] block: a body that
    returns is acknowledged, a body that raises is rejected. *)
Definition process (requeue : bool) (block : result (list effect))
  : list effect * settlement :=
  match block with
  | Ok effects => (effects, Ack)
  | Raise _ => ([], Reject requeue)
  end.

Section Consumer.

(** [decode] is [deserialize_event(json.loads(body))]; [handler e] is
    [None] when the handler returns and the exception when it raises. *)
Variable decode : string -> option Event.
Variable handler : Event -> option exn.
Variable max_retries : Z.

(** The [except Exception] branch, with the key the retry is routed by. *)
Definition on_exception (e : exn) (key : string) (m : IncomingMessage)
  : result (list effect) :=
  match header_retry_count m with
  | Raise e' => Raise e'
  | Ok retry_count =>
      let retry_count := (retry_count + 1)%Z in
      if (retry_count <=? max_retries)%Z
      then Ok [Sleep (backoff retry_count);
               Publish exchange_name (retry_message m retry_count) key]
      else Raise e
  end.

(** The [try] block of [subscribe_to_event]: decode, read the retry
    count for the log line, call the handler. *)
Definition try_event (m : IncomingMessage) : option exn :=
  match decode (body (incoming m)) with
  | None => Some DecodeError
  | Some event =>
      match header_retry_count m with
      | Raise e => Some e
      | Ok _ => handler event
      end
  end.

Definition subscribe_to_event_process_message (event_type : EventType.t)
    (m : IncomingMessage) : list effect * settlement :=
  process false
    match try_event m with
    | None => Ok []
    | Some e => on_exception e (EventType.value event_type) m
    end.

Definition try_pattern (m : IncomingMessage) : option exn :=
  match decode (body (incoming m)) with
  | None => Some DecodeError
  | Some event => handler event
  end.

Definition subscribe_to_pattern_process_message (pattern : string)
    (m : IncomingMessage) : list effect * settlement :=
  process false
    match try_pattern m with
    | None => Ok []
    | Some e =>
        on_exception e
          (if String.eqb (routing_key m) "" then pattern else routing_key m) m
    end.

End Consumer.

Section Publishing.

Variable encode : Event -> string.

(** [publish_event(event, routing_key)] on a connected broker. *)
Definition publish_event (event : Event) (key : option string) : effect :=
  let key :=
    match key with
    | Some k => if String.eqb k "" then EventType.value (event_type event) else k
    | None => EventType.value (event_type event)
    end in
  Publish exchange_name
    (mkMessage (encode event) PERSISTENT (Some "application/json")
       (<["event_type" := HStr (EventType.value (event_type event))]>
       (<["event_id" := HStr (uuid_str (event_id event))]>
       (<["correlation_id" := HStr (uuid_str (correlation_id event))]>
       (<["version" := HInt (version event)]> ∅)))))
    key.

End Publishing.

End MessageBroker.

(** ** The order service (src/services/order_service) *)

Module OrderStatus.
Inductive t :=
| PENDING | INVENTORY_RESERVED | PAYMENT_PROCESSING | CONFIRMED | CANCELLED | FAILED.
Definition value (s : t) : string :=
  match s with
  | PENDING => "pending"
  | INVENTORY_RESERVED => "inventory_reserved"
  | PAYMENT_PROCESSING => "payment_processing"
  | CONFIRMED => "confirmed"
  | CANCELLED => "cancelled"
  | FAILED => "failed"
  end.
End OrderStatus.

Module SagaStep.
Inductive t :=
| ORDER_PLACED | INVENTORY_RESERVATION | PAYMENT_PROCESSING
| SHIPPING_SCHEDULING | ORDER_CONFIRMATION.
Definition value (s : t) : string :=
  match s with
  | ORDER_PLACED => "order_placed"
  | INVENTORY_RESERVATION => "inventory_reservation"
  | PAYMENT_PROCESSING => "payment_processing"
  | SHIPPING_SCHEDULING => "shipping_scheduling"
  | ORDER_CONFIRMATION => "order_confirmation"
  end.
End SagaStep.

(** A decoded JSON request body. *)
#[local] Set Warnings "-register-all".
Inductive json :=
| JNull
| JBool (b : bool)
| JInt (z : Z)
| JFloat (q : Q)
| JStr (s : string)
| JArr (elements : list json)
| JObj (fields : list (string * json)).
#[local] Set Warnings "register-all".

Module OrderService.

Record Order := mkOrder
  { o_id : UUID;
    o_customer_id : UUID;
    o_status : OrderStatus.t;
    o_current_saga_step : SagaStep.t;
    o_items : list OrderLine;
    o_total_amount : Q;
    o_shipping_address : list (string * json);
    o_correlation_id : UUID;
    o_reservation_id : option UUID;
    o_transaction_id : option UUID;
    o_shipping_id : option UUID;
    o_error_message : option string;
    o_created_at : datetime }.

Record SagaLog := mkSagaLog
  { log_order_id : UUID;
    log_correlation_id : UUID;
    log_step : string;
    log_event_type : string;
    log_event_id : UUID;
    log_status : string;
    log_error_message : option string;
    log_created_at : datetime }.

Record Tables := mkTables
  { orders : list Order;
    saga_logs : list SagaLog }.

Definition Session := Db Tables.

(** Assignments to the attributes of a loaded order. *)
Definition set_status (s : OrderStatus.t) (o : Order) : Order :=
  mkOrder (o_id o) (o_customer_id o) s (o_current_saga_step o) (o_items o)
    (o_total_amount o) (o_shipping_address o) (o_correlation_id o)
    (o_reservation_id o) (o_transaction_id o) (o_shipping_id o)
    (o_error_message o) (o_created_at o).

Definition set_current_saga_step (s : SagaStep.t) (o : Order) : Order :=
  mkOrder (o_id o) (o_customer_id o) (o_status o) s (o_items o)
    (o_total_amount o) (o_shipping_address o) (o_correlation_id o)
    (o_reservation_id o) (o_transaction_id o) (o_shipping_id o)
    (o_error_message o) (o_created_at o).

Definition set_reservation_id (r : option UUID) (o : Order) : Order :=
  mkOrder (o_id o) (o_customer_id o) (o_status o) (o_current_saga_step o)
    (o_items o) (o_total_amount o) (o_shipping_address o) (o_correlation_id o)
    r (o_transaction_id o) (o_shipping_id o) (o_error_message o)
    (o_created_at o).

Definition set_transaction_id (t : option UUID) (o : Order) : Order :=
  mkOrder (o_id o) (o_customer_id o) (o_status o) (o_current_saga_step o)
    (o_items o) (o_total_amount o) (o_shipping_address o) (o_correlation_id o)
    (o_reservation_id o) t (o_shipping_id o) (o_error_message o)
    (o_created_at o).

Definition set_error_message (e : option string) (o : Order) : Order :=
  mkOrder (o_id o) (o_customer_id o) (o_status o) (o_current_saga_step o)
    (o_items o) (o_total_amount o) (o_shipping_address o) (o_correlation_id o)
    (o_reservation_id o) (o_transaction_id o) (o_shipping_id o) e
    (o_created_at o).

(** [select(Order).where(Order.id == order_id)] *)
Definition select_order (order_id : UUID) (t : Tables) : list Order :=
  List.filter (fun o => N.eqb (o_id o) order_id) (orders t).

Definition _get_order (order_id : UUID) : M Session (option Order) :=
  t <- read_tables ;;
  lift (scalar_one_or_none (select_order order_id t)).

Definition _log_saga_step (now : datetime) (order_id correlation : UUID)
    (step event_type : string) (event : UUID) (status : string)
    (error_message : option string) : M Session unit :=
  write_tables (fun t =>
    mkTables (orders t)
      (saga_logs t ++
         [mkSagaLog order_id correlation step event_type event status
            error_message now])).

(** [session.add(order)] for a new order, written by [session.commit()].
    The JSONB column [items] is serialised with [json.dumps] (the engine
    is created without a [json_serializer]), which raises on the
    [uuid.UUID] that every line of [item.model_dump()] holds: the commit
    raises unless the order has no line, and nothing is written. *)
Definition add_order (o : Order) : M Session unit :=
  match o_items o with
  | [] => write_tables (fun t => mkTables (orders t ++ [o]) (saga_logs t))
  | _ :: _ => raise StatementError
  end.

(** [session.commit()] with a loaded order dirty: its row is rewritten. *)
Definition commit_order (o : Order) : M Session unit :=
  write_tables (fun t =>
    mkTables
      (List.map (fun x => if N.eqb (o_id x) (o_id o) then o else x) (orders t))
      (saga_logs t)).

(** The check that [OrderPlacedEvent.shipping_address : Dict[str, str]]
    makes when the event is built. *)
Fixpoint str_dict (d : list (string * json)) : option JsonObject :=
  match d with
  | [] => Some []
  | (k, JStr v) :: r =>
      match str_dict r with
      | Some r' => Some ((k, v) :: r')
      | None => None
      end
  | _ :: _ => None
  end.

Definition start_order_saga (now : datetime) (customer_id : UUID)
    (items : list OrderLine) (total_amount : Q)
    (shipping_address payment_method : list (string * json))
  : M Session Order :=
  correlation <- uuid4 ;;
  oid <- uuid4 ;;
  let order :=
    mkOrder oid customer_id OrderStatus.PENDING SagaStep.ORDER_PLACED items
      total_amount shipping_address correlation None None None None now in
  match str_dict shipping_address with
  | None => raise ValidationError
  | Some address =>
      event <- new_event now (o_id order) correlation None
                 (OrderPlacedEvent customer_id items total_amount address) ;;
      save_event_to_outbox now event ;;;
      _log_saga_step now (o_id order) correlation
        (SagaStep.value SagaStep.ORDER_PLACED)
        (EventType.value EventType.ORDER_PLACED) (event_id event)
        "completed" None ;;;
      inventory_event <-
        new_event now (o_id order) correlation (Some (event_id event))
          (InventoryReserveRequestedEvent (o_id order)
             (List.map (fun item =>
                mkItem (line_product_id item) (line_quantity item)) items)) ;;
      save_event_to_outbox now inventory_event ;;;
      let order := set_current_saga_step SagaStep.INVENTORY_RESERVATION order in
      _log_saga_step now (o_id order) correlation
        (SagaStep.value SagaStep.INVENTORY_RESERVATION)
        (EventType.value EventType.INVENTORY_RESERVE_REQUESTED)
        (event_id inventory_event) "started" None ;;;
      add_order order ;;;
      ret order
  end.

Definition handle_inventory_reserved (now : datetime) (event : Event)
    (order_id reservation_id : UUID) : M Session unit :=
  found <- _get_order order_id ;;
  match found with
  | None => ret tt
  | Some order =>
      let order := set_status OrderStatus.INVENTORY_RESERVED order in
      let order := set_reservation_id (Some reservation_id) order in
      let order := set_current_saga_step SagaStep.PAYMENT_PROCESSING order in
      _log_saga_step now (o_id order) (correlation_id event)
        (SagaStep.value SagaStep.INVENTORY_RESERVATION)
        (EventType.value (event_type event)) (event_id event)
        "completed" None ;;;
      payment_event <-
        new_event now (o_id order) (correlation_id event)
          (Some (event_id event))
          (PaymentRequestedEvent (o_id order) (o_customer_id order)
             (o_total_amount order) "USD" [("type", "credit_card")]) ;;
      save_event_to_outbox now payment_event ;;;
      _log_saga_step now (o_id order) (correlation_id event)
        (SagaStep.value SagaStep.PAYMENT_PROCESSING)
        (EventType.value EventType.PAYMENT_REQUESTED)
        (event_id payment_event) "started" None ;;;
      commit_order order
  end.

Definition handle_inventory_reserve_failed (now : datetime) (event : Event)
    (order_id : UUID) (reason : string) : M Session unit :=
  found <- _get_order order_id ;;
  match found with
  | None => ret tt
  | Some order =>
      let order := set_status OrderStatus.FAILED order in
      let order := set_error_message (Some reason) order in
      _log_saga_step now (o_id order) (correlation_id event)
        (SagaStep.value SagaStep.INVENTORY_RESERVATION)
        (EventType.value (event_type event)) (event_id event)
        "failed" (Some reason) ;;;
      failed_event <-
        new_event now (o_id order) (correlation_id event)
          (Some (event_id event))
          (OrderFailedEvent (o_id order) reason "inventory_reservation") ;;
      save_event_to_outbox now failed_event ;;;
      commit_order order
  end.

Definition handle_payment_processed (now : datetime) (event : Event)
    (order_id transaction_id : UUID) : M Session unit :=
  found <- _get_order order_id ;;
  match found with
  | None => ret tt
  | Some order =>
      let order := set_status OrderStatus.CONFIRMED order in
      let order := set_transaction_id (Some transaction_id) order in
      let order := set_current_saga_step SagaStep.ORDER_CONFIRMATION order in
      _log_saga_step now (o_id order) (correlation_id event)
        (SagaStep.value SagaStep.PAYMENT_PROCESSING)
        (EventType.value (event_type event)) (event_id event)
        "completed" None ;;;
      confirmed_event <-
        new_event now (o_id order) (correlation_id event)
          (Some (event_id event)) (OrderConfirmedEvent (o_id order)) ;;
      save_event_to_outbox now confirmed_event ;;;
      _log_saga_step now (o_id order) (correlation_id event)
        (SagaStep.value SagaStep.ORDER_CONFIRMATION)
        (EventType.value EventType.ORDER_CONFIRMED)
        (event_id confirmed_event) "completed" None ;;;
      commit_order order
  end.

Definition handle_payment_failed (now : datetime) (event : Event)
    (order_id : UUID) (reason : string) : M Session unit :=
  found <- _get_order order_id ;;
  match found with
  | None => ret tt
  | Some order =>
      let order := set_status OrderStatus.FAILED order in
      let order := set_error_message (Some reason) order in
      _log_saga_step now (o_id order) (correlation_id event)
        (SagaStep.value SagaStep.PAYMENT_PROCESSING)
        (EventType.value (event_type event)) (event_id event)
        "failed" (Some reason) ;;;
      match o_reservation_id order with
      | Some reservation =>
          release_event <-
            new_event now (o_id order) (correlation_id event)
              (Some (event_id event))
              (InventoryReleasedEvent (o_id order) reservation) ;;
          save_event_to_outbox now release_event ;;;
          _log_saga_step now (o_id order) (correlation_id event)
            "compensation" (EventType.value EventType.INVENTORY_RELEASED)
            (event_id release_event) "compensated" None
      | None => ret tt
      end ;;;
      failed_event <-
        new_event now (o_id order) (correlation_id event)
          (Some (event_id event))
          (OrderFailedEvent (o_id order) reason "payment_processing") ;;
      save_event_to_outbox now failed_event ;;;
      commit_order order
  end.

(** The subscriptions of [subscribe_to_events]: each queue is bound to
    one event type and hands the decoded event to its handler. *)
Definition subscribe_to_events (now : datetime) (event : Event)
  : M Session unit :=
  match payload event with
  | InventoryReservedEvent order_id reservation_id _ =>
      handle_inventory_reserved now event order_id reservation_id
  | InventoryReserveFailedEvent order_id reason _ =>
      handle_inventory_reserve_failed now event order_id reason
  | PaymentProcessedEvent order_id transaction_id _ _ =>
      handle_payment_processed now event order_id transaction_id
  | PaymentFailedEvent order_id reason _ =>
      handle_payment_failed now event order_id reason
  | _ => ret tt
  end.

(** *** The HTTP surface: [POST /orders] (app.py) *)

Definition slice {A} (i n : nat) (l : list A) : list A :=
  List.firstn n (List.skipn i l).

Definition hex_value_char (c : ascii) : option N :=
  let n := nat_of_ascii c in
  if ((48 <=? n) && (n <=? 57))%nat then Some (N.of_nat (n - 48))
  else if ((97 <=? n) && (n <=? 102))%nat then Some (N.of_nat (n - 87))
  else if ((65 <=? n) && (n <=? 70))%nat then Some (N.of_nat (n - 55))
  else None.

Fixpoint hex_value (acc : N) (cs : list ascii) : option N :=
  match cs with
  | [] => Some acc
  | c :: r =>
      match hex_value_char c with
      | Some d => hex_value (16 * acc + d)%N r
      | None => None
      end
  end.

(** The text of a UUID field: thirty-two hexadecimal digits, plain or
    grouped 8-4-4-4-12 by hyphens. *)
Definition parse_uuid (s : string) : option UUID :=
  let cs := list_ascii_of_string s in
  let hyphen := "-"%char in
  if (List.length cs =? 32)%nat then hex_value 0 cs
  else if ((List.length cs =? 36)%nat
           && Ascii.eqb (List.nth 8 cs " "%char) hyphen
           && Ascii.eqb (List.nth 13 cs " "%char) hyphen
           && Ascii.eqb (List.nth 18 cs " "%char) hyphen
           && Ascii.eqb (List.nth 23 cs " "%char) hyphen)%bool
  then hex_value 0
         (slice 0 8 cs ++ slice 9 4 cs ++ slice 14 4 cs ++ slice 19 4 cs
            ++ slice 24 12 cs)
  else None.

(** The value of key [k] of a JSON object; the last binding wins. *)
Fixpoint field (k : string) (fields : list (string * json)) : option json :=
  match fields with
  | [] => None
  | (k', v) :: r =>
      match field k r with
      | Some v' => Some v'
      | None => if String.eqb k' k then Some v else None
      end
  end.

Definition validate_uuid (j : option json) : option UUID :=
  match j with
  | Some (JStr s) => parse_uuid s
  | _ => None
  end.

Definition validate_int (j : option json) : option Z :=
  match j with
  | Some (JInt z) => Some z
  | _ => None
  end.

Definition validate_float (j : option json) : option Q :=
  match j with
  | Some (JInt z) => Some (inject_Z z)
  | Some (JFloat q) => Some q
  | _ => None
  end.

Definition validate_dict (j : option json) : option (list (string * json)) :=
  match j with
  | Some (JObj fields) => Some fields
  | _ => None
  end.

(** [class OrderItem(BaseModel)] *)
Definition validate_OrderItem (j : json) : option OrderLine :=
  match j with
  | JObj fields =>
      match validate_uuid (field "product_id" fields),
            validate_int (field "quantity" fields),
            validate_float (field "price" fields) with
      | Some p, Some q, Some c => Some (mkOrderLine p q c)
      | _, _, _ => None
      end
  | _ => None
  end.

(** [items: List[OrderItem]]: any list whose elements validate. *)
Fixpoint validate_items (elements : list json) : option (list OrderLine) :=
  match elements with
  | [] => Some []
  | j :: r =>
      match validate_OrderItem j, validate_items r with
      | Some i, Some r' => Some (i :: r')
      | _, _ => None
      end
  end.

Record CreateOrderRequest := mkCreateOrderRequest
  { req_customer_id : UUID;
    req_items : list OrderLine;
    req_shipping_address : list (string * json);
    req_payment_method : list (string * json) }.

(** [class CreateOrderRequest(BaseModel)] *)
Definition validate_CreateOrderRequest (j : json) : option CreateOrderRequest :=
  match j with
  | JObj fields =>
      match validate_uuid (field "customer_id" fields),
            field "items" fields,
            validate_dict (field "shipping_address" fields),
            validate_dict (field "payment_method" fields) with
      | Some c, Some (JArr elements), Some a, Some p =>
          match validate_items elements with
          | Some items => Some (mkCreateOrderRequest c items a p)
          | None => None
          end
      | _, _, _, _ => None
      end
  | _ => None
  end.

Inductive Response :=
| Created (order : Order)
| UnprocessableEntity.

(** [sum(item.price * item.quantity for item in request.items)] *)
Definition order_total (items : list OrderLine) : Q :=
  List.fold_left
    (fun acc item => acc + line_price item * inject_Z (line_quantity item))%Q
    items 0%Q.

Definition create_order (now : datetime) (request : CreateOrderRequest)
  : M Session Response :=
  let total_amount := order_total (req_items request) in
  order <- start_order_saga now (req_customer_id request) (req_items request)
             total_amount (req_shipping_address request)
             (req_payment_method request) ;;
  ret (Created order).

(** The route: the body is validated against [CreateOrderRequest] before
    [create_order] runs; a body that fails is answered 422. *)
Definition post_orders (now : datetime) (body : json) : M Session Response :=
  match validate_CreateOrderRequest body with
  | None => ret UnprocessableEntity
  | Some request => create_order now request
  end.

End OrderService.

(** ** The inventory service (src/services/inventory_service) *)

Module ReservationStatus.
Inductive t := ACTIVE | RELEASED | EXPIRED.
Definition value (s : t) : string :=
  match s with
  | ACTIVE => "active" | RELEASED => "released" | EXPIRED => "expired"
  end.
Definition eqb (a b : t) : bool :=
  match a, b with
  | ACTIVE, ACTIVE | RELEASED, RELEASED | EXPIRED, EXPIRED => true
  | _, _ => false
  end.
End ReservationStatus.

Module InventoryService.

Record Product := mkProduct
  { p_id : UUID;
    p_name : string;
    p_price : Q;
    available_quantity : Z;
    reserved_quantity : Z }.

Record Reservation := mkReservation
  { r_id : UUID;
    r_order_id : UUID;
    r_correlation_id : UUID;
    r_status : ReservationStatus.t;
    r_items : list Item;
    r_created_at : datetime;
    r_released_at : option datetime }.

Record Tables := mkTables
  { products : list Product;
    reservations : list Reservation }.

Definition Session := Db Tables.

(** [select(Product).where(Product.id == product_id)] *)
Definition select_product (pid : UUID) (t : Tables) : list Product :=
  List.filter (fun p => N.eqb (p_id p) pid) (products t).

(** [update(Product).where(Product.id == pid).values(available_quantity =
    available_quantity + da, reserved_quantity = reserved_quantity + dr)] *)
Definition update_product (pid : UUID) (da dr : Z) : M Session unit :=
  write_tables (fun t =>
    mkTables
      (List.map (fun p =>
         if N.eqb (p_id p) pid
         then mkProduct (p_id p) (p_name p) (p_price p)
                (available_quantity p + da) (reserved_quantity p + dr)
         else p) (products t))
      (reservations t)).

(** [session.add(reservation)]; [order_id] is UNIQUE. *)
Definition add_reservation (r : Reservation) : M Session unit :=
  t <- read_tables ;;
  if List.existsb (fun x => N.eqb (r_order_id x) (r_order_id r)) (reservations t)
  then raise IntegrityError
  else write_tables (fun t => mkTables (products t) (reservations t ++ [r])).

(** The first loop of [handle_reserve_requested]: the items that cannot
    be served, in request order. *)
Fixpoint check_availability (items : list Item) : M Session (list Unavailable) :=
  match items with
  | [] => ret []
  | item :: rest =>
      t <- read_tables ;;
      product <- lift (scalar_one_or_none (select_product (product_id item) t)) ;;
      let here :=
        match product with
        | None => [mkUnavailable (uuid_str (product_id item)) (quantity item) 0]
        | Some p =>
            if (available_quantity p <? quantity item)%Z
            then [mkUnavailable (uuid_str (product_id item)) (quantity item)
                    (available_quantity p)]
            else []
        end in
      others <- check_availability rest ;;
      ret (here ++ others)
  end.

Definition handle_reserve_requested (now : datetime) (event : Event)
    (order_id : UUID) (items : list Item) : M Session unit :=
  t <- read_tables ;;
  existing_reservation <-
    lift (scalar_one_or_none
            (List.filter (fun r => N.eqb (r_order_id r) order_id)
               (reservations t))) ;;
  match existing_reservation with
  | Some existing =>
      success_event <-
        new_event now (aggregate_id event) (correlation_id event)
          (Some (event_id event))
          (InventoryReservedEvent order_id (r_id existing) (r_items existing)) ;;
      save_event_to_outbox now success_event
  | None =>
      unavailable_items <- check_availability items ;;
      match unavailable_items with
      | _ :: _ =>
          failure_event <-
            new_event now (aggregate_id event) (correlation_id event)
              (Some (event_id event))
              (InventoryReserveFailedEvent order_id "Insufficient inventory"
                 unavailable_items) ;;
          save_event_to_outbox now failure_event
      | [] =>
          for_each items (fun item =>
            update_product (product_id item) (- quantity item) (quantity item)) ;;;
          rid <- uuid4 ;;
          let reservation :=
            mkReservation rid order_id (correlation_id event)
              ReservationStatus.ACTIVE items now None in
          add_reservation reservation ;;;
          success_event <-
            new_event now (aggregate_id event) (correlation_id event)
              (Some (event_id event))
              (InventoryReservedEvent order_id (r_id reservation) items) ;;
          save_event_to_outbox now success_event
      end
  end.

(** [session.commit()] with the loaded reservation marked released. *)
Definition commit_released (now : datetime) (r : Reservation) : M Session unit :=
  write_tables (fun t =>
    mkTables (products t)
      (List.map (fun x =>
         if N.eqb (r_id x) (r_id r)
         then mkReservation (r_id r) (r_order_id r) (r_correlation_id r)
                ReservationStatus.RELEASED (r_items r) (r_created_at r)
                (Some now)
         else x) (reservations t))).

Definition handle_release_inventory (now : datetime) (event : Event)
    (order_id reservation_id : UUID) : M Session unit :=
  t <- read_tables ;;
  found <-
    lift (scalar_one_or_none
            (List.filter (fun r => N.eqb (r_id r) reservation_id
                                   && N.eqb (r_order_id r) order_id)
               (reservations t))) ;;
  match found with
  | None => ret tt
  | Some reservation =>
      if ReservationStatus.eqb (r_status reservation) ReservationStatus.RELEASED
      then ret tt
      else
        for_each (r_items reservation) (fun item =>
          update_product (product_id item) (quantity item) (- quantity item)) ;;;
        commit_released now reservation
  end.

Definition subscribe_to_events (now : datetime) (event : Event)
  : M Session unit :=
  match payload event with
  | InventoryReserveRequestedEvent order_id items =>
      handle_reserve_requested now event order_id items
  | InventoryReleasedEvent order_id reservation_id =>
      handle_release_inventory now event order_id reservation_id
  | _ => ret tt
  end.

End InventoryService.

(** ** The payment service (src/services/payment_service) *)

Module TransactionStatus.
Inductive t := PENDING | PROCESSING | COMPLETED | FAILED | REFUNDED.
Definition value (s : t) : string :=
  match s with
  | PENDING => "pending" | PROCESSING => "processing"
  | COMPLETED => "completed" | FAILED => "failed" | REFUNDED => "refunded"
  end.
End TransactionStatus.

Module PaymentService.

(** The JSON kept in [payment_gateway_response]. *)
Inductive GatewayResponse :=
| GatewaySuccess (gateway_transaction_id : string)
| GatewayFailed (error : option string).

Record Transaction := mkTransaction
  { t_id : UUID;
    t_order_id : UUID;
    t_customer_id : UUID;
    t_correlation_id : UUID;
    t_idempotency_key : string;
    t_amount : Q;
    t_currency : string;
    t_status : TransactionStatus.t;
    t_payment_method : JsonObject;
    t_payment_gateway_response : option GatewayResponse;
    t_error_message : option string;
    t_created_at : datetime;
    t_processed_at : option datetime }.

(** A row of [refunds]; of [refund_gateway_response] the generated
    [gateway_refund_id] is kept. *)
Record Refund := mkRefund
  { f_id : UUID;
    f_transaction_id : UUID;
    f_order_id : UUID;
    f_correlation_id : UUID;
    f_amount : Q;
    f_reason : option string;
    f_status : string;
    f_gateway_refund_id : string;
    f_created_at : datetime;
    f_processed_at : option datetime }.

(** The [transactions] table, a count of the calls made to the
    gateway ([process_payment]), which is not a table but is what the
    idempotency of the handler is about, and the [refunds] table. *)
Record Tables := mkTables
  { transactions : list Transaction;
    gateway_calls : nat;
    refunds : list Refund }.

Definition Session := Db Tables.

(** The two random draws of [process_payment]: [random.random()] and the
    index [random.choice] picks. *)
Record Draw := mkDraw { roll : Q; pick : nat }.

Definition error_messages : list string :=
  ["Insufficient funds"; "Card declined"; "Payment gateway timeout";
   "Invalid payment method"].

Definition process_payment (draw : Draw) : M Session (bool * option string) :=
  write_tables (fun t =>
    mkTables (transactions t) (S (gateway_calls t)) (refunds t)) ;;;
  if negb (Qle_bool (2 # 10) (roll draw))
  then ret (false,
            Some (List.nth (pick draw mod 4)%nat error_messages ""))
  else ret (true, None).

Definition idempotency_key_of (order_id : UUID) : string :=
  "payment_" ++ uuid_str order_id.

(** [select(Transaction).where(idempotency_key == key)] *)
Definition select_transaction (key : string) (t : Tables) : list Transaction :=
  List.filter (fun x => String.eqb (t_idempotency_key x) key) (transactions t).

(** [session.add(transaction); session.commit()]: [order_id] and
    [idempotency_key] are UNIQUE. *)
Definition add_transaction (x : Transaction) : M Session unit :=
  t <- read_tables ;;
  if List.existsb
       (fun y => N.eqb (t_order_id y) (t_order_id x)
                 || String.eqb (t_idempotency_key y) (t_idempotency_key x))
       (transactions t)
  then raise IntegrityError
  else write_tables (fun t =>
         mkTables (transactions t ++ [x]) (gateway_calls t) (refunds t)).

(** The second commit, with the loaded transaction dirty. *)
Definition commit_transaction (x : Transaction) : M Session unit :=
  write_tables (fun t =>
    mkTables
      (List.map (fun y => if N.eqb (t_id y) (t_id x) then x else y)
         (transactions t))
      (gateway_calls t) (refunds t)).

Definition settle (status : TransactionStatus.t) (now : datetime)
    (response : GatewayResponse) (error_message : option string)
    (x : Transaction) : Transaction :=
  mkTransaction (t_id x) (t_order_id x) (t_customer_id x) (t_correlation_id x)
    (t_idempotency_key x) (t_amount x) (t_currency x) status
    (t_payment_method x) (Some response) error_message (t_created_at x)
    (Some now).

(** [s or default] on an optional text. *)
Definition or_default (s : option string) (default : string) : string :=
  match s with
  | Some v => if String.eqb v "" then default else v
  | None => default
  end.

(** The branch taken when a transaction with the key already exists. *)
Definition replay_existing (now : datetime) (event : Event) (order_id : UUID)
    (existing : Transaction) : M Session unit :=
  match t_status existing with
  | TransactionStatus.COMPLETED =>
      success_event <-
        new_event now (aggregate_id event) (correlation_id event)
          (Some (event_id event))
          (PaymentProcessedEvent order_id (t_id existing) (t_amount existing)
             (t_currency existing)) ;;
      save_event_to_outbox now success_event
  | TransactionStatus.FAILED =>
      failure_event <-
        new_event now (aggregate_id event) (correlation_id event)
          (Some (event_id event))
          (PaymentFailedEvent order_id
             (or_default (t_error_message existing) "Unknown error")
             (Some "PAYMENT_FAILED")) ;;
      save_event_to_outbox now failure_event
  | _ => ret tt
  end.

(** Up to the first commit: the new row with status [processing]. *)
Definition create_transaction (now : datetime) (event : Event)
    (order_id customer_id : UUID) (amount : Q) (currency : string)
    (payment_method : JsonObject) : M Session Transaction :=
  tid <- uuid4 ;;
  let transaction :=
    mkTransaction tid order_id customer_id (correlation_id event)
      (idempotency_key_of order_id) amount currency
      TransactionStatus.PROCESSING payment_method None None now None in
  add_transaction transaction ;;;
  ret transaction.

(** From the gateway call to the second commit. *)
Definition complete_transaction (now : datetime) (draw : Draw) (event : Event)
    (order_id : UUID) (amount : Q) (currency : string)
    (transaction : Transaction) : M Session unit :=
  outcome <- process_payment draw ;;
  let '(success, error_message) := outcome in
  if (success : bool)
  then
    gateway_id <- uuid4 ;;
    let transaction :=
      settle TransactionStatus.COMPLETED now
        (GatewaySuccess (uuid_str gateway_id))
        (t_error_message transaction) transaction in
    success_event <-
      new_event now (aggregate_id event) (correlation_id event)
        (Some (event_id event))
        (PaymentProcessedEvent order_id (t_id transaction) amount currency) ;;
    save_event_to_outbox now success_event ;;;
    commit_transaction transaction
  else
    let transaction :=
      settle TransactionStatus.FAILED now
        (GatewayFailed error_message)
        error_message transaction in
    failure_event <-
      new_event now (aggregate_id event) (correlation_id event)
        (Some (event_id event))
        (PaymentFailedEvent order_id
           (or_default error_message "Payment processing failed")
           (Some "PAYMENT_FAILED")) ;;
    save_event_to_outbox now failure_event ;;;
    commit_transaction transaction.

Definition handle_payment_requested (now : datetime) (draw : Draw)
    (event : Event) (order_id customer_id : UUID) (amount : Q)
    (currency : string) (payment_method : JsonObject) : M Session unit :=
  t <- read_tables ;;
  existing_transaction <-
    lift (scalar_one_or_none
            (select_transaction (idempotency_key_of order_id) t)) ;;
  match existing_transaction with
  | Some existing => replay_existing now event order_id existing
  | None =>
      transaction <-
        create_transaction now event order_id customer_id amount currency
          payment_method ;;
      complete_transaction now draw event order_id amount currency transaction
  end.

(** [session.add(refund)]; the primary key comes from the event. *)
Definition add_refund (f : Refund) : M Session unit :=
  t <- read_tables ;;
  if List.existsb (fun g => N.eqb (f_id g) (f_id f)) (refunds t)
  then raise IntegrityError
  else write_tables (fun t =>
         mkTables (transactions t) (gateway_calls t) (refunds t ++ [f])).

Definition mark_refunded (x : Transaction) : Transaction :=
  mkTransaction (t_id x) (t_order_id x) (t_customer_id x) (t_correlation_id x)
    (t_idempotency_key x) (t_amount x) (t_currency x)
    TransactionStatus.REFUNDED (t_payment_method x)
    (t_payment_gateway_response x) (t_error_message x) (t_created_at x)
    (t_processed_at x).

(** [transaction.status = REFUNDED], written at commit. *)
Definition commit_refunded (x : Transaction) : M Session unit :=
  write_tables (fun t =>
    mkTables
      (List.map (fun y => if N.eqb (t_id y) (t_id x) then mark_refunded x
                          else y)
         (transactions t))
      (gateway_calls t) (refunds t)).

Definition handle_payment_refund (now : datetime) (event : Event)
    (order_id transaction_id refund_id : UUID) (amount : Q) : M Session unit :=
  t <- read_tables ;;
  found <-
    lift (scalar_one_or_none
            (List.filter (fun x => N.eqb (t_id x) transaction_id)
               (transactions t))) ;;
  match found with
  | None => ret tt
  | Some transaction =>
      match t_status transaction with
      | TransactionStatus.COMPLETED =>
          existing_refund <-
            lift (scalar_one_or_none
                    (List.filter
                       (fun f => N.eqb (f_transaction_id f) transaction_id
                                 && String.eqb (f_status f) "completed")
                       (refunds t))) ;;
          match existing_refund with
          | Some _ => ret tt
          | None =>
              gateway_id <- uuid4 ;;
              let refund :=
                mkRefund refund_id transaction_id order_id
                  (correlation_id event) amount (Some "Order cancellation")
                  "completed" (uuid_str gateway_id) now (Some now) in
              add_refund refund ;;;
              commit_refunded transaction
          end
      | _ => ret tt
      end
  end.

(** The two subscriptions of the service: [payment.requested] and
    [payment.refunded]. *)
Definition subscribe_to_events (now : datetime) (draw : Draw) (event : Event)
  : M Session unit :=
  match payload event with
  | PaymentRequestedEvent order_id customer_id amount currency payment_method =>
      handle_payment_requested now draw event order_id customer_id amount
        currency payment_method
  | PaymentRefundedEvent order_id transaction_id refund_id amount =>
      handle_payment_refund now event order_id transaction_id refund_id amount
  | _ => ret tt
  end.

End PaymentService.

(** ** The shipping service (src/services/shipping_service) *)

Module ShippingService.

Record Shipment := mkShipment
  { s_id : UUID;
    s_order_id : UUID;
    s_correlation_id : UUID;
    s_status : string;
    s_shipping_address : JsonObject;
    s_estimated_delivery : datetime;
    s_tracking_number : string }.

Definition Session := Db (list Shipment).

(** [timedelta(days=4)], in seconds. *)
Definition four_days : Z := 4 * 86400.

(** [metadata.get("shipping_address", {})] *)
Fixpoint metadata_get (k : string) (m : list (string * JsonObject)) : JsonObject :=
  match m with
  | [] => []
  | (k', v) :: r => if String.eqb k' k then v else metadata_get k r
  end.

Definition handle_order_confirmed (now : datetime) (event : Event)
    (order_id : UUID) : M Session unit :=
  shipments <- read_tables ;;
  existing_shipment <-
    lift (scalar_one_or_none
            (List.filter (fun s => N.eqb (s_order_id s) order_id) shipments)) ;;
  match existing_shipment with
  | Some _ => ret tt
  | None =>
      let shipping_address := metadata_get "shipping_address" (metadata event) in
      let estimated_delivery := (now + four_days)%Z in
      sid <- uuid4 ;;
      tracking <- uuid4 ;;
      let shipment :=
        mkShipment sid order_id (correlation_id event) "scheduled"
          shipping_address estimated_delivery
          ("TRK" ++ upper (substring 0 12 (uuid_hex tracking))) in
      write_tables (fun t => t ++ [shipment]) ;;;
      scheduled_event <-
        new_event now order_id (correlation_id event) (Some (event_id event))
          (ShippingScheduledEvent order_id (s_id shipment) estimated_delivery
             shipping_address) ;;
      save_event_to_outbox now scheduled_event
  end.

Definition subscribe_to_events (now : datetime) (event : Event)
  : M Session unit :=
  match payload event with
  | OrderConfirmedEvent order_id => handle_order_confirmed now event order_id
  | _ => ret tt
  end.

End ShippingService.

(** ** The statements to be proved, and the invariants they need *)

(** [e] was emitted in response to [trigger]. *)
Definition caused_by (trigger e : Event) : Prop :=
  correlation_id e = correlation_id trigger /\
  causation_id e = Some (event_id trigger).

(** The header the consumer reads: absent, read as 0, or an integer. *)
Definition retry_header (m : MessageBroker.IncomingMessage) (n : Z) : Prop :=
  (MessageBroker.headers (MessageBroker.incoming m) !! "x-retry-count" = None
   /\ n = 0) \/
  MessageBroker.headers (MessageBroker.incoming m) !! "x-retry-count"
    = Some (MessageBroker.HInt n).

Module Orchestrator.
Import OrderService.

(** The order a reply event is about. *)
Definition reply_order_id (e : Event) : option UUID :=
  match payload e with
  | InventoryReservedEvent order_id _ _
  | InventoryReserveFailedEvent order_id _ _
  | PaymentProcessedEvent order_id _ _ _
  | PaymentFailedEvent order_id _ _ => Some order_id
  | _ => None
  end.

(** The transition table of the orchestrator, read off its handlers:
    what a reply does to the order, and the payloads it sends on.
    [orchestrator_step] below shows that the handlers compute it. *)
Definition transition (p : Payload) (o : Order) : Order :=
  match p with
  | InventoryReservedEvent _ reservation _ =>
      set_current_saga_step SagaStep.PAYMENT_PROCESSING
        (set_reservation_id (Some reservation)
           (set_status OrderStatus.INVENTORY_RESERVED o))
  | InventoryReserveFailedEvent _ reason _ =>
      set_error_message (Some reason) (set_status OrderStatus.FAILED o)
  | PaymentProcessedEvent _ transaction _ _ =>
      set_current_saga_step SagaStep.ORDER_CONFIRMATION
        (set_transaction_id (Some transaction)
           (set_status OrderStatus.CONFIRMED o))
  | PaymentFailedEvent _ reason _ =>
      set_error_message (Some reason) (set_status OrderStatus.FAILED o)
  | _ => o
  end.

Definition downstream (p : Payload) (o : Order) : list Payload :=
  match p with
  | InventoryReservedEvent _ _ _ =>
      [PaymentRequestedEvent (o_id o) (o_customer_id o) (o_total_amount o)
         "USD" [("type", "credit_card")]]
  | InventoryReserveFailedEvent _ reason _ =>
      [OrderFailedEvent (o_id o) reason "inventory_reservation"]
  | PaymentProcessedEvent _ _ _ _ => [OrderConfirmedEvent (o_id o)]
  | PaymentFailedEvent _ reason _ =>
      match o_reservation_id o with
      | Some reservation => [InventoryReleasedEvent (o_id o) reservation]
      | None => []
      end ++ [OrderFailedEvent (o_id o) reason "payment_processing"]
  | _ => []
  end.

(** The primary key of [orders]. *)
Definition keyed (db : Session) : Prop :=
  List.NoDup (List.map o_id (orders (tables db))).

(** The specification's reading of a duplicate reply: the second delivery
    changes neither the order nor the outbox. *)
Definition duplicate_ignored (now1 now2 : datetime) (event : Event)
    (db : Session) : Prop :=
  forall db1 db2,
    exec (subscribe_to_events now1 event) db = Ok db1 ->
    exec (subscribe_to_events now2 event) db1 = Ok db2 ->
    orders (tables db2) = orders (tables db1) /\ outbox db2 = outbox db1.

(** A request body whose [items] is the empty list, and the
    specification's reading of its fate: answered 422, nothing written. *)
Definition empty_items (body : json) : Prop :=
  match body with
  | JObj fields => field "items" fields = Some (JArr [])
  | _ => False
  end.

Definition rejected (now : datetime) (body : json) (db : Session) : Prop :=
  post_orders now body db = Ok (UnprocessableEntity, db).

End Orchestrator.

Module Inventory.
Import InventoryService.

(** The primary keys of [products] and [reservations]. *)
Definition keyed (db : Session) : Prop :=
  List.NoDup (List.map p_id (products (tables db))) /\
  List.NoDup (List.map r_id (reservations (tables db))).

(** The entry of [unavailable_items] an item gives rise to: its product
    is missing, or has less available than requested. *)
Definition shortfall (stock : list Product) (item : Item) : list Unavailable :=
  match List.find (fun p => N.eqb (p_id p) (product_id item)) stock with
  | None => [mkUnavailable (uuid_str (product_id item)) (quantity item) 0]
  | Some p =>
      if (available_quantity p <? quantity item)%Z
      then [mkUnavailable (uuid_str (product_id item)) (quantity item)
              (available_quantity p)]
      else []
  end.

(** The total quantity a list of items asks of one product. *)
Fixpoint demand (pid : UUID) (items : list Item) : Z :=
  match items with
  | [] => 0
  | item :: rest =>
      (if N.eqb pid (product_id item) then quantity item else 0)
      + demand pid rest
  end.

End Inventory.

Module Payment.
Import PaymentService.

(** What holds of every state of the payment database: the UNIQUE
    columns, identifiers drawn from the supply, the key derived from the
    order, and a failed transaction carrying the gateway's message. *)
Definition consistent (db : Session) : Prop :=
  List.NoDup (List.map t_idempotency_key (transactions (tables db))) /\
  List.Forall (fun x =>
    (t_id x < uuid_supply db)%N /\
    t_idempotency_key x = idempotency_key_of (t_order_id x) /\
    (t_status x = TransactionStatus.FAILED ->
     exists m, t_error_message x = Some m /\ m <> ""))
    (transactions (tables db)).

(** The reply a stored transaction determines. *)
Definition stored_reply (order_id : UUID) (x : Transaction) : list Payload :=
  match t_status x with
  | TransactionStatus.COMPLETED =>
      [PaymentProcessedEvent order_id (t_id x) (t_amount x) (t_currency x)]
  | TransactionStatus.FAILED =>
      match t_error_message x with
      | Some m => [PaymentFailedEvent order_id m (Some "PAYMENT_FAILED")]
      | None => []
      end
  | _ => []
  end.

End Payment.

(** The events of one saga: those the run of [start_order_saga] that
    created [order] wrote, and those any service wrote in response to an
    event of the saga. *)
Inductive saga_event (order : OrderService.Order) : Event -> Prop :=
| saga_started now customer items total address method db db' e :
    OrderService.start_order_saga now customer items total address method db
      = Ok (order, db') ->
    List.In e (emitted db db') ->
    saga_event order e
| saga_orchestrator now trigger db db' e :
    saga_event order trigger ->
    exec (OrderService.subscribe_to_events now trigger) db = Ok db' ->
    List.In e (emitted db db') ->
    saga_event order e
| saga_inventory now trigger db db' e :
    saga_event order trigger ->
    exec (InventoryService.subscribe_to_events now trigger) db = Ok db' ->
    List.In e (emitted db db') ->
    saga_event order e
| saga_payment now draw trigger db db' e :
    saga_event order trigger ->
    exec (PaymentService.subscribe_to_events now draw trigger) db = Ok db' ->
    List.In e (emitted db db') ->
    saga_event order e
| saga_shipping now trigger db db' e :
    saga_event order trigger ->
    exec (ShippingService.subscribe_to_events now trigger) db = Ok db' ->
    List.In e (emitted db db') ->
    saga_event order e.

(** ** Concrete instances, used by the examples below *)

Module Examples.

Definition pending_order : OrderService.Order :=
  OrderService.mkOrder 7 1 OrderStatus.PENDING SagaStep.INVENTORY_RESERVATION
    [mkOrderLine 3 2 (100 # 1)] (200 # 1) [("city", JStr "Paris")] 9
    None None None None 0.

Definition pending_db : OrderService.Session :=
  mkDb (OrderService.mkTables [pending_order] []) [] 20.

Definition inventory_reserved : Event :=
  mkEvent 15 7 0 1 9 (Some 11%N) [] (InventoryReservedEvent 7 12 [mkItem 3 2]).

Definition reserved_order : OrderService.Order :=
  OrderService.mkOrder 7 1 OrderStatus.INVENTORY_RESERVED
    SagaStep.PAYMENT_PROCESSING [mkOrderLine 3 2 (100 # 1)] (200 # 1)
    [("city", JStr "Paris")] 9 (Some 12%N) None None None 0.

Definition reserved_db : OrderService.Session :=
  mkDb (OrderService.mkTables [reserved_order] []) [] 30.

Definition payment_failed : Event :=
  mkEvent 25 7 4 1 9 (Some 21%N) []
    (PaymentFailedEvent 7 "Card declined" (Some "PAYMENT_FAILED")).

Definition failing_delivery : MessageBroker.IncomingMessage :=
  MessageBroker.mkIncoming
    (MessageBroker.mkMessage "{}" MessageBroker.PERSISTENT
       (Some "application/json")
       (<["x-retry-count" := MessageBroker.HInt 2]>
          (<["event_type" := MessageBroker.HStr "payment.failed"]> ∅)))
    "payment.failed".

Definition stuck_row : OutboxMessage :=
  mkOutboxMessage 40 "payment.failed" 7 payment_failed OutboxStatus.PENDING 4
    None "2" (Some "broker down").

Definition stuck_db : Db unit := mkDb tt [stuck_row] 41.

Definition laptop : InventoryService.Product :=
  InventoryService.mkProduct 3 "Laptop" (1200 # 1) 50 0.

Definition stock_db : InventoryService.Session :=
  mkDb (InventoryService.mkTables [laptop] []) [] 60.

Definition reserve_requested : Event :=
  mkEvent 11 7 0 1 9 (Some 10%N) []
    (InventoryReserveRequestedEvent 7 [mkItem 3 50]).

Definition held : InventoryService.Reservation :=
  InventoryService.mkReservation 12 7 9 ReservationStatus.ACTIVE
    [mkItem 3 2] 1 None.

Definition held_db : InventoryService.Session :=
  mkDb (InventoryService.mkTables
          [InventoryService.mkProduct 3 "Laptop" (1200 # 1) 48 2] [held])
    [] 70.

Definition inventory_released : Event :=
  mkEvent 30 7 5 1 9 (Some 25%N) [] (InventoryReleasedEvent 7 12).

Definition payment_requested : Event :=
  mkEvent 21 7 2 1 9 (Some 15%N) []
    (PaymentRequestedEvent 7 1 (200 # 1) "USD" [("type", "credit_card")]).

Definition no_payments : PaymentService.Session :=
  mkDb (PaymentService.mkTables [] 0 []) [] 80.

Definition approved : PaymentService.Draw := PaymentService.mkDraw (1 # 2) 0.

Definition in_flight : PaymentService.Transaction :=
  PaymentService.mkTransaction 80 7 1 9
    (PaymentService.idempotency_key_of 7) (200 # 1) "USD"
    TransactionStatus.PROCESSING [("type", "credit_card")] None None 2 None.

Definition crashed_db : PaymentService.Session :=
  mkDb (PaymentService.mkTables [in_flight] 0 []) [] 81.

Definition empty_db : OrderService.Session :=
  mkDb (OrderService.mkTables [] []) [] 0.

Definition empty_cart : json :=
  JObj [("customer_id", JStr "00000000-0000-0000-0000-000000000001");
        ("items", JArr []);
        ("shipping_address", JObj [("city", JStr "Paris")]);
        ("payment_method", JObj [])].

End Examples.

(** ** Further code: the read side of the order service (app.py) *)

Module OrderQueries.
Import OrderService.

(** What a GET route answers: the response model, or
    [HTTPException(status_code=404)]. *)
Inductive Reply (A : Type) :=
| Found (a : A)
| NotFound.
Arguments Found {A} a.
Arguments NotFound {A}.

Record OrderResponse := mkOrderResponse
  { resp_id : UUID;
    resp_customer_id : UUID;
    resp_status : string;
    resp_total_amount : Q;
    resp_items : list OrderLine;
    resp_shipping_address : list (string * json);
    resp_correlation_id : UUID;
    resp_created_at : datetime }.

Definition order_response (order : Order) : OrderResponse :=
  mkOrderResponse (o_id order) (o_customer_id order)
    (OrderStatus.value (o_status order)) (o_total_amount order)
    (o_items order) (o_shipping_address order) (o_correlation_id order)
    (o_created_at order).

(** [GET /orders/{order_id}] *)
Definition get_order (order_id : UUID) : M Session (Reply OrderResponse) :=
  t <- read_tables ;;
  order <- lift (scalar_one_or_none (select_order order_id t)) ;;
  match order with
  | None => ret NotFound
  | Some order => ret (Found (order_response order))
  end.

(** [SagaLogResponse]; as in the row, the surrogate [id] is left out. *)
Record SagaLogResponse := mkSagaLogResponse
  { slr_order_id : UUID;
    slr_step : string;
    slr_event_type : string;
    slr_status : string;
    slr_created_at : datetime }.

(** [ORDER BY created_at] on the log: rows with equal timestamps keep
    their insertion order. *)
Fixpoint insert_log (x : SagaLog) (l : list SagaLog) : list SagaLog :=
  match l with
  | [] => [x]
  | y :: r =>
      if (log_created_at x <=? log_created_at y)%Z then x :: y :: r
      else y :: insert_log x r
  end.

Definition order_logs (l : list SagaLog) : list SagaLog :=
  List.fold_right insert_log [] l.

(** [GET /orders/{order_id}/saga-logs] *)
Definition get_saga_logs (order_id : UUID) : M Session (list SagaLogResponse) :=
  t <- read_tables ;;
  let logs :=
    order_logs
      (List.filter (fun log => N.eqb (log_order_id log) order_id)
         (saga_logs t)) in
  ret (List.map (fun log =>
         mkSagaLogResponse (log_order_id log) (log_step log)
           (log_event_type log) (log_status log) (log_created_at log)) logs).

(** Identifiers stored so far were drawn from the supply. *)
Definition drawn (db : Session) : Prop :=
  List.Forall (fun o => (o_id o < uuid_supply db)%N) (orders (tables db)) /\
  List.Forall (fun log => (log_order_id log < uuid_supply db)%N)
    (saga_logs (tables db)).

End OrderQueries.

(** ** Further code: the queue of a subscription
    (src/shared/message_broker.py) *)

Module Subscription.
Import MessageBroker.

Section Queue.
Variable decode : string -> option Event.
Variable handler : Event -> option exn.
Variable max_retries : Z.
Variable event_type : EventType.t.

(** [queue.bind(self.exchange, routing_key=event_type.value)]: what a
    publication puts on the queue of the subscription. *)
Definition bound (e : effect) : option IncomingMessage :=
  match e with
  | Publish exchange message key =>
      if String.eqb exchange exchange_name
         && String.eqb key (EventType.value event_type)
      then Some (mkIncoming message key)
      else None
  | Sleep _ => None
  end.

(** [queue.consume(process_message)]: the deliveries that follow from
    one message on the queue, each with what the consumer did, as far as
    [fuel] deliveries deep. *)
Fixpoint consume (fuel : nat) (m : IncomingMessage)
  : list (list effect * settlement) :=
  match fuel with
  | O => []
  | S fuel =>
      let outcome :=
        subscribe_to_event_process_message decode handler max_retries
          event_type m in
      outcome ::
        List.flat_map
          (fun e => match bound e with
                    | Some m' => consume fuel m'
                    | None => []
                    end)
          (fst outcome)
  end.

End Queue.

(** The delivery a subscriber bound by the event type receives for
    [publish_event(event)]. *)
Definition delivery (encode : Event -> string) (event : Event)
  : IncomingMessage :=
  match publish_event encode event None with
  | Publish _ message key => mkIncoming message key
  | Sleep _ => mkIncoming (mkMessage "" PERSISTENT None ∅) ""
  end.

End Subscription.

(** ** Further instances *)

Module MoreExamples.

Definition confirmed_order : OrderService.Order :=
  OrderService.mkOrder 7 1 OrderStatus.CONFIRMED SagaStep.ORDER_CONFIRMATION
    [mkOrderLine 3 2 (100 # 1)] (200 # 1) [("city", JStr "Paris")] 9
    (Some 12%N) (Some 80%N) None None 0.

Definition confirmed_db : OrderService.Session :=
  mkDb (OrderService.mkTables [confirmed_order] []) [] 90.

Definition empty_request : OrderService.CreateOrderRequest :=
  OrderService.mkCreateOrderRequest 1 [] [("city", JStr "Paris")] [].

Definition one_line_cart : json :=
  JObj [("customer_id", JStr "00000000-0000-0000-0000-000000000001");
        ("items",
         JArr [JObj [("product_id",
                      JStr "00000000-0000-0000-0000-000000000003");
                     ("quantity", JInt 2);
                     ("price", JFloat (100 # 1))]]);
        ("shipping_address", JObj [("city", JStr "Paris")]);
        ("payment_method", JObj [])].

Definition first_reserved : Event :=
  mkEvent 15 1 1 1 0 (Some 3%N) [] (InventoryReservedEvent 1 12 []).

Definition first_processed : Event :=
  mkEvent 25 1 2 1 0 (Some 4%N) [] (PaymentProcessedEvent 1 80 0%Q "USD").

Definition paid : PaymentService.Transaction :=
  PaymentService.mkTransaction 80 7 1 9
    (PaymentService.idempotency_key_of 7) (200 # 1) "USD"
    TransactionStatus.COMPLETED [("type", "credit_card")]
    (Some (PaymentService.GatewaySuccess "g")) None 2 (Some 3).

Definition paid_db : PaymentService.Session :=
  mkDb (PaymentService.mkTables [paid] 1 []) [] 90.

Definition unpaid_db : PaymentService.Session :=
  mkDb (PaymentService.mkTables [Examples.in_flight] 0 []) [] 90.

Definition payment_refunded : Event :=
  mkEvent 41 7 8 1 9 None [] (PaymentRefundedEvent 7 80 85 (200 # 1)).

Definition declined : PaymentService.Draw := PaymentService.mkDraw (1 # 10) 5.

Definition paid_reply : Event :=
  mkEvent 26 7 2 1 9 (Some 4%N) [] (PaymentProcessedEvent 7 80 (200 # 1) "USD").

Definition order_confirmed : Event :=
  mkEvent 27 7 3 1 9 (Some 26%N) [("shipping_address", [("city", "Paris")])]
    (OrderConfirmedEvent 7).

Definition no_shipments : ShippingService.Session := mkDb [] [] 50.

End MoreExamples.

(** * Properties *)

(** ** Tables *)

Lemma filter_none {A} (f : A -> bool) (rows : list A) :
  (forall x, List.In x rows -> f x = false) -> List.filter f rows = [].
Proof.
  induction rows as [|x rows IH]; intros H; [reflexivity|].
  cbn. rewrite (H x (or_introl eq_refl)). apply IH.
  intros y Hy. apply H. now right.
Qed.

(** A primary key selects its row, and only it. *)
Lemma filter_key_unique {A} (key : A -> N) (rows : list A) (r : A) :
  List.NoDup (List.map key rows) -> List.In r rows ->
  List.filter (fun x => N.eqb (key x) (key r)) rows = [r].
Proof.
  induction rows as [|x rows IH]; intros Hnd Hin; [destruct Hin|].
  cbn in Hnd. apply List.NoDup_cons_iff in Hnd as [Hx Hnd].
  cbn. destruct Hin as [->|Hin].
  - rewrite N.eqb_refl. f_equal.
    apply filter_none. intros y Hy.
    destruct (N.eqb_spec (key y) (key r)) as [E|]; [|reflexivity].
    exfalso. apply Hx. rewrite <- E. now apply List.in_map.
  - destruct (N.eqb_spec (key x) (key r)) as [E|].
    + exfalso. apply Hx. rewrite E. now apply List.in_map.
    + now apply IH.
Qed.

(** Rewriting the row of a key in place keeps it selected by that key. *)
Lemma filter_key_replace {A} (key : A -> N) (rows : list A) (r r' : A) :
  key r' = key r ->
  List.filter (fun x => N.eqb (key x) (key r)) rows = [r] ->
  List.filter (fun x => N.eqb (key x) (key r))
    (List.map (fun x => if N.eqb (key x) (key r) then r' else x) rows) = [r'].
Proof.
  intros Hk.
  induction rows as [|x rows IH]; cbn; [discriminate|].
  destruct (N.eqb_spec (key x) (key r)) as [E|NE]; cbn.
  - intros H. injection H as -> Hrest.
    rewrite Hk, N.eqb_refl. f_equal.
    apply filter_none. intros y Hy.
    apply List.in_map_iff in Hy as (z & <- & Hz).
    assert (Hz' : N.eqb (key z) (key r) = false).
    { destruct (N.eqb (key z) (key r)) eqn:Ez; [|reflexivity].
      assert (List.In z (List.filter (fun x => N.eqb (key x) (key r)) rows))
        by (apply List.filter_In; auto).
      rewrite Hrest in H. destruct H. }
    rewrite Hz'. exact Hz'.
  - intros H. apply N.eqb_neq in NE. rewrite NE. now apply IH.
Qed.

(** ** The orchestrator *)

Section OrchestratorProofs.
Import OrderService Orchestrator.

Lemma emitted_app {T} (db db' : Db T) (rows : list OutboxMessage) :
  outbox db' = outbox db ++ rows ->
  emitted db db' = List.map ob_event_data rows.
Proof.
  intros H. unfold emitted. rewrite H.
  now rewrite List.skipn_app, List.skipn_all, Nat.sub_diag.
Qed.

Lemma emitted_same {T} (db db' : Db T) :
  outbox db' = outbox db -> emitted db db' = [].
Proof.
  intros H. apply (emitted_app db db' []). now rewrite List.app_nil_r.
Qed.

Lemma select_order_unique (db : Session) (order : Order) :
  keyed db -> List.In order (orders (tables db)) ->
  select_order (o_id order) (tables db) = [order].
Proof. intros. unfold select_order. now apply filter_key_unique. Qed.

Lemma transition_id p o : o_id (transition p o) = o_id o.
Proof. now destruct p. Qed.

Lemma transition_idempotent p o : transition p (transition p o) = transition p o.
Proof. now destruct p, o. Qed.

Lemma downstream_transition p o : downstream p (transition p o) = downstream p o.
Proof. now destruct p, o. Qed.

Lemma replace_order_idem (o : Order) (rows : list Order) :
  List.map (fun x => if N.eqb (o_id x) (o_id o) then o else x)
    (List.map (fun x => if N.eqb (o_id x) (o_id o) then o else x) rows)
  = List.map (fun x => if N.eqb (o_id x) (o_id o) then o else x) rows.
Proof.
  rewrite List.map_map. apply List.map_ext. intros x.
  destruct (N.eqb (o_id x) (o_id o)) eqn:E;
    [now rewrite N.eqb_refl | now rewrite E].
Qed.

(** One delivery of a reply about a stored order: the handler returns,
    rewrites the order by [transition], and appends to the outbox one
    event per payload of [downstream], each caused by the reply. *)
Lemma orchestrator_step now event (db : Session) order :
  reply_order_id event = Some (o_id order) ->
  select_order (o_id order) (tables db) = [order] ->
  exists db' rows,
    exec (subscribe_to_events now event) db = Ok db' /\
    orders (tables db') =
      List.map (fun x => if N.eqb (o_id x) (o_id order)
                         then transition (payload event) order else x)
        (orders (tables db)) /\
    outbox db' = outbox db ++ rows /\
    List.map (fun r => payload (ob_event_data r)) rows
      = downstream (payload event) order /\
    List.Forall (fun r => caused_by event (ob_event_data r)) rows.
Proof.
  intros Hid Hsel. unfold reply_order_id in Hid.
  unfold subscribe_to_events.
  destruct (payload event) eqn:Hp; try discriminate; injection Hid as ->.
  - unfold handle_inventory_reserved, _get_order, exec, bind. cbn.
    rewrite Hsel. cbn. eexists _, [_]. repeat split; try reflexivity.
    repeat constructor.
  - unfold handle_inventory_reserve_failed, _get_order, exec, bind. cbn.
    rewrite Hsel. cbn. eexists _, [_]. repeat split; try reflexivity.
    repeat constructor.
  - unfold handle_payment_processed, _get_order, exec, bind. cbn.
    rewrite Hsel. cbn. eexists _, [_]. repeat split; try reflexivity.
    repeat constructor.
  - unfold handle_payment_failed, _get_order, exec, bind. cbn.
    rewrite Hsel. cbn. destruct (o_reservation_id order) eqn:Hr; cbn.
    + eexists _, [_; _].
      split; [reflexivity|]. split; [reflexivity|].
      split; [cbn; rewrite <- List.app_assoc; reflexivity|].
      split; [reflexivity|]. repeat constructor.
    + eexists _, [_]. repeat split; try reflexivity. repeat constructor.
Qed.

(** C5. Handling [payment.failed] for a stored order: the order becomes
    [failed] with the event's reason as its error message, and the same
    run writes to the outbox an [inventory.released] for the order's
    reservation exactly when it has one, followed by an [order.failed]
    whose failed step is [payment_processing]. *)
Theorem payment_failed_compensates now event order_id reason code
    (db : Session) order :
  keyed db ->
  List.In order (orders (tables db)) ->
  o_id order = order_id ->
  payload event = PaymentFailedEvent order_id reason code ->
  exists db' order',
    exec (subscribe_to_events now event) db = Ok db' /\
    select_order order_id (tables db') = [order'] /\
    o_status order' = OrderStatus.FAILED /\
    o_error_message order' = Some reason /\
    o_reservation_id order' = o_reservation_id order /\
    List.map payload (emitted db db') =
      match o_reservation_id order with
      | Some reservation => [InventoryReleasedEvent order_id reservation]
      | None => []
      end ++ [OrderFailedEvent order_id reason "payment_processing"].
Proof.
  intros Hk Hin <- Hp.
  pose proof (select_order_unique db order Hk Hin) as Hsel.
  destruct (orchestrator_step now event db order) as (db' & rows & Hrun & Ho & Hout & Hpay & _);
    [unfold reply_order_id; now rewrite Hp | exact Hsel |].
  exists db', (transition (payload event) order).
  split; [exact Hrun|]. split.
  - unfold select_order. rewrite Ho.
    apply (filter_key_replace o_id); [apply transition_id | exact Hsel].
  - rewrite (emitted_app db db' rows Hout), List.map_map, Hpay, Hp.
    now destruct order.
Qed.

Lemma payment_failed_compensates_witness :
  exists db' order',
    exec (subscribe_to_events 5 Examples.payment_failed) Examples.reserved_db
      = Ok db' /\
    select_order 7 (tables db') = [order'] /\
    o_status order' = OrderStatus.FAILED /\
    o_error_message order' = Some "Card declined" /\
    o_reservation_id order' = Some 12%N /\
    List.map payload (emitted Examples.reserved_db db') =
      [InventoryReleasedEvent 7 12;
       OrderFailedEvent 7 "Card declined" "payment_processing"].
Proof.
  apply (payment_failed_compensates 5 Examples.payment_failed 7
           "Card declined" (Some "PAYMENT_FAILED") Examples.reserved_db
           Examples.reserved_order).
  - unfold keyed. cbn. repeat constructor. intros [].
  - now left.
  - reflexivity.
  - reflexivity.
Defined.

(** C1, as the code has it.  The handlers test no source state: a reply
    delivered a second time runs the same handler in full.  The order is
    left as the first delivery set it, and the outbox receives the same
    downstream payloads once more. *)
Theorem duplicate_reply_reapplied now1 now2 event (db : Session) order :
  keyed db ->
  List.In order (orders (tables db)) ->
  reply_order_id event = Some (o_id order) ->
  exists db1 db2 order1,
    exec (subscribe_to_events now1 event) db = Ok db1 /\
    exec (subscribe_to_events now2 event) db1 = Ok db2 /\
    select_order (o_id order) (tables db1) = [order1] /\
    select_order (o_id order) (tables db2) = [order1] /\
    orders (tables db2) = orders (tables db1) /\
    emitted db db1 <> [] /\
    List.map payload (emitted db1 db2) = List.map payload (emitted db db1) /\
    List.length (outbox db2)
      = (List.length (outbox db1) + List.length (emitted db db1))%nat.
Proof.
  intros Hk Hin Hid.
  pose proof (select_order_unique db order Hk Hin) as Hsel.
  destruct (orchestrator_step now1 event db order Hid Hsel)
    as (db1 & rows1 & Hrun1 & Ho1 & Hout1 & Hpay1 & _).
  set (order1 := transition (payload event) order) in *.
  assert (Hsel1 : select_order (o_id order) (tables db1) = [order1]).
  { unfold select_order. rewrite Ho1.
    apply (filter_key_replace o_id); [apply transition_id | exact Hsel]. }
  assert (Hid1 : reply_order_id event = Some (o_id order1))
    by (unfold order1; now rewrite transition_id).
  assert (Hsel1' : select_order (o_id order1) (tables db1) = [order1])
    by (unfold order1 at 1; now rewrite transition_id).
  destruct (orchestrator_step now2 event db1 order1 Hid1 Hsel1')
    as (db2 & rows2 & Hrun2 & Ho2 & Hout2 & Hpay2 & _).
  assert (Ho21 : orders (tables db2) = orders (tables db1)).
  { rewrite Ho2. unfold order1 at 2. rewrite transition_idempotent.
    fold order1. rewrite Ho1.
    replace (o_id order) with (o_id order1)
      by (unfold order1; apply transition_id).
    apply replace_order_idem. }
  exists db1, db2, order1.
  split; [exact Hrun1|]. split; [exact Hrun2|]. split; [exact Hsel1|].
  split; [unfold select_order in *; now rewrite Ho21|].
  split; [exact Ho21|].
  rewrite (emitted_app db db1 rows1 Hout1), (emitted_app db1 db2 rows2 Hout2).
  rewrite !List.map_map, Hpay1, Hpay2.
  unfold order1 at 1. rewrite downstream_transition.
  split.
  - intros E. apply (f_equal (List.map (fun r => payload r))) in E.
    rewrite List.map_map, Hpay1 in E.
    unfold reply_order_id in Hid.
    destruct (payload event); try discriminate; cbn in E; try discriminate.
    destruct (o_reservation_id order); discriminate.
  - split; [reflexivity|].
    rewrite Hout2, List.length_app, List.length_map.
    f_equal.
    rewrite <- (List.length_map (fun r => payload (ob_event_data r)) rows2).
    rewrite <- (List.length_map (fun r => payload (ob_event_data r)) rows1).
    rewrite Hpay1, Hpay2. unfold order1. now rewrite downstream_transition.
Qed.

Lemma duplicate_reply_reapplied_witness :
  exists db1 db2 order1,
    exec (subscribe_to_events 1 Examples.inventory_reserved) Examples.pending_db
      = Ok db1 /\
    exec (subscribe_to_events 2 Examples.inventory_reserved) db1 = Ok db2 /\
    select_order 7 (tables db1) = [order1] /\
    select_order 7 (tables db2) = [order1] /\
    orders (tables db2) = orders (tables db1) /\
    emitted Examples.pending_db db1 <> [] /\
    List.map payload (emitted db1 db2)
      = List.map payload (emitted Examples.pending_db db1) /\
    List.length (outbox db2)
      = (List.length (outbox db1)
         + List.length (emitted Examples.pending_db db1))%nat.
Proof.
  apply (duplicate_reply_reapplied 1 2 Examples.inventory_reserved
           Examples.pending_db Examples.pending_order).
  - unfold keyed. cbn. repeat constructor. intros [].
  - now left.
  - reflexivity.
Defined.

(** C1, as the specification states it, fails: a second delivery of
    [inventory.reserved] writes a second [payment.requested]. *)
Lemma duplicate_reply_not_ignored :
  Orchestrator.reply_order_id Examples.inventory_reserved = Some 7%N /\
  ~ duplicate_ignored 1 2 Examples.inventory_reserved Examples.pending_db.
Proof.
  split; [reflexivity|]. intros H.
  set (run := fun now db =>
         match exec (subscribe_to_events now Examples.inventory_reserved) db with
         | Ok db' => db'
         | Raise _ => db
         end).
  assert (E1 : exec (subscribe_to_events 1 Examples.inventory_reserved)
                 Examples.pending_db = Ok (run 1 Examples.pending_db))
    by (vm_compute; reflexivity).
  assert (E2 : exec (subscribe_to_events 2 Examples.inventory_reserved)
                 (run 1 Examples.pending_db)
               = Ok (run 2 (run 1 Examples.pending_db)))
    by (vm_compute; reflexivity).
  destruct (H _ _ E1 E2) as [_ Hout].
  vm_compute in Hout. discriminate Hout.
Qed.

Lemma empty_items_validated body request :
  empty_items body ->
  validate_CreateOrderRequest body = Some request ->
  req_items request = [].
Proof.
  destruct body as [| | | | | |fields]; cbn [empty_items]; try contradiction.
  intros Hi H. unfold validate_CreateOrderRequest in H. rewrite Hi in H.
  destruct (validate_uuid (field "customer_id" fields)); [|discriminate].
  destruct (validate_dict (field "shipping_address" fields));
    [|discriminate].
  destruct (validate_dict (field "payment_method" fields)); [|discriminate].
  cbn in H. now injection H as <-.
Qed.

(** C2, as the code has it.  [items: List[OrderItem]] sets no minimum
    length, so a body with an empty list that is otherwise valid passes
    validation: an order with no lines and total 0 is stored as pending
    and the saga starts, with [order.placed] and
    [inventory.reserve.requested] in the outbox. *)
Theorem zero_item_order_starts_saga now body request address (db : Session) :
  empty_items body ->
  validate_CreateOrderRequest body = Some request ->
  str_dict (req_shipping_address request) = Some address ->
  exists order db',
    post_orders now body db = Ok (Created order, db') /\
    orders (tables db') = orders (tables db) ++ [order] /\
    o_items order = [] /\
    o_total_amount order = 0%Q /\
    o_status order = OrderStatus.PENDING /\
    List.map payload (emitted db db') =
      [OrderPlacedEvent (req_customer_id request) [] 0%Q address;
       InventoryReserveRequestedEvent (o_id order) []].
Proof.
  intros He Hv Ha.
  pose proof (empty_items_validated body request He Hv) as Hi.
  unfold post_orders. rewrite Hv.
  unfold create_order, start_order_saga, bind. cbn.
  rewrite Ha, Hi. cbn.
  eexists _, _. split; [reflexivity|]. cbn.
  repeat split.
  erewrite emitted_app; [|cbn; rewrite <- List.app_assoc; reflexivity].
  reflexivity.
Qed.

Lemma zero_item_order_starts_saga_witness :
  exists order db',
    post_orders 3 Examples.empty_cart Examples.empty_db = Ok (Created order, db') /\
    orders (tables db') = orders (tables Examples.empty_db) ++ [order] /\
    o_items order = [] /\
    o_total_amount order = 0%Q /\
    o_status order = OrderStatus.PENDING /\
    List.map payload (emitted Examples.empty_db db') =
      [OrderPlacedEvent 1 [] 0%Q [("city", "Paris")];
       InventoryReserveRequestedEvent (o_id order) []].
Proof.
  apply (zero_item_order_starts_saga 3 Examples.empty_cart
           (mkCreateOrderRequest 1 [] [("city", JStr "Paris")] [])
           [("city", "Paris")] Examples.empty_db);
    reflexivity.
Defined.

(** C2, as the specification states it, fails: this body has an empty
    [items] list and is not answered 422. *)
Lemma zero_item_order_not_rejected :
  empty_items Examples.empty_cart /\
  ~ rejected 3 Examples.empty_cart Examples.empty_db.
Proof.
  split; [reflexivity|]. unfold rejected. vm_compute. discriminate.
Qed.

End OrchestratorProofs.

(** ** The consumer *)

Section BrokerProofs.
Import MessageBroker.

Lemma header_retry_count_read m n :
  retry_header m n -> header_retry_count m = Ok n.
Proof.
  unfold retry_header, header_retry_count.
  intros [[-> ->] | ->]; reflexivity.
Qed.

Lemma event_type_value_nonempty et : EventType.value et <> "".
Proof. destruct et; discriminate. Qed.

(** Every message [publish_event] sends is routed by a key that is not
    empty, and the retries below keep the key of the delivery. *)
Lemma publish_event_key encode event key exchange message k :
  publish_event encode event key = Publish exchange message k -> k <> "".
Proof.
  unfold publish_event. intros H. injection H as _ _ <-.
  destruct key as [k'|]; [|apply event_type_value_nonempty].
  destruct (String.eqb_spec k' ""); [apply event_type_value_nonempty|assumption].
Qed.

(** C4. A delivery whose body decodes and whose [x-retry-count] header is
    absent (read as 0) or an integer [n]: when the handler returns the
    delivery is acknowledged and nothing else happens; when it raises and
    [n + 1 <= max_retries] the consumer sleeps [min(2^(n+1), 60)] seconds,
    republishes the same body to [saga_events] under the same routing key
    with the header set to [n + 1], and acknowledges the original; when
    [n + 1 > max_retries] it only rejects the delivery without requeue.
    This holds for [subscribe_to_event], whose queue is bound by the
    event type, and for [subscribe_to_pattern]. *)
Theorem consumer_contract (decode : string -> option Event)
    (handler : Event -> option exn) (max_retries : Z)
    (m : IncomingMessage) (event : Event) (n : Z) :
  decode (body (incoming m)) = Some event ->
  retry_header m n ->
  let retried :=
    ([Sleep (Qmin (Qpower (2 # 1) (n + 1)) (60 # 1));
      Publish "saga_events"
        (mkMessage (body (incoming m)) PERSISTENT (content_type (incoming m))
           (<["x-retry-count" := HInt (n + 1)]> (headers (incoming m))))
        (routing_key m)],
     Ack) in
  let outcome :=
    match handler event with
    | None => ([], Ack)
    | Some _ => if (n + 1 <=? max_retries)%Z then retried else ([], Reject false)
    end in
  (forall event_type,
     routing_key m = EventType.value event_type ->
     subscribe_to_event_process_message decode handler max_retries event_type m
       = outcome) /\
  (forall pattern,
     routing_key m <> "" ->
     subscribe_to_pattern_process_message decode handler max_retries pattern m
       = outcome) /\
  (snd outcome = Reject false <->
     handler event <> None /\ (max_retries < n + 1)%Z).
Proof.
  intros Hd Hh retried outcome.
  pose proof (header_retry_count_read m n Hh) as Hn.
  split; [|split].
  - intros et Hk.
    unfold subscribe_to_event_process_message, try_event, on_exception.
    rewrite Hd, Hn. subst outcome retried.
    destruct (handler event); [|reflexivity].
    rewrite Hk. now destruct (n + 1 <=? max_retries)%Z.
  - intros pattern Hk.
    unfold subscribe_to_pattern_process_message, try_pattern, on_exception.
    rewrite Hd. subst outcome retried.
    destruct (handler event); [|reflexivity].
    rewrite Hn.
    destruct (String.eqb_spec (routing_key m) ""); [contradiction|].
    now destruct (n + 1 <=? max_retries)%Z.
  - subst outcome retried. destruct (handler event) as [e|]; cbn.
    + destruct (Z.leb_spec (n + 1) max_retries); cbn; split.
      * discriminate.
      * intros [_ ?]; lia.
      * intros _. split; [discriminate|assumption].
      * reflexivity.
    + split; [discriminate|]. intros [H _]. now contradiction H.
Qed.

Lemma consumer_contract_witness :
  subscribe_to_event_process_message (fun _ => Some Examples.payment_failed)
    (fun _ => Some (HandlerError "connection lost")) default_max_retries
    EventType.PAYMENT_FAILED Examples.failing_delivery
  = ([Sleep (8 # 1);
      Publish "saga_events"
        (mkMessage "{}" PERSISTENT (Some "application/json")
           (<["x-retry-count" := HInt 3]>
              (headers (incoming Examples.failing_delivery))))
        "payment.failed"],
     Ack).
Proof.
  apply (consumer_contract (fun _ => Some Examples.payment_failed)
           (fun _ => Some (HandlerError "connection lost"))
           default_max_retries Examples.failing_delivery
           Examples.payment_failed 2).
  - reflexivity.
  - right. reflexivity.
  - reflexivity.
Defined.

End BrokerProofs.

(** ** The outbox publisher *)

Section OutboxProofs.
Import OutboxPublisher.

Lemma py_int_str (n : Z) : py_int (py_str n) = Some n.
Proof.
  unfold py_int, py_str. rewrite NilZero.isi.
  - now rewrite DecimalZ.of_to.
  - destruct n; cbn; try discriminate.
    intros H. injection H as H. now apply DecimalPos.Unsigned.to_uint_nonnil in H.
  - destruct n; cbn; try discriminate.
    intros H. injection H as H. now apply DecimalPos.Unsigned.to_uint_nonnil in H.
Qed.

Lemma insert_by_created_at_perm m l :
  Permutation (insert_by_created_at m l) (m :: l).
Proof.
  induction l as [|x l IH]; cbn; [reflexivity|].
  destruct (ob_created_at m <=? ob_created_at x)%Z; [reflexivity|].
  rewrite IH. apply perm_swap.
Qed.

Lemma order_by_created_at_perm l : Permutation (order_by_created_at l) l.
Proof.
  induction l as [|x l IH]; cbn; [reflexivity|].
  rewrite insert_by_created_at_perm. now constructor.
Qed.

Lemma firstn_In {A} n (l : list A) x : List.In x (List.firstn n l) -> List.In x l.
Proof.
  intros H. rewrite <- (List.firstn_skipn n l). apply List.in_or_app. now left.
Qed.

Lemma firstn_NoDup {A} n (l : list A) : List.NoDup l -> List.NoDup (List.firstn n l).
Proof.
  intros H. rewrite <- (List.firstn_skipn n l) in H.
  now apply List.NoDup_app_remove_r in H.
Qed.

Lemma filter_map_NoDup {A B} (f : A -> B) (p : A -> bool) (l : list A) :
  List.NoDup (List.map f l) -> List.NoDup (List.map f (List.filter p l)).
Proof.
  induction l as [|x l IH]; cbn; [trivial|].
  intros H. apply List.NoDup_cons_iff in H as [Hx H].
  destruct (p x); cbn; [|now apply IH].
  constructor; [|now apply IH].
  intros Hin. apply Hx. apply List.in_map_iff in Hin as (y & <- & Hy).
  apply List.in_map. now apply List.filter_In in Hy.
Qed.

(** The batch a query loads: rows of the table, in the asked status,
    pairwise distinct, and no more than the limit allows. *)
Lemma select_by_status_In s n table m :
  List.In m (select_by_status s n table) ->
  List.In m table /\ ob_status m = s.
Proof.
  unfold select_by_status. intros H. apply firstn_In in H.
  apply (Permutation_in _ (order_by_created_at_perm _)) in H.
  apply List.filter_In in H as [Hin Hs]. split; [exact Hin|].
  now destruct (ob_status m), s.
Qed.

Lemma select_by_status_NoDup s n table :
  List.NoDup (List.map ob_event_id table) ->
  List.NoDup (List.map ob_event_id (select_by_status s n table)).
Proof.
  intros H. unfold select_by_status.
  rewrite <- List.firstn_map. apply firstn_NoDup.
  eapply Permutation_NoDup.
  - symmetry. apply Permutation_map. apply order_by_created_at_perm.
  - now apply filter_map_NoDup.
Qed.

Lemma select_by_status_length s n table :
  List.length (select_by_status s n table)
  = Nat.min n
      (List.length
         (List.filter (fun m => OutboxStatus.eqb (ob_status m) s) table)).
Proof.
  unfold select_by_status. rewrite List.length_firstn.
  now rewrite (Permutation_length (order_by_created_at_perm _)).
Qed.

Lemma key_inj_in {A} (key : A -> N) (l : list A) a b :
  List.NoDup (List.map key l) -> List.In a l -> List.In b l ->
  key a = key b -> a = b.
Proof.
  induction l as [|x l IH]; cbn; [intros _ []|].
  intros H Ha Hb E. apply List.NoDup_cons_iff in H as [Hx H].
  destruct Ha as [->|Ha], Hb as [->|Hb]; auto.
  - exfalso. apply Hx. rewrite E. now apply List.in_map.
  - exfalso. apply Hx. rewrite <- E. now apply List.in_map.
Qed.

Section Poll.
Variable publish : OutboxMessage -> option string.
Variable max_retries : Z.
Variable now : datetime.

Lemma publish_one_event_id m u :
  publish_one publish max_retries now m = Ok u -> ob_event_id u = ob_event_id m.
Proof.
  unfold publish_one. destruct (publish m).
  - destruct (py_int (ob_retry_count m)); [|discriminate].
    destruct (max_retries <=? z + 1)%Z; intros H; now injection H as <-.
  - intros H. now injection H as <-.
Qed.

Lemma publish_all_total batch :
  List.Forall (fun m => exists n, ob_retry_count m = py_str n) batch ->
  exists updated,
    publish_all publish max_retries now batch = Ok updated /\
    List.Forall2 (fun m u => publish_one publish max_retries now m = Ok u)
      batch updated.
Proof.
  induction 1 as [|m batch [n Hn] _ (updated & Hall & Hrel)]; cbn.
  - exists []. split; [reflexivity|constructor].
  - assert (exists u, publish_one publish max_retries now m = Ok u) as [u Hu].
    { unfold publish_one. destruct (publish m); [|eauto].
      rewrite Hn, py_int_str. destruct (max_retries <=? n + 1)%Z; eauto. }
    rewrite Hu, Hall. exists (u :: updated). split; [reflexivity|].
    now constructor.
Qed.

Lemma written_loaded batch updated m u :
  List.NoDup (List.map ob_event_id batch) ->
  List.Forall2 (fun m u => publish_one publish max_retries now m = Ok u)
    batch updated ->
  List.In m batch ->
  publish_one publish max_retries now m = Ok u ->
  written updated m = u.
Proof.
  intros Hnd Hrel. revert Hnd.
  induction Hrel as [|x y batch updated Hxy Hrel IH]; cbn; [intros _ []|].
  intros Hnd [->|Hin] Hu; apply List.NoDup_cons_iff in Hnd as [Hx Hnd].
  - unfold written. cbn. rewrite (publish_one_event_id _ _ Hxy), N.eqb_refl.
    congruence.
  - unfold written. cbn. rewrite (publish_one_event_id _ _ Hxy).
    destruct (N.eqb_spec (ob_event_id x) (ob_event_id m)) as [E|NE].
    + exfalso. apply Hx. rewrite E. now apply List.in_map.
    + now apply IH.
Qed.

Lemma written_event_id updated batch m :
  List.Forall2 (fun m u => publish_one publish max_retries now m = Ok u)
    batch updated ->
  ob_event_id (written updated m) = ob_event_id m.
Proof.
  unfold written. intros Hrel.
  destruct (List.find _ updated) as [u|] eqn:Hf; [|reflexivity].
  apply List.find_some in Hf as [_ Hf]. now apply N.eqb_eq in Hf.
Qed.

End Poll.

Lemma loaded_iff batch table m :
  List.NoDup (List.map ob_event_id table) ->
  (forall b, List.In b batch -> List.In b table) ->
  List.In m table ->
  loaded batch m = true <-> List.In m batch.
Proof.
  intros Hnd Hsub Hm. unfold loaded. rewrite List.existsb_exists. split.
  - intros (b & Hb & E). apply N.eqb_eq in E.
    now rewrite <- (key_inj_in ob_event_id table b m Hnd (Hsub b Hb) Hm E).
  - intros Hb. exists m. split; [exact Hb|apply N.eqb_refl].
Qed.

(** C8. In a poll of the outbox, a row of the batch whose publication
    raises has its retry count incremented and the error text stored, and
    is marked failed exactly when the new count has reached
    [max_retries] (it stays pending otherwise).  [retry_failed_messages]
    takes the first [limit] failed rows by creation time and resets each
    to pending with retry count "0" and no error, leaving every other
    row as it was. *)
Theorem outbox_retry_accounting {T} (publish : OutboxMessage -> option string)
    (batch_size limit : nat) (max_retries : Z) (now : datetime) (db : Db T) :
  List.NoDup (List.map ob_event_id (outbox db)) ->
  List.Forall (fun m => exists n, ob_retry_count m = py_str n) (outbox db) ->
  (exists db1,
     exec (_publish_pending_messages publish batch_size max_retries now) db
       = Ok db1 /\
     List.map ob_event_id (outbox db1) = List.map ob_event_id (outbox db) /\
     forall m e n,
       List.In m (select_by_status OutboxStatus.PENDING batch_size (outbox db)) ->
       publish m = Some e ->
       ob_retry_count m = py_str n ->
       exists m',
         List.In m' (outbox db1) /\
         ob_event_id m' = ob_event_id m /\
         ob_retry_count m' = py_str (n + 1) /\
         ob_error_message m' = Some e /\
         (ob_status m' = OutboxStatus.FAILED <-> (max_retries <= n + 1)%Z) /\
         (ob_status m' = OutboxStatus.PENDING <-> (n + 1 < max_retries)%Z)) /\
  (exists db2,
     exec (retry_failed_messages limit) db = Ok db2 /\
     List.map ob_event_id (outbox db2) = List.map ob_event_id (outbox db) /\
     let batch := select_by_status OutboxStatus.FAILED limit (outbox db) in
     List.length batch
       = Nat.min limit
           (List.length
              (List.filter
                 (fun m => OutboxStatus.eqb (ob_status m) OutboxStatus.FAILED)
                 (outbox db))) /\
     (forall m, List.In m batch ->
        List.In m (outbox db) /\ ob_status m = OutboxStatus.FAILED) /\
     (forall m, List.In m batch ->
        exists m',
          List.In m' (outbox db2) /\
          ob_event_id m' = ob_event_id m /\
          ob_status m' = OutboxStatus.PENDING /\
          ob_retry_count m' = "0" /\
          ob_error_message m' = None) /\
     (forall m, List.In m (outbox db) -> ~ List.In m batch ->
        List.In m (outbox db2))).
Proof.
  intros Hnd Hwf. split.
  - unfold _publish_pending_messages, exec, bind, get. cbn.
    set (batch := select_by_status OutboxStatus.PENDING batch_size (outbox db)).
    assert (Hsub : forall m, List.In m batch -> List.In m (outbox db))
      by (intros m Hm; now apply select_by_status_In in Hm).
    assert (Hbwf : List.Forall (fun m => exists n, ob_retry_count m = py_str n)
                     batch).
    { apply List.Forall_forall. intros m Hm.
      now apply (proj1 (List.Forall_forall _ _) Hwf), Hsub. }
    destruct (publish_all_total publish max_retries now batch Hbwf)
      as (updated & Hall & Hrel).
    destruct batch as [|b batch'] eqn:Hb.
    + exists db. split; [reflexivity|]. split; [reflexivity|].
      intros m e n [].
    + rewrite <- Hb in *. clear Hb. unfold lift. rewrite Hall. cbn.
      eexists. split; [reflexivity|]. cbn. split.
      { rewrite List.map_map. apply List.map_ext. intros m.
        eapply written_event_id; eassumption. }
      intros m e n Hm He Hn.
      assert (Hu : publish_one publish max_retries now m
                   = Ok (if (max_retries <=? n + 1)%Z
                         then set_status OutboxStatus.FAILED
                                (set_retry (py_str (n + 1)) (Some e) m)
                         else set_retry (py_str (n + 1)) (Some e) m)).
      { unfold publish_one. rewrite He, Hn, py_int_str.
        now destruct (max_retries <=? n + 1)%Z. }
      pose proof (written_loaded publish max_retries now batch updated m _
                    (select_by_status_NoDup _ _ _ Hnd) Hrel Hm Hu) as Hw.
      eexists. split.
      { apply List.in_map_iff. exists m. split; [exact Hw|now apply Hsub]. }
      destruct (select_by_status_In _ _ _ _ Hm) as [_ Hs].
      destruct (Z.leb_spec max_retries (n + 1)); cbn;
        repeat split; try rewrite Hs; try discriminate; try reflexivity;
        intros; try lia.
  - unfold retry_failed_messages, exec, bind, get. cbn.
    set (batch := select_by_status OutboxStatus.FAILED limit (outbox db)).
    assert (Hsub : forall m, List.In m batch -> List.In m (outbox db))
      by (intros m Hm; now apply select_by_status_In in Hm).
    eexists. split; [reflexivity|]. cbn. split.
    { unfold flush. rewrite List.map_map. apply List.map_ext. intros m.
      now destruct (loaded batch m). }
    split; [apply select_by_status_length|].
    split; [intros m Hm; now apply select_by_status_In in Hm|].
    split.
    + intros m Hm. exists (reset m). split; [|now repeat split].
      unfold flush. apply List.in_map_iff. exists m.
      split; [|now apply Hsub].
      now rewrite (proj2 (loaded_iff batch (outbox db) m Hnd Hsub (Hsub m Hm)) Hm).
    + intros m Hm Hn. unfold flush. apply List.in_map_iff. exists m.
      split; [|exact Hm].
      destruct (loaded batch m) eqn:E; [|reflexivity].
      now apply (loaded_iff batch (outbox db) m Hnd Hsub Hm) in E.
Qed.

Lemma outbox_retry_accounting_witness :
  (exists db1,
     exec (_publish_pending_messages (fun _ => Some "broker down") 100
             default_max_retries 9) Examples.stuck_db = Ok db1 /\
     exists m',
       List.In m' (outbox db1) /\
       ob_event_id m' = 40%N /\
       ob_retry_count m' = "3" /\
       ob_error_message m' = Some "broker down" /\
       ob_status m' = OutboxStatus.FAILED).
Proof.
  destruct (outbox_retry_accounting (fun _ => Some "broker down") 100 100
              default_max_retries 9 Examples.stuck_db)
    as [(db1 & Hrun & _ & Hrow) _].
  - cbn. repeat constructor. intros [].
  - repeat constructor. exists 2. reflexivity.
  - exists db1. split; [exact Hrun|].
    destruct (Hrow Examples.stuck_row "broker down" 2)
      as (m' & Hin & Hid & Hrc & Herr & Hfailed & _).
    + now left.
    + reflexivity.
    + reflexivity.
    + exists m'. repeat split; try assumption.
      apply Hfailed. unfold default_max_retries. lia.
Defined.

End OutboxProofs.

(** ** The inventory participant *)

Section InventoryProofs.
Import InventoryService Inventory.

(** On a keyed table [scalar_one_or_none] of a selection by key is
    [List.find]. *)
Lemma select_by_key_find {A} (key : A -> N) (k : N) (rows : list A) :
  List.NoDup (List.map key rows) ->
  scalar_one_or_none (List.filter (fun x => N.eqb (key x) k) rows)
  = Ok (List.find (fun x => N.eqb (key x) k) rows).
Proof.
  induction rows as [|x rows IH]; cbn; [reflexivity|].
  intros H. apply List.NoDup_cons_iff in H as [Hx H].
  destruct (N.eqb_spec (key x) k) as [E|NE]; [|now apply IH].
  rewrite filter_none; [reflexivity|].
  intros y Hy. apply N.eqb_neq. intros Ey. apply Hx.
  rewrite E, <- Ey. now apply List.in_map.
Qed.

(** Selecting by key and a further condition, on a keyed table. *)
Lemma select_by_key_and {A} (key : A -> N) (g : A -> bool) (k : N)
    (rows : list A) :
  List.NoDup (List.map key rows) ->
  List.filter (fun x => N.eqb (key x) k && g x) rows = [] \/
  exists r, List.In r rows /\ key r = k /\ g r = true /\
            List.filter (fun x => N.eqb (key x) k && g x) rows = [r].
Proof.
  induction rows as [|x rows IH]; cbn; [now left|].
  intros H. apply List.NoDup_cons_iff in H as [Hx H].
  destruct (N.eqb_spec (key x) k) as [E|NE]; cbn.
  - assert (Hrest : List.filter (fun y => N.eqb (key y) k && g y) rows = []).
    { apply filter_none. intros y Hy.
      destruct (N.eqb_spec (key y) k) as [Ey|]; [|reflexivity].
      exfalso. apply Hx. rewrite E, <- Ey. now apply List.in_map. }
    rewrite Hrest. destruct (g x) eqn:Hg; [|now left].
    right. exists x. auto.
  - destruct (IH H) as [->|(r & Hin & Hk & Hg & ->)]; [now left|].
    right. exists r. auto.
Qed.

Lemma replace_filter_commute {A} (key : A -> N) (g : A -> bool)
    (rows : list A) (r r' : A) :
  List.NoDup (List.map key rows) -> List.In r rows ->
  key r' = key r -> g r' = g r ->
  List.filter (fun x => N.eqb (key x) (key r) && g x)
    (List.map (fun x => if N.eqb (key x) (key r) then r' else x) rows)
  = List.map (fun x => if N.eqb (key x) (key r) then r' else x)
      (List.filter (fun x => N.eqb (key x) (key r) && g x) rows).
Proof.
  intros Hnd Hin Hk Hg.
  assert (Hall : forall x, List.In x rows -> key x = key r -> x = r)
    by (intros x Hx E; exact (key_inj_in key rows x r Hnd Hx Hin E)).
  clear Hnd Hin. induction rows as [|x rows IH]; cbn; [reflexivity|].
  assert (IH' := IH (fun y Hy => Hall y (or_intror Hy))).
  destruct (N.eqb_spec (key x) (key r)) as [E|NE]; cbn.
  - rewrite (Hall x (or_introl eq_refl) E), Hk, N.eqb_refl, Hg. cbn.
    destruct (g r); cbn; [|exact IH'].
    now rewrite N.eqb_refl, IH'.
  - apply N.eqb_neq in NE. rewrite NE. exact IH'.
Qed.

Lemma check_availability_run items (db : Session) :
  List.NoDup (List.map p_id (products (tables db))) ->
  check_availability items db
  = Ok (List.flat_map (shortfall (products (tables db))) items, db).
Proof.
  intros Hnd. induction items as [|item items IH]; [reflexivity|].
  cbn [check_availability List.flat_map].
  unfold bind at 1. cbn [read_tables]. unfold bind at 1, lift, select_product.
  rewrite (select_by_key_find p_id (product_id item) _ Hnd).
  unfold bind at 1. rewrite IH. unfold ret, shortfall.
  destruct (List.find _ (products (tables db))) as [p|]; [|reflexivity].
  now destruct (available_quantity p <? quantity item)%Z.
Qed.

Lemma existsb_none {A} (f : A -> bool) (rows : list A) :
  (forall x, List.In x rows -> f x = false) -> List.existsb f rows = false.
Proof.
  induction rows as [|x rows IH]; intros H; [reflexivity|].
  cbn. rewrite (H x (or_introl eq_refl)). apply IH.
  intros y Hy. apply H. now right.
Qed.

Ltac update_loop :=
  let db := fresh "db" in
  let items := fresh "items" in
  let IH := fresh "IH" in
  intros items; induction items as [|? items IH]; intros db;
  [ cbn; unfold ret; do 3 f_equal;
    destruct db as [[ps rs] ob sup]; cbn; f_equal; f_equal;
    rewrite <- (List.map_id ps) at 1; apply List.map_ext;
    intros [i n c a r]; cbn; f_equal; lia
  | cbn [for_each]; unfold bind at 1; cbn; rewrite IH; cbn;
    rewrite List.map_map; do 4 f_equal; apply List.map_ext;
    intros p;
    match goal with
    | |- context [N.eqb (p_id p) ?k] => destruct (N.eqb (p_id p) k)
    end; cbn; f_equal; lia ].

(** The loop of updates moves, for every product, the total quantity
    the items ask of it from available to reserved. *)
Lemma reserve_loop_run items (db : Session) :
  for_each items (fun item =>
    update_product (product_id item) (- quantity item) (quantity item)) db
  = Ok (tt,
        mkDb (mkTables
                (List.map (fun p =>
                   mkProduct (p_id p) (p_name p) (p_price p)
                     (available_quantity p - demand (p_id p) items)
                     (reserved_quantity p + demand (p_id p) items))
                   (products (tables db)))
                (reservations (tables db)))
          (outbox db) (uuid_supply db)).
Proof. revert items db. update_loop. Qed.

(** And back, on release. *)
Lemma release_loop_run items (db : Session) :
  for_each items (fun item =>
    update_product (product_id item) (quantity item) (- quantity item)) db
  = Ok (tt,
        mkDb (mkTables
                (List.map (fun p =>
                   mkProduct (p_id p) (p_name p) (p_price p)
                     (available_quantity p + demand (p_id p) items)
                     (reserved_quantity p - demand (p_id p) items))
                   (products (tables db)))
                (reservations (tables db)))
          (outbox db) (uuid_supply db)).
Proof. revert items db. update_loop. Qed.

(** C6. A reservation request for an order that has no reservation yet.
    [unavailable] lists, in request order, each item whose product is
    missing or has less available than asked.  If it is not empty the
    handler writes [inventory.reserve.failed] carrying it and changes no
    table.  If it is empty it moves every asked quantity from available
    to reserved, inserts an active reservation with the items, and
    writes [inventory.reserved].  A request for a single stocked product
    is served exactly when it asks no more than what is available. *)
Theorem reserve_all_or_nothing now event order_id items (db : Session) :
  keyed db ->
  payload event = InventoryReserveRequestedEvent order_id items ->
  (forall r, List.In r (reservations (tables db)) -> r_order_id r <> order_id) ->
  let stock := products (tables db) in
  let unavailable := List.flat_map (shortfall stock) items in
  (exists db' e,
     exec (subscribe_to_events now event) db = Ok db' /\
     emitted db db' = [e] /\
     caused_by event e /\
     (unavailable <> [] ->
        payload e = InventoryReserveFailedEvent order_id
                      "Insufficient inventory" unavailable /\
        tables db' = tables db) /\
     (unavailable = [] ->
        exists r,
          payload e = InventoryReservedEvent order_id (r_id r) items /\
          products (tables db') =
            List.map (fun p =>
              mkProduct (p_id p) (p_name p) (p_price p)
                (available_quantity p - demand (p_id p) items)
                (reserved_quantity p + demand (p_id p) items)) stock /\
          reservations (tables db') = reservations (tables db) ++ [r] /\
          r_order_id r = order_id /\
          r_status r = ReservationStatus.ACTIVE /\
          r_items r = items)) /\
  (forall p q,
     List.In p stock -> items = [mkItem (p_id p) q] ->
     (unavailable = [] <-> (q <= available_quantity p)%Z)).
Proof.
  intros [Hp Hr] Hev Hnone stock unavailable. split.
  - unfold subscribe_to_events. rewrite Hev.
    unfold handle_reserve_requested, exec.
    unfold bind at 1. cbn [read_tables]. unfold bind at 1, lift.
    rewrite filter_none;
      [|intros r Hin; apply N.eqb_neq; now apply Hnone].
    cbn [scalar_one_or_none]. unfold bind at 1.
    rewrite (check_availability_run items db Hp).
    fold stock. fold unavailable.
    destruct unavailable as [|u us] eqn:Hu.
    + unfold bind at 1.
      rewrite (reserve_loop_run items db).
      unfold bind, add_reservation, read_tables. cbn. rewrite existsb_none
        by (intros r Hin; apply N.eqb_neq; now apply Hnone).
      cbn. eexists _, _. split; [reflexivity|].
      split; [erewrite emitted_app by (cbn; reflexivity); reflexivity|].
      split; [now split|]. split; [intros H; now contradiction H|].
      intros _.
      exists (mkReservation (uuid_supply db) order_id (correlation_id event)
                ReservationStatus.ACTIVE items now None).
      now repeat split.
    + cbn. eexists _, _. split; [reflexivity|].
      split; [erewrite emitted_app by (cbn; reflexivity); reflexivity|].
      split; [now split|]. split; [|discriminate].
      intros _. split; [reflexivity|]. now destruct db as [[? ?] ? ?].
  - intros p q Hin ->. subst unavailable. cbn. rewrite List.app_nil_r.
    unfold shortfall. cbn [product_id quantity].
    assert (Hf : List.find (fun x => N.eqb (p_id x) (p_id p)) stock = Some p).
    { pose proof (select_by_key_find p_id (p_id p) stock Hp) as H.
      rewrite (filter_key_unique p_id stock p Hp Hin) in H.
      now injection H as <-. }
    rewrite Hf. destruct (Z.ltb_spec (available_quantity p) q); split;
      intros; try discriminate; try reflexivity; lia.
Qed.

Lemma reserve_all_or_nothing_witness :
  exists db' e,
    exec (subscribe_to_events 1 Examples.reserve_requested) Examples.stock_db
      = Ok db' /\
    emitted Examples.stock_db db' = [e] /\
    caused_by Examples.reserve_requested e.
Proof.
  destruct (reserve_all_or_nothing 1 Examples.reserve_requested 7
              [mkItem 3 50] Examples.stock_db)
    as [(db' & e & Hrun & Hem & Hc & _) _].
  - split; cbn; repeat constructor. intros [].
  - reflexivity.
  - intros r [].
  - exists db', e. auto.
Defined.

(** The three ways [handle_release_inventory] can go. *)
Lemma release_absent now event order_id reservation_id (db : Session) :
  List.filter (fun r => N.eqb (r_id r) reservation_id
                        && N.eqb (r_order_id r) order_id)
    (reservations (tables db)) = [] ->
  handle_release_inventory now event order_id reservation_id db = Ok (tt, db).
Proof.
  intros H. unfold handle_release_inventory.
  unfold bind at 1. cbn [read_tables]. unfold bind at 1, lift.
  now rewrite H.
Qed.

Lemma release_released now event order_id reservation_id (db : Session) r :
  List.filter (fun r => N.eqb (r_id r) reservation_id
                        && N.eqb (r_order_id r) order_id)
    (reservations (tables db)) = [r] ->
  r_status r = ReservationStatus.RELEASED ->
  handle_release_inventory now event order_id reservation_id db = Ok (tt, db).
Proof.
  intros H Hs. unfold handle_release_inventory.
  unfold bind at 1. cbn [read_tables]. unfold bind at 1, lift.
  rewrite H. cbn [scalar_one_or_none]. cbn beta iota. now rewrite Hs.
Qed.

Lemma release_held now event order_id reservation_id (db : Session) r :
  List.filter (fun r => N.eqb (r_id r) reservation_id
                        && N.eqb (r_order_id r) order_id)
    (reservations (tables db)) = [r] ->
  r_status r <> ReservationStatus.RELEASED ->
  handle_release_inventory now event order_id reservation_id db
  = Ok (tt,
        mkDb (mkTables
                (List.map (fun p =>
                   mkProduct (p_id p) (p_name p) (p_price p)
                     (available_quantity p + demand (p_id p) (r_items r))
                     (reserved_quantity p - demand (p_id p) (r_items r)))
                   (products (tables db)))
                (List.map (fun x =>
                   if N.eqb (r_id x) (r_id r)
                   then mkReservation (r_id r) (r_order_id r)
                          (r_correlation_id r) ReservationStatus.RELEASED
                          (r_items r) (r_created_at r) (Some now)
                   else x) (reservations (tables db))))
          (outbox db) (uuid_supply db)).
Proof.
  intros H Hs. unfold handle_release_inventory.
  unfold bind at 1. cbn [read_tables]. unfold bind at 1, lift.
  rewrite H. cbn [scalar_one_or_none]. cbn beta iota.
  destruct (ReservationStatus.eqb (r_status r) ReservationStatus.RELEASED)
    eqn:E; [destruct (r_status r); try discriminate; now contradiction Hs|].
  unfold bind at 1. now rewrite (release_loop_run (r_items r) db).
Qed.

(** C7. Releasing a reservation.  The first [inventory.released] for a
    reservation that is not yet released adds each reserved quantity back
    to available, takes it from reserved, and marks the reservation
    released at the time of handling; for one already released it
    changes nothing.  Either way nothing is written to the outbox, and
    handling [inventory.released] for the same reservation again returns
    the database as it is. *)
Theorem release_idempotent now1 now2 event event' order_id reservation_id
    (db : Session) :
  keyed db ->
  payload event = InventoryReleasedEvent order_id reservation_id ->
  payload event' = InventoryReleasedEvent order_id reservation_id ->
  exists db1,
    exec (subscribe_to_events now1 event) db = Ok db1 /\
    exec (subscribe_to_events now2 event') db1 = Ok db1 /\
    outbox db1 = outbox db /\
    (forall r,
       List.In r (reservations (tables db)) ->
       r_id r = reservation_id -> r_order_id r = order_id ->
       (r_status r = ReservationStatus.RELEASED -> db1 = db) /\
       (r_status r <> ReservationStatus.RELEASED ->
        products (tables db1) =
          List.map (fun p =>
            mkProduct (p_id p) (p_name p) (p_price p)
              (available_quantity p + demand (p_id p) (r_items r))
              (reserved_quantity p - demand (p_id p) (r_items r)))
            (products (tables db)) /\
        reservations (tables db1) =
          List.map (fun x =>
            if N.eqb (r_id x) reservation_id
            then mkReservation (r_id r) (r_order_id r) (r_correlation_id r)
                   ReservationStatus.RELEASED (r_items r) (r_created_at r)
                   (Some now1)
            else x) (reservations (tables db)))).
Proof.
  intros [Hp Hr] Hev Hev'.
  unfold subscribe_to_events. rewrite Hev, Hev'. unfold exec.
  destruct (select_by_key_and r_id (fun r => N.eqb (r_order_id r) order_id)
              reservation_id (reservations (tables db)) Hr)
    as [Hnone | (r & Hin & Hid & Hoid & Hone)].
  - (* no such reservation *)
    exists db. rewrite !release_absent by exact Hnone.
    repeat split; try reflexivity; exfalso;
      (assert (Hf : List.In r
                      (List.filter
                         (fun r => N.eqb (r_id r) reservation_id
                                   && N.eqb (r_order_id r) order_id)
                         (reservations (tables db))))
         by (apply List.filter_In; split; [assumption|];
             subst; now rewrite !N.eqb_refl));
      rewrite Hnone in Hf; destruct Hf.
  - assert (Hsame : forall r0, List.In r0 (reservations (tables db)) ->
                      r_id r0 = reservation_id -> r0 = r).
    { intros r0 Hin0 Hid0. apply (key_inj_in r_id _ r0 r Hr Hin0 Hin).
      congruence. }
    destruct (ReservationStatus.eqb (r_status r) ReservationStatus.RELEASED)
      eqn:Hs.
    + (* already released *)
      assert (Hs' : r_status r = ReservationStatus.RELEASED)
        by (destruct (r_status r); try discriminate; reflexivity).
      exists db. rewrite !(release_released _ _ _ _ _ r Hone Hs').
      split; [reflexivity|]. split; [reflexivity|]. split; [reflexivity|].
      intros r0 Hin0 Hid0 _. rewrite (Hsame r0 Hin0 Hid0).
      split; [reflexivity|]. intros Hn. now contradiction Hn.
    + (* held: released now *)
      assert (Hs' : r_status r <> ReservationStatus.RELEASED)
        by (intros E; rewrite E in Hs; discriminate).
      rewrite (release_held _ _ _ _ _ r Hone Hs'). eexists.
      split; [reflexivity|]. split; [|split; [reflexivity|]].
      * set (r' := mkReservation (r_id r) (r_order_id r) (r_correlation_id r)
                     ReservationStatus.RELEASED (r_items r) (r_created_at r)
                     (Some now1)).
        rewrite (release_released now2 event' order_id reservation_id _ r');
          [reflexivity| |reflexivity].
        cbn [tables reservations]. rewrite <- Hid.
        rewrite (replace_filter_commute r_id
                   (fun x => N.eqb (r_order_id x) order_id)
                   (reservations (tables db)) r r' Hr Hin eq_refl eq_refl).
        rewrite Hid, Hone. cbn. now rewrite Hid, N.eqb_refl.
      * intros r0 Hin0 Hid0 Hoid0. rewrite (Hsame r0 Hin0 Hid0).
        split; [intros E; now contradiction Hs'|].
        intros _. cbn. split; [reflexivity|]. now rewrite Hid.
Qed.

Lemma release_idempotent_witness :
  exists db1,
    exec (subscribe_to_events 6 Examples.inventory_released) Examples.held_db
      = Ok db1 /\
    exec (subscribe_to_events 8 Examples.inventory_released) db1 = Ok db1 /\
    outbox db1 = outbox Examples.held_db.
Proof.
  destruct (release_idempotent 6 8 Examples.inventory_released
              Examples.inventory_released 7 12 Examples.held_db)
    as (db1 & H1 & H2 & H3 & _).
  - split; cbn; repeat constructor; intros [].
  - reflexivity.
  - reflexivity.
  - exists db1. auto.
Defined.

End InventoryProofs.

(** ** The payment participant *)

Section PaymentProofs.
Import PaymentService Payment.

Lemma error_message_nonempty k : List.nth (k mod 4)%nat error_messages "" <> "".
Proof.
  pose proof (Nat.mod_upper_bound k 4 ltac:(discriminate)) as H.
  destruct (k mod 4)%nat as [|[|[|[|n]]]]; cbn; try discriminate. lia.
Qed.

(** A UNIQUE text column selects at most one row. *)
Lemma select_by_text_key {A} (key : A -> string) (k : string) (rows : list A) :
  List.NoDup (List.map key rows) ->
  List.filter (fun x => String.eqb (key x) k) rows = [] \/
  exists x, List.In x rows /\ key x = k /\
            List.filter (fun x => String.eqb (key x) k) rows = [x].
Proof.
  induction rows as [|y rows IH]; cbn; [now left|].
  intros H. apply List.NoDup_cons_iff in H as [Hy H].
  destruct (String.eqb_spec (key y) k) as [E|NE].
  - right. exists y. split; [now left|]. split; [exact E|]. f_equal.
    apply filter_none. intros z Hz.
    destruct (String.eqb_spec (key z) k) as [Ez|]; [|reflexivity].
    exfalso. apply Hy. rewrite E, <- Ez. now apply List.in_map.
  - destruct (IH H) as [->|(x & Hin & Hk & ->)]; [now left|].
    right. exists x. auto.
Qed.

(** Rewriting the row of a fresh identifier touches no older row. *)
Lemma replace_fresh (x' : Transaction) (id : UUID) (rows : list Transaction) :
  List.Forall (fun y => (t_id y < id)%N) rows ->
  List.map (fun y => if N.eqb (t_id y) id then x' else y) rows = rows.
Proof.
  induction 1 as [|y rows Hy _ IH]; cbn; [reflexivity|].
  rewrite IH. destruct (N.eqb_spec (t_id y) id); [lia|reflexivity].
Qed.

Lemma consistent_fresh (db : Session) :
  consistent db ->
  List.Forall (fun y => (t_id y < uuid_supply db)%N) (transactions (tables db)).
Proof.
  intros [_ H]. eapply List.Forall_impl; [|exact H]. now intros y [Hy _].
Qed.

(** With no row under the key, no row clashes with a new one. *)
Lemma no_clash (db : Session) order_id :
  consistent db ->
  select_transaction (idempotency_key_of order_id) (tables db) = [] ->
  List.existsb
    (fun y => N.eqb (t_order_id y) order_id
              || String.eqb (t_idempotency_key y) (idempotency_key_of order_id))
    (transactions (tables db)) = false.
Proof.
  intros [_ H] Hsel. apply existsb_none. intros y Hy.
  assert (Hk : String.eqb (t_idempotency_key y) (idempotency_key_of order_id)
               = false).
  { destruct (String.eqb (t_idempotency_key y) (idempotency_key_of order_id))
      eqn:E; [|reflexivity].
    assert (Hf : List.In y (select_transaction (idempotency_key_of order_id)
                              (tables db)))
      by (apply List.filter_In; auto).
    rewrite Hsel in Hf. destruct Hf. }
  rewrite Hk, Bool.orb_false_r.
  destruct (N.eqb_spec (t_order_id y) order_id) as [E|]; [|reflexivity].
  apply (proj1 (List.Forall_forall _ _) H) in Hy as (_ & Hkey & _).
  rewrite Hkey, E, String.eqb_refl in Hk. discriminate.
Qed.

(** A delivery that finds a stored transaction: the handler returns, the
    tables are untouched, and the outbox receives the stored reply. *)
Lemma replay_run now draw event order_id customer amount currency method
    (db : Session) x :
  payload event
    = PaymentRequestedEvent order_id customer amount currency method ->
  select_transaction (idempotency_key_of order_id) (tables db) = [x] ->
  (t_status x = TransactionStatus.FAILED ->
   exists m, t_error_message x = Some m /\ m <> "") ->
  exists db',
    exec (subscribe_to_events now draw event) db = Ok db' /\
    tables db' = tables db /\
    List.map payload (emitted db db') = stored_reply order_id x /\
    List.Forall (caused_by event) (emitted db db') /\
    (uuid_supply db <= uuid_supply db')%N.
Proof.
  intros Hev Hsel Hfail. unfold subscribe_to_events. rewrite Hev.
  unfold handle_payment_requested, exec.
  unfold bind at 1. cbn [read_tables]. unfold bind at 1, lift.
  rewrite Hsel. cbn [scalar_one_or_none]. cbn beta iota.
  unfold replay_existing, stored_reply.
  destruct (t_status x) eqn:Hs.
  - exists db. repeat split; try rewrite emitted_same; auto; lia.
  - exists db. repeat split; try rewrite emitted_same; auto; lia.
  - cbn. eexists. split; [reflexivity|]. split; [reflexivity|].
    erewrite emitted_app by (cbn; reflexivity). cbn.
    split; [reflexivity|]. split; [repeat constructor|lia].
  - destruct (Hfail eq_refl) as (m & Hm & Hne). rewrite Hm.
    cbn. eexists. split; [reflexivity|]. split; [reflexivity|].
    erewrite emitted_app by (cbn; reflexivity). cbn.
    destruct (String.eqb_spec m ""); [contradiction|].
    split; [reflexivity|]. split; [repeat constructor|lia].
  - exists db. repeat split; try rewrite emitted_same; auto; lia.
Qed.

(** The first delivery for an order: one row is inserted, the gateway is
    called once, and the row is settled with the reply it determines. *)
Lemma first_run now draw event order_id customer amount currency method
    (db : Session) :
  consistent db ->
  payload event
    = PaymentRequestedEvent order_id customer amount currency method ->
  select_transaction (idempotency_key_of order_id) (tables db) = [] ->
  exists db' x,
    exec (subscribe_to_events now draw event) db = Ok db' /\
    transactions (tables db') = transactions (tables db) ++ [x] /\
    gateway_calls (tables db') = S (gateway_calls (tables db)) /\
    t_idempotency_key x = idempotency_key_of order_id /\
    t_order_id x = order_id /\
    (t_id x < uuid_supply db')%N /\
    (uuid_supply db <= uuid_supply db')%N /\
    (t_status x = TransactionStatus.COMPLETED \/
     t_status x = TransactionStatus.FAILED) /\
    (t_status x = TransactionStatus.FAILED ->
     exists m, t_error_message x = Some m /\ m <> "") /\
    List.map payload (emitted db db') = stored_reply order_id x /\
    List.Forall (caused_by event) (emitted db db') /\
    t_amount x = amount /\
    t_currency x = currency /\
    (if Qle_bool (2 # 10) (roll draw)
     then t_status x = TransactionStatus.COMPLETED
     else t_status x = TransactionStatus.FAILED).
Proof.
  intros Hc Hev Hsel. unfold subscribe_to_events. rewrite Hev.
  unfold handle_payment_requested, exec.
  unfold bind at 1. cbn [read_tables]. unfold bind at 1, lift.
  rewrite Hsel. cbn [scalar_one_or_none]. cbn beta iota.
  unfold create_transaction, add_transaction, complete_transaction,
    process_payment, bind, read_tables.
  pose proof (error_message_nonempty (pick draw)) as Hne.
  remember (List.nth (pick draw mod 4)%nat error_messages "") as msg eqn:Emsg.
  clear Emsg. cbn.
  rewrite (no_clash db order_id Hc Hsel). cbn.
  destruct (Qle_bool (2 # 10) (roll draw)); cbn.
  - eexists _, _. split; [reflexivity|]. cbn.
    rewrite List.map_app, (replace_fresh _ _ _ (consistent_fresh db Hc)).
    cbn. rewrite N.eqb_refl.
    split; [reflexivity|]. split; [reflexivity|].
    cbn. repeat split; try lia; try (now left); try discriminate.
    + erewrite emitted_app by (cbn; reflexivity). reflexivity.
    + erewrite emitted_app by (cbn; reflexivity). repeat constructor.
  - destruct (String.eqb_spec msg ""); [contradiction|].
    eexists _, _. split; [reflexivity|]. cbn.
    rewrite List.map_app, (replace_fresh _ _ _ (consistent_fresh db Hc)).
    cbn. rewrite N.eqb_refl.
    split; [reflexivity|]. split; [reflexivity|].
    cbn. repeat split; try lia; try (now right).
    + intros _. eexists. split; [reflexivity|exact Hne].
    + erewrite emitted_app by (cbn; reflexivity). reflexivity.
    + erewrite emitted_app by (cbn; reflexivity). repeat constructor.
Qed.

(** A refund that returns wrote nothing to the outbox and did not call
    the gateway; it left the transactions as they were, or marked as
    refunded the one transaction that carries the identifier. *)
Lemma refund_run now event order_id transaction_id refund_id amount
    (db db' : Session) :
  exec (handle_payment_refund now event order_id transaction_id refund_id
          amount) db = Ok db' ->
  outbox db' = outbox db /\
  gateway_calls (tables db') = gateway_calls (tables db) /\
  (uuid_supply db <= uuid_supply db')%N /\
  (transactions (tables db') = transactions (tables db) \/
   exists x,
     List.In x (transactions (tables db)) /\
     (forall y, List.In y (transactions (tables db)) ->
                t_id y = t_id x -> y = x) /\
     transactions (tables db') =
       List.map (fun y => if N.eqb (t_id y) (t_id x) then mark_refunded x
                          else y)
         (transactions (tables db))).
Proof.
  unfold handle_payment_refund, exec.
  unfold bind at 1. cbn [read_tables]. unfold bind at 1, lift.
  destruct (List.filter _ (transactions (tables db))) as [|x [|? ?]] eqn:Hf;
    cbn [scalar_one_or_none]; cbn beta iota; try discriminate.
  - intros H. injection H as <-. repeat split; auto; lia.
  - assert (Hx : List.In x (transactions (tables db)) /\
                 t_id x = transaction_id).
    { assert (Hin : List.In x (List.filter
                                 (fun x => N.eqb (t_id x) transaction_id)
                                 (transactions (tables db))))
        by (rewrite Hf; now left).
      apply List.filter_In in Hin as [Hin E]. now apply N.eqb_eq in E. }
    destruct Hx as [Hin Hid].
    assert (Hone : forall y, List.In y (transactions (tables db)) ->
                             t_id y = t_id x -> y = x).
    { intros y Hy E.
      assert (Hy' : List.In y (List.filter
                                 (fun x => N.eqb (t_id x) transaction_id)
                                 (transactions (tables db))))
        by (apply List.filter_In; split;
            [exact Hy | apply N.eqb_eq; congruence]).
      rewrite Hf in Hy'. now destruct Hy' as [<-|[]]. }
    destruct (t_status x);
      try (intros H; injection H as <-; repeat split; auto; lia).
    unfold bind at 1.
    destruct (List.filter _ (refunds (tables db))) as [|f [|? ?]];
      cbn [scalar_one_or_none]; cbn beta iota; try discriminate.
    + unfold bind, add_refund, commit_refunded, uuid4, read_tables.
      with_strategy opaque [uuid_str] cbn.
      destruct (List.existsb _ _);
        with_strategy opaque [uuid_str] cbn; [discriminate|].
      intros H. injection H as <-. cbn.
      split; [reflexivity|]. split; [reflexivity|]. split; [lia|].
      right. exists x. split; [exact Hin|]. split; [exact Hone|reflexivity].
    + intros H. injection H as <-. repeat split; auto; lia.
Qed.

(** [consistent] is an invariant of the service: whatever event it
    handles, a payment request or a refund, the idempotency keys stay
    pairwise distinct, every transaction keeps the key of its order, and
    every failed transaction carries its error message. *)
Lemma consistent_preserved now draw event (db db' : Session) :
  consistent db ->
  exec (subscribe_to_events now draw event) db = Ok db' ->
  consistent db'.
Proof.
  intros Hc. unfold subscribe_to_events.
  destruct (payload event) eqn:Hev;
    try (unfold exec, ret; intros H; now injection H as <-).
  2:{ intros Hrun.
      apply refund_run in Hrun as (_ & _ & Hsup & [Hsame | (x & Hin & Hone & Hmap)]);
        destruct Hc as [Hnd Hall].
      - split; rewrite Hsame; [exact Hnd|].
        eapply List.Forall_impl; [|exact Hall].
        intros y (Hy & Hky & Hfy). split; [lia|]. now split.
      - assert (Hx : (t_id x < uuid_supply db)%N /\
                     t_idempotency_key x = idempotency_key_of (t_order_id x))
          by (apply (proj1 (List.Forall_forall _ _) Hall) in Hin as (? & ? & _);
              now split).
        split; rewrite Hmap.
        + rewrite List.map_map.
          erewrite List.map_ext_in; [exact Hnd|].
          intros y Hy. cbn beta.
          destruct (N.eqb_spec (t_id y) (t_id x)) as [E|_]; [|reflexivity].
          now rewrite (Hone y Hy E).
        + apply List.Forall_forall. intros z Hz.
          apply List.in_map_iff in Hz as (y & <- & Hy).
          destruct (N.eqb (t_id y) (t_id x)).
          * cbn. split; [lia|]. split; [apply Hx|discriminate].
          * apply (proj1 (List.Forall_forall _ _) Hall) in Hy
              as (Hy1 & Hy2 & Hy3).
            split; [lia|]. now split. }
  fold (subscribe_to_events now draw event).
  assert (Hrun0 : subscribe_to_events now draw event
                  = handle_payment_requested now draw event order_id
                      customer_id amount currency payment_method)
    by (unfold subscribe_to_events; now rewrite Hev).
  rewrite <- Hrun0.
  destruct (select_by_text_key t_idempotency_key (idempotency_key_of order_id)
              (transactions (tables db)) (proj1 Hc))
    as [Hnone | (x & Hin & Hk & Hone)].
  - destruct (first_run now draw event order_id customer_id amount currency
                payment_method db Hc Hev Hnone)
      as (db1 & x & Hrun & Hrows & _ & Hkey & Hoid & Hid & Hsup & _ & Hfail & _).
    rewrite Hrun. intros H. injection H as <-.
    destruct Hc as [Hnd Hall]. split.
    + rewrite Hrows, List.map_app. apply List.NoDup_app; [exact Hnd| |].
      * cbn. repeat constructor. intros [].
      * intros k Hk [<-|[]]. apply List.in_map_iff in Hk as (y & Hy & Hiny).
        assert (Hf : List.In y (select_transaction
                                  (idempotency_key_of order_id) (tables db)))
          by (apply List.filter_In; split;
              [exact Hiny | rewrite Hy, Hkey; apply String.eqb_refl]).
        unfold select_transaction in Hf. rewrite Hnone in Hf. destruct Hf.
    + rewrite Hrows. apply List.Forall_app. split.
      * eapply List.Forall_impl; [|exact Hall].
        intros y (Hy & Hky & Hfy). split; [lia|]. now split.
      * repeat constructor; [exact Hid | now rewrite Hkey, Hoid | exact Hfail].
  - assert (Hfail : t_status x = TransactionStatus.FAILED ->
                    exists m, t_error_message x = Some m /\ m <> "").
    { destruct Hc as [_ Hall].
      now apply (proj1 (List.Forall_forall _ _) Hall) in Hin as (_ & _ & H). }
    destruct (replay_run now draw event order_id customer_id amount currency
                payment_method db x Hev Hone Hfail)
      as (db1 & Hrun & Htab & _ & _ & Hsup).
    rewrite Hrun. intros H. injection H as <-.
    destruct Hc as [Hnd Hall]. split; rewrite Htab; [exact Hnd|].
    eapply List.Forall_impl; [|exact Hall].
    intros y (Hy & Hky & Hfy). split; [lia|]. now split.
Qed.

Lemma consistent_empty supply :
  consistent (mkDb (mkTables [] 0 []) [] supply).
Proof. split; cbn; constructor. Qed.

(** C3. Two deliveries of [payment.requested] for the same order.  Both
    return; afterwards exactly one transaction carries the key
    ["payment_" + order_id]; the second delivery changes no row and does
    not call the gateway, and what it writes to the outbox is the reply the
    stored transaction determines: one [payment.processed] with the stored
    identifier, amount and currency when it is completed, one
    [payment.failed] with the stored reason when it is failed.  It is
    the reply of the first delivery again.  When the order had no
    transaction before, the first delivery inserts that transaction for
    the requested amount and currency, calls the gateway once and
    settles it as the gateway decides: completed, or failed when the
    draw is below 0.2. *)
Theorem payment_requested_idempotent now1 now2 draw1 draw2 event1 event2
    order_id customer1 amount1 currency1 method1
    customer2 amount2 currency2 method2 (db : Session) :
  consistent db ->
  payload event1
    = PaymentRequestedEvent order_id customer1 amount1 currency1 method1 ->
  payload event2
    = PaymentRequestedEvent order_id customer2 amount2 currency2 method2 ->
  exists db1 db2 x,
    exec (subscribe_to_events now1 draw1 event1) db = Ok db1 /\
    exec (subscribe_to_events now2 draw2 event2) db1 = Ok db2 /\
    select_transaction (idempotency_key_of order_id) (tables db2) = [x] /\
    transactions (tables db2) = transactions (tables db1) /\
    gateway_calls (tables db2) = gateway_calls (tables db1) /\
    List.map payload (emitted db1 db2) = stored_reply order_id x /\
    (t_status x = TransactionStatus.FAILED ->
     exists reason, t_error_message x = Some reason) /\
    List.Forall (caused_by event2) (emitted db1 db2) /\
    List.map payload (emitted db1 db2) = List.map payload (emitted db db1) /\
    (t_status x = TransactionStatus.COMPLETED ->
     List.map payload (emitted db1 db2)
     = [PaymentProcessedEvent order_id (t_id x) (t_amount x) (t_currency x)]) /\
    (t_status x = TransactionStatus.FAILED ->
     exists reason,
       t_error_message x = Some reason /\
       List.map payload (emitted db1 db2)
       = [PaymentFailedEvent order_id reason (Some "PAYMENT_FAILED")]) /\
    (select_transaction (idempotency_key_of order_id) (tables db) = [] ->
     transactions (tables db1) = transactions (tables db) ++ [x] /\
     gateway_calls (tables db1) = S (gateway_calls (tables db)) /\
     t_amount x = amount1 /\
     t_currency x = currency1 /\
     (if Qle_bool (2 # 10) (roll draw1)
      then t_status x = TransactionStatus.COMPLETED
      else t_status x = TransactionStatus.FAILED)).
Proof.
  intros Hc Hev1 Hev2.
  assert (Hshape : forall (x : Transaction) (l : list Payload),
            l = stored_reply order_id x ->
            (t_status x = TransactionStatus.FAILED ->
             exists m, t_error_message x = Some m /\ m <> "") ->
            (t_status x = TransactionStatus.COMPLETED ->
             l = [PaymentProcessedEvent order_id (t_id x) (t_amount x)
                    (t_currency x)]) /\
            (t_status x = TransactionStatus.FAILED ->
             exists reason,
               t_error_message x = Some reason /\
               l = [PaymentFailedEvent order_id reason
                      (Some "PAYMENT_FAILED")])).
  { intros x l -> Hfail. unfold stored_reply. split.
    - intros Hs. now rewrite Hs.
    - intros Hs. destruct (Hfail Hs) as (m & Hm & _).
      exists m. split; [exact Hm|]. now rewrite Hs, Hm. }
  destruct (select_by_text_key t_idempotency_key (idempotency_key_of order_id)
              (transactions (tables db)) (proj1 Hc))
    as [Hnone | (x & Hin & Hk & Hone)].
  - destruct (first_run now1 draw1 event1 order_id customer1 amount1 currency1
                method1 db Hc Hev1 Hnone)
      as (db1 & x & Hrun1 & Hrows & Hcalls & Hkey & _ & _ & _ & _ & Hfail
          & Hreply1 & _ & Hamount & Hcurrency & Hdraw).
    assert (Hsel1 : select_transaction (idempotency_key_of order_id)
                      (tables db1) = [x]).
    { unfold select_transaction in *. rewrite Hrows, List.filter_app, Hnone.
      cbn. now rewrite Hkey, String.eqb_refl. }
    destruct (replay_run now2 draw2 event2 order_id customer2 amount2
                currency2 method2 db1 x Hev2 Hsel1 Hfail)
      as (db2 & Hrun2 & Htab & Hreply2 & Hcause & _).
    destruct (Hshape x _ Hreply2 Hfail) as [Hcompleted Hfailed].
    exists db1, db2, x. rewrite Htab.
    split; [exact Hrun1|]. split; [exact Hrun2|]. split; [exact Hsel1|].
    split; [reflexivity|]. split; [reflexivity|]. split; [exact Hreply2|].
    split; [intros Hs; destruct (Hfail Hs) as (m & Hm & _); eauto|].
    split; [exact Hcause|]. split; [congruence|].
    split; [exact Hcompleted|]. split; [exact Hfailed|].
    intros _. repeat split; assumption.
  - assert (Hfail : t_status x = TransactionStatus.FAILED ->
                    exists m, t_error_message x = Some m /\ m <> "").
    { destruct Hc as [_ Hall].
      now apply (proj1 (List.Forall_forall _ _) Hall) in Hin as (_ & _ & H). }
    destruct (replay_run now1 draw1 event1 order_id customer1 amount1
                currency1 method1 db x Hev1 Hone Hfail)
      as (db1 & Hrun1 & Htab1 & Hreply1 & _ & _).
    assert (Hsel1 : select_transaction (idempotency_key_of order_id)
                      (tables db1) = [x]) by now rewrite Htab1.
    destruct (replay_run now2 draw2 event2 order_id customer2 amount2
                currency2 method2 db1 x Hev2 Hsel1 Hfail)
      as (db2 & Hrun2 & Htab2 & Hreply2 & Hcause & _).
    destruct (Hshape x _ Hreply2 Hfail) as [Hcompleted Hfailed].
    exists db1, db2, x. rewrite Htab2.
    split; [exact Hrun1|]. split; [exact Hrun2|]. split; [exact Hsel1|].
    split; [reflexivity|]. split; [reflexivity|]. split; [exact Hreply2|].
    split; [intros Hs; destruct (Hfail Hs) as (m & Hm & _); eauto|].
    split; [exact Hcause|]. split; [congruence|].
    split; [exact Hcompleted|]. split; [exact Hfailed|].
    intros Hnone. unfold select_transaction in Hone, Hnone.
    rewrite Hnone in Hone. discriminate.
Qed.

Lemma payment_requested_idempotent_witness :
  exists db1 db2 x,
    exec (subscribe_to_events 3 Examples.approved Examples.payment_requested)
      Examples.no_payments = Ok db1 /\
    exec (subscribe_to_events 4 Examples.approved Examples.payment_requested)
      db1 = Ok db2 /\
    select_transaction (idempotency_key_of 7) (tables db2) = [x] /\
    transactions (tables db2) = transactions (tables db1) /\
    gateway_calls (tables db2) = gateway_calls (tables db1) /\
    gateway_calls (tables db1) = 1%nat /\
    t_status x = TransactionStatus.COMPLETED /\
    List.map payload (emitted db1 db2)
    = [PaymentProcessedEvent 7 (t_id x) (200 # 1) "USD"].
Proof.
  destruct (payment_requested_idempotent 3 4 Examples.approved
              Examples.approved Examples.payment_requested
              Examples.payment_requested 7 1 (200 # 1) "USD"
              [("type", "credit_card")] 1 (200 # 1) "USD"
              [("type", "credit_card")] Examples.no_payments)
    as (db1 & db2 & x & H1 & H2 & H3 & H4 & H5 & _ & _ & _ & _ & Hc & _
        & Hfresh).
  - split; cbn; constructor.
  - reflexivity.
  - reflexivity.
  - destruct (Hfresh eq_refl) as (_ & Hcalls & Ha & Hcur & Hs).
    cbn in Hs. exists db1, db2, x.
    split; [exact H1|]. split; [exact H2|]. split; [exact H3|].
    split; [exact H4|]. split; [exact H5|]. split; [exact Hcalls|].
    split; [exact Hs|]. rewrite (Hc Hs), Ha, Hcur. reflexivity.
Defined.

(** C10. A [payment.requested] that finds its transaction in a status
    other than completed or failed returns and leaves the database as it
    is: nothing in the outbox, no second row, no call to the gateway.
    The state a crash between the two commits leaves (the row inserted
    with status processing, nothing else written) is such a state. *)
Theorem in_flight_payment_stalls now draw event order_id customer amount
    currency method :
  payload event
    = PaymentRequestedEvent order_id customer amount currency method ->
  (forall (db : Session) x,
     select_transaction (idempotency_key_of order_id) (tables db) = [x] ->
     t_status x <> TransactionStatus.COMPLETED ->
     t_status x <> TransactionStatus.FAILED ->
     exec (subscribe_to_events now draw event) db = Ok db) /\
  (forall (db0 : Session) now0 event0 customer0 amount0 currency0 method0,
     consistent db0 ->
     select_transaction (idempotency_key_of order_id) (tables db0) = [] ->
     exists x db,
       create_transaction now0 event0 order_id customer0 amount0 currency0
         method0 db0 = Ok (x, db) /\
       t_status x = TransactionStatus.PROCESSING /\
       transactions (tables db) = transactions (tables db0) ++ [x] /\
       gateway_calls (tables db) = gateway_calls (tables db0) /\
       outbox db = outbox db0 /\
       exec (subscribe_to_events now draw event) db = Ok db).
Proof.
  intros Hev.
  assert (Hstall : forall (db : Session) x,
            select_transaction (idempotency_key_of order_id) (tables db) = [x] ->
            t_status x <> TransactionStatus.COMPLETED ->
            t_status x <> TransactionStatus.FAILED ->
            exec (subscribe_to_events now draw event) db = Ok db).
  { intros db x Hsel Hc Hf. unfold subscribe_to_events. rewrite Hev.
    unfold handle_payment_requested, exec.
    unfold bind at 1. cbn [read_tables]. unfold bind at 1, lift.
    rewrite Hsel. cbn [scalar_one_or_none]. cbn beta iota.
    unfold replay_existing.
    destruct (t_status x); try reflexivity; now contradiction. }
  split; [exact Hstall|].
  intros db0 now0 event0 customer0 amount0 currency0 method0 Hc Hnone.
  unfold create_transaction, add_transaction, bind, read_tables. cbn.
  rewrite (no_clash db0 order_id Hc Hnone). cbn.
  eexists _, _. split; [reflexivity|]. cbn.
  repeat split.
  eapply Hstall.
  - unfold select_transaction in *. cbn. rewrite List.filter_app, Hnone.
    cbn. rewrite String.eqb_refl. reflexivity.
  - cbn. discriminate.
  - cbn. discriminate.
Qed.

Lemma in_flight_payment_stalls_witness :
  exec (subscribe_to_events 9 Examples.approved Examples.payment_requested)
    Examples.crashed_db = Ok Examples.crashed_db.
Proof.
  apply (proj1 (in_flight_payment_stalls 9 Examples.approved
                  Examples.payment_requested 7 1 (200 # 1) "USD"
                  [("type", "credit_card")] eq_refl)
           Examples.crashed_db Examples.in_flight).
  - vm_compute. reflexivity.
  - discriminate.
  - discriminate.
Defined.

End PaymentProofs.

(** ** Correlation and causation across the saga *)

Section SagaProofs.

Lemma emitted_nil {T} (db : Db T) : emitted db db = [].
Proof. now apply emitted_same. Qed.

Lemma orchestrator_caused now trigger (db db' : OrderService.Session) :
  exec (OrderService.subscribe_to_events now trigger) db = Ok db' ->
  List.Forall (caused_by trigger) (emitted db db').
Proof.
  unfold OrderService.subscribe_to_events.
  destruct (payload trigger) eqn:Hp;
    try (unfold exec, ret; intros H; injection H as <-;
         rewrite emitted_nil; constructor).
  all: unfold OrderService.handle_inventory_reserved,
         OrderService.handle_inventory_reserve_failed,
         OrderService.handle_payment_processed,
         OrderService.handle_payment_failed, OrderService._get_order,
         exec, bind; cbn;
       destruct (OrderService.select_order order_id (tables db))
         as [|order [|? ?]]; cbn; try discriminate;
       try (intros H; injection H as <-; rewrite emitted_nil; constructor).
  - intros H. injection H as <-.
    erewrite emitted_app by (cbn; reflexivity). repeat constructor.
  - intros H. injection H as <-.
    erewrite emitted_app by (cbn; reflexivity). repeat constructor.
  - intros H. injection H as <-.
    erewrite emitted_app by (cbn; reflexivity). repeat constructor.
  - destruct (OrderService.o_reservation_id order); cbn;
      intros H; injection H as <-.
    + erewrite emitted_app
        by (cbn; rewrite <- List.app_assoc; reflexivity).
      repeat constructor.
    + erewrite emitted_app by (cbn; reflexivity). repeat constructor.
Qed.

Lemma check_availability_state items (db db' : InventoryService.Session) l :
  InventoryService.check_availability items db = Ok (l, db') -> db' = db.
Proof.
  revert l. induction items as [|item items IH]; intros l.
  - cbn. unfold ret. now intros [= _ <-].
  - cbn [InventoryService.check_availability].
    unfold bind at 1. cbn [read_tables]. unfold bind at 1, lift.
    destruct (scalar_one_or_none _) as [product|]; [|discriminate].
    unfold bind at 1.
    destruct (InventoryService.check_availability items db)
      as [[others db'']|] eqn:E; [|discriminate].
    unfold ret. intros [= _ <-]. now apply (IH _ eq_refl).
Qed.

Lemma inventory_caused now trigger (db db' : InventoryService.Session) :
  exec (InventoryService.subscribe_to_events now trigger) db = Ok db' ->
  List.Forall (caused_by trigger) (emitted db db').
Proof.
  unfold InventoryService.subscribe_to_events.
  destruct (payload trigger) eqn:Hp;
    try (unfold exec, ret; intros H; injection H as <-;
         rewrite emitted_nil; constructor).
  - unfold InventoryService.handle_reserve_requested, exec.
    unfold bind at 1. cbn [read_tables]. unfold bind at 1, lift.
    destruct (List.filter _ _) as [|existing [|? ?]];
      cbn [scalar_one_or_none]; cbn beta iota; try discriminate.
    + unfold bind at 1.
      destruct (InventoryService.check_availability items db)
        as [[unavailable db1]|] eqn:Hcheck; [|discriminate].
      apply check_availability_state in Hcheck as ->.
      destruct unavailable as [|u us].
      * unfold bind at 1. rewrite reserve_loop_run.
        unfold bind, InventoryService.add_reservation, read_tables. cbn.
        destruct (List.existsb _ _); cbn; [discriminate|].
        intros H. injection H as <-.
        erewrite emitted_app by (cbn; reflexivity). repeat constructor.
      * cbn. intros H. injection H as <-.
        erewrite emitted_app by (cbn; reflexivity). repeat constructor.
    + cbn. intros H. injection H as <-.
      erewrite emitted_app by (cbn; reflexivity). repeat constructor.
  - unfold InventoryService.handle_release_inventory, exec.
    unfold bind at 1. cbn [read_tables]. unfold bind at 1, lift.
    destruct (List.filter _ _) as [|r [|? ?]];
      cbn [scalar_one_or_none]; cbn beta iota; try discriminate.
    + intros H. injection H as <-. rewrite emitted_nil. constructor.
    + destruct (ReservationStatus.eqb _ _).
      * intros H. injection H as <-. rewrite emitted_nil. constructor.
      * unfold bind at 1. rewrite release_loop_run. cbn.
        intros H. injection H as <-. rewrite emitted_same by reflexivity.
        constructor.
Qed.

Lemma payment_caused now draw trigger (db db' : PaymentService.Session) :
  exec (PaymentService.subscribe_to_events now draw trigger) db = Ok db' ->
  List.Forall (caused_by trigger) (emitted db db').
Proof.
  unfold PaymentService.subscribe_to_events.
  destruct (payload trigger) eqn:Hp;
    try (unfold exec, ret; intros H; injection H as <-;
         rewrite emitted_nil; constructor).
  2:{ intros H. apply refund_run in H as (Hout & _).
      rewrite (emitted_same _ _ Hout). constructor. }
  unfold PaymentService.handle_payment_requested, exec.
  unfold bind at 1. cbn [read_tables]. unfold bind at 1, lift.
  destruct (PaymentService.select_transaction _ _) as [|x [|? ?]];
    cbn [scalar_one_or_none]; cbn beta iota; try discriminate.
  - unfold PaymentService.create_transaction, PaymentService.add_transaction,
      PaymentService.complete_transaction, PaymentService.process_payment,
      bind, read_tables.
    remember (List.nth _ PaymentService.error_messages "") as msg. cbn.
    destruct (List.existsb _ _); cbn; [discriminate|].
    destruct (negb _); cbn; intros H; injection H as <-;
      erewrite emitted_app by (cbn; reflexivity); repeat constructor.
  - unfold PaymentService.replay_existing.
    destruct (PaymentService.t_status x); cbn;
      intros H; injection H as <-;
      try (rewrite emitted_nil; constructor);
      erewrite emitted_app by (cbn; reflexivity); repeat constructor.
Qed.

Lemma shipping_caused now trigger (db db' : ShippingService.Session) :
  exec (ShippingService.subscribe_to_events now trigger) db = Ok db' ->
  List.Forall (caused_by trigger) (emitted db db').
Proof.
  unfold ShippingService.subscribe_to_events.
  destruct (payload trigger) eqn:Hp;
    try (unfold exec, ret; intros H; injection H as <-;
         rewrite emitted_nil; constructor).
  unfold ShippingService.handle_order_confirmed, exec.
  unfold bind at 1. cbn [read_tables]. unfold bind at 1, lift.
  destruct (List.filter _ _) as [|s [|? ?]];
    cbn [scalar_one_or_none]; cbn beta iota; try discriminate.
  - unfold bind. with_strategy opaque [uuid_hex upper] cbn.
    intros H. injection H as <-.
    erewrite emitted_app by (with_strategy opaque [uuid_hex upper] cbn; reflexivity).
    repeat constructor.
  - intros H. injection H as <-. rewrite emitted_nil. constructor.
Qed.

Lemma start_order_saga_events now customer items total address method
    (db db' : OrderService.Session) order :
  OrderService.start_order_saga now customer items total address method db
    = Ok (order, db') ->
  exists placed requested,
    emitted db db' = [placed; requested] /\
    event_type placed = EventType.ORDER_PLACED /\
    causation_id placed = None /\
    correlation_id placed = OrderService.o_correlation_id order /\
    event_type requested = EventType.INVENTORY_RESERVE_REQUESTED /\
    correlation_id requested = OrderService.o_correlation_id order /\
    caused_by placed requested.
Proof.
  unfold OrderService.start_order_saga, bind. cbn.
  destruct (OrderService.str_dict address) as [a|]; [|discriminate].
  unfold OrderService.add_order.
  destruct items as [|item items]; [|discriminate].
  cbn. intros H. injection H as <- <-.
  eexists _, _. split.
  - erewrite emitted_app by (cbn; rewrite <- List.app_assoc; reflexivity).
    reflexivity.
  - cbn. repeat split.
Qed.

(** C9. Whatever a handler of the orchestrator, of the inventory, payment
    or shipping participant writes to its outbox in response to an event
    carries that event's correlation identifier, and that event's
    identifier as its causation.  [start_order_saga] writes
    [order.placed], without causation, and [inventory.reserve.requested],
    caused by it, both under the correlation identifier of the new
    order.  Hence every event of a saga carries the correlation
    identifier of its order, and each one but [order.placed] is caused by
    an event of the same saga. *)
Theorem saga_events_traceable :
  (forall now trigger db db',
     exec (OrderService.subscribe_to_events now trigger) db = Ok db' ->
     List.Forall (caused_by trigger) (emitted db db')) /\
  (forall now trigger db db',
     exec (InventoryService.subscribe_to_events now trigger) db = Ok db' ->
     List.Forall (caused_by trigger) (emitted db db')) /\
  (forall now draw trigger db db',
     exec (PaymentService.subscribe_to_events now draw trigger) db = Ok db' ->
     List.Forall (caused_by trigger) (emitted db db')) /\
  (forall now trigger db db',
     exec (ShippingService.subscribe_to_events now trigger) db = Ok db' ->
     List.Forall (caused_by trigger) (emitted db db')) /\
  (forall now customer items total address method db db' order,
     OrderService.start_order_saga now customer items total address method db
       = Ok (order, db') ->
     exists placed requested,
       emitted db db' = [placed; requested] /\
       event_type placed = EventType.ORDER_PLACED /\
       causation_id placed = None /\
       correlation_id placed = OrderService.o_correlation_id order /\
       event_type requested = EventType.INVENTORY_RESERVE_REQUESTED /\
       correlation_id requested = OrderService.o_correlation_id order /\
       caused_by placed requested) /\
  (forall order e,
     saga_event order e ->
     correlation_id e = OrderService.o_correlation_id order /\
     ((event_type e = EventType.ORDER_PLACED /\ causation_id e = None) \/
      exists trigger, saga_event order trigger /\ caused_by trigger e)).
Proof.
  split; [exact orchestrator_caused|].
  split; [exact inventory_caused|].
  split; [exact payment_caused|].
  split; [exact shipping_caused|].
  split; [exact start_order_saga_events|].
  assert (Hstep : forall order trigger e (l : list Event),
            saga_event order trigger ->
            correlation_id trigger = OrderService.o_correlation_id order ->
            List.Forall (caused_by trigger) l -> List.In e l ->
            correlation_id e = OrderService.o_correlation_id order /\
            ((event_type e = EventType.ORDER_PLACED /\ causation_id e = None) \/
             exists trigger, saga_event order trigger /\ caused_by trigger e)).
  { intros order trigger e l Ht Hc Hall Hin.
    pose proof (proj1 (List.Forall_forall _ _) Hall e Hin) as Hcause.
    split; [destruct Hcause; congruence|]. right. eauto. }
  intros order e H.
  induction H as
    [ now customer items total address method db db' e Hrun Hin
    | now trigger db db' e Ht [IH _] Hrun Hin
    | now trigger db db' e Ht [IH _] Hrun Hin
    | now draw trigger db db' e Ht [IH _] Hrun Hin
    | now trigger db db' e Ht [IH _] Hrun Hin ].
  - destruct (start_order_saga_events _ _ _ _ _ _ _ _ _ Hrun)
      as (placed & requested & Hem & Htp & Hnone & Hcp & Htr & Hcr & Hcause).
    rewrite Hem in Hin. destruct Hin as [<-|[<-|[]]].
    + split; [exact Hcp|]. now left.
    + split; [exact Hcr|]. right. exists placed. split; [|exact Hcause].
      eapply saga_started; [exact Hrun|]. rewrite Hem. now left.
  - exact (Hstep _ _ _ _ Ht IH (orchestrator_caused _ _ _ _ Hrun) Hin).
  - exact (Hstep _ _ _ _ Ht IH (inventory_caused _ _ _ _ Hrun) Hin).
  - exact (Hstep _ _ _ _ Ht IH (payment_caused _ _ _ _ _ Hrun) Hin).
  - exact (Hstep _ _ _ _ Ht IH (shipping_caused _ _ _ _ Hrun) Hin).
Qed.

Lemma saga_events_traceable_witness :
  exists db',
    exec (OrderService.subscribe_to_events 1 Examples.inventory_reserved)
      Examples.pending_db = Ok db' /\
    List.Forall (caused_by Examples.inventory_reserved)
      (emitted Examples.pending_db db').
Proof.
  eexists. split.
  - vm_compute. reflexivity.
  - apply (proj1 saga_events_traceable 1 Examples.inventory_reserved
             Examples.pending_db).
    vm_compute. reflexivity.
Defined.

End SagaProofs.

(** ** More on the orchestrator and the order service *)

Section OrchestratorExtras.
Import OrderService Orchestrator OrderQueries.

(** A reply about an order the service does not store is dropped: the
    handler returns and nothing is written, neither to the tables nor to
    the outbox. *)
Theorem reply_for_unknown_order_dropped now event order_id (db : Session) :
  reply_order_id event = Some order_id ->
  (forall o, List.In o (orders (tables db)) -> o_id o <> order_id) ->
  subscribe_to_events now event db = Ok (tt, db).
Proof.
  intros Hid Hnone. unfold reply_order_id in Hid. unfold subscribe_to_events.
  assert (Hsel : select_order order_id (tables db) = []).
  { unfold select_order. apply filter_none. intros o Ho.
    apply N.eqb_neq. now apply Hnone. }
  destruct (payload event); try discriminate; injection Hid as ->;
    unfold handle_inventory_reserved, handle_inventory_reserve_failed,
      handle_payment_processed, handle_payment_failed, _get_order, bind;
    cbn; now rewrite Hsel.
Qed.

Lemma reply_for_unknown_order_dropped_witness :
  subscribe_to_events 1 Examples.inventory_reserved Examples.empty_db
  = Ok (tt, Examples.empty_db).
Proof.
  apply (reply_for_unknown_order_dropped 1 Examples.inventory_reserved 7
           Examples.empty_db).
  - reflexivity.
  - intros o [].
Defined.

(** No handler looks at the status the order is in: whatever it was,
    after a reply the status and the saga step are the ones of that
    reply, so a confirmed or failed order can be moved again. *)
Theorem reply_overrides_status now event (db : Session) order :
  keyed db ->
  List.In order (orders (tables db)) ->
  reply_order_id event = Some (o_id order) ->
  exists db' order',
    exec (subscribe_to_events now event) db = Ok db' /\
    select_order (o_id order) (tables db') = [order'] /\
    (o_status order', o_current_saga_step order') =
      match payload event with
      | InventoryReservedEvent _ _ _ =>
          (OrderStatus.INVENTORY_RESERVED, SagaStep.PAYMENT_PROCESSING)
      | PaymentProcessedEvent _ _ _ _ =>
          (OrderStatus.CONFIRMED, SagaStep.ORDER_CONFIRMATION)
      | _ => (OrderStatus.FAILED, o_current_saga_step order)
      end.
Proof.
  intros Hk Hin Hid.
  pose proof (select_order_unique db order Hk Hin) as Hsel.
  destruct (orchestrator_step now event db order Hid Hsel)
    as (db' & rows & Hrun & Ho & _).
  exists db', (transition (payload event) order).
  split; [exact Hrun|]. split.
  - unfold select_order. rewrite Ho.
    apply (filter_key_replace o_id); [apply transition_id | exact Hsel].
  - unfold reply_order_id in Hid.
    destruct (payload event); try discriminate; reflexivity.
Qed.

Lemma reply_overrides_status_witness :
  exists db' order',
    exec (subscribe_to_events 9 Examples.inventory_reserved)
      MoreExamples.confirmed_db = Ok db' /\
    select_order 7 (tables db') = [order'] /\
    (o_status order', o_current_saga_step order')
    = (OrderStatus.INVENTORY_RESERVED, SagaStep.PAYMENT_PROCESSING).
Proof.
  apply (reply_overrides_status 9 Examples.inventory_reserved
           MoreExamples.confirmed_db MoreExamples.confirmed_order).
  - unfold keyed. cbn. repeat constructor. intros [].
  - now left.
  - reflexivity.
Defined.

(** What a delivery never does: it keeps the identity, customer, lines,
    total, address, correlation identifier and creation time of every
    order, row by row, keeps the primary key, and only appends to the
    saga log. *)
Theorem delivery_keeps_order_identity now event (db db' : Session) :
  exec (subscribe_to_events now event) db = Ok db' ->
  List.map (fun o => (o_id o, o_customer_id o, o_items o, o_total_amount o,
                      o_shipping_address o, o_correlation_id o, o_created_at o))
    (orders (tables db'))
  = List.map (fun o => (o_id o, o_customer_id o, o_items o, o_total_amount o,
                        o_shipping_address o, o_correlation_id o,
                        o_created_at o))
      (orders (tables db)) /\
  (keyed db -> keyed db') /\
  exists logs, saga_logs (tables db') = saga_logs (tables db) ++ logs.
Proof.
  intros Hrun.
  assert (Hgoal :
    List.map (fun o => (o_id o, o_customer_id o, o_items o, o_total_amount o,
                        o_shipping_address o, o_correlation_id o,
                        o_created_at o)) (orders (tables db'))
    = List.map (fun o => (o_id o, o_customer_id o, o_items o,
                          o_total_amount o, o_shipping_address o,
                          o_correlation_id o, o_created_at o))
        (orders (tables db)) /\
    exists logs, saga_logs (tables db') = saga_logs (tables db) ++ logs).
  { revert Hrun. unfold subscribe_to_events.
    assert (Hsame : forall order (f : Order -> Order),
              select_order (o_id order) (tables db) = [order] ->
              (forall o, (o_id (f o), o_customer_id (f o), o_items (f o),
                          o_total_amount (f o), o_shipping_address (f o),
                          o_correlation_id (f o), o_created_at (f o))
                         = (o_id o, o_customer_id o, o_items o,
                            o_total_amount o, o_shipping_address o,
                            o_correlation_id o, o_created_at o)) ->
              List.map (fun o => (o_id o, o_customer_id o, o_items o,
                                  o_total_amount o, o_shipping_address o,
                                  o_correlation_id o, o_created_at o))
                (List.map (fun x => if N.eqb (o_id x) (o_id order)
                                    then f order else x)
                   (orders (tables db)))
              = List.map (fun o => (o_id o, o_customer_id o, o_items o,
                                    o_total_amount o, o_shipping_address o,
                                    o_correlation_id o, o_created_at o))
                  (orders (tables db))).
    { intros order f Hsel Hf. rewrite List.map_map.
      apply List.map_ext_in. intros x Hx.
      destruct (N.eqb (o_id x) (o_id order)) eqn:E; [|reflexivity].
      assert (Hxin : List.In x (select_order (o_id order) (tables db)))
        by (apply List.filter_In; auto).
      rewrite Hsel in Hxin. destruct Hxin as [<-|[]]. apply Hf. }
    destruct (payload event) eqn:Hp;
      try (unfold exec, ret; intros H; injection H as <-; split;
           [reflexivity | exists []; now rewrite List.app_nil_r]).
    all: unfold handle_inventory_reserved, handle_inventory_reserve_failed,
           handle_payment_processed, handle_payment_failed, _get_order,
           exec, bind; cbn;
         destruct (select_order order_id (tables db))
           as [|order [|? ?]] eqn:Hsel; cbn; try discriminate;
         try (intros H; injection H as <-; split;
              [reflexivity | exists []; now rewrite List.app_nil_r]).
    all: assert (Hoid : o_id order = order_id)
           by (assert (Hi : List.In order (select_order order_id (tables db)))
                 by (rewrite Hsel; now left);
               apply List.filter_In in Hi as [_ Hi]; now apply N.eqb_eq in Hi);
         subst order_id.
    - intros H. injection H as <-. cbn. split.
      + apply (Hsame order
                 (fun o => set_current_saga_step SagaStep.PAYMENT_PROCESSING
                             (set_reservation_id (Some reservation_id)
                                (set_status OrderStatus.INVENTORY_RESERVED o)))
                 Hsel). reflexivity.
      + rewrite <- List.app_assoc. eauto.
    - intros H. injection H as <-. cbn. split.
      + apply (Hsame order
                 (fun o => set_error_message (Some reason)
                             (set_status OrderStatus.FAILED o)) Hsel).
        reflexivity.
      + eauto.
    - intros H. injection H as <-. cbn. split.
      + apply (Hsame order
                 (fun o => set_current_saga_step SagaStep.ORDER_CONFIRMATION
                             (set_transaction_id (Some transaction_id)
                                (set_status OrderStatus.CONFIRMED o))) Hsel).
        reflexivity.
      + rewrite <- List.app_assoc. eauto.
    - destruct (o_reservation_id order) eqn:Hr; cbn;
        intros H; injection H as <-; cbn; split.
      + apply (Hsame order
                 (fun o => set_error_message (Some reason)
                             (set_status OrderStatus.FAILED o)) Hsel).
        reflexivity.
      + rewrite <- List.app_assoc. eauto.
      + apply (Hsame order
                 (fun o => set_error_message (Some reason)
                             (set_status OrderStatus.FAILED o)) Hsel).
        reflexivity.
      + eauto. }
  destruct Hgoal as [Hmap Hlogs]. split; [exact Hmap|]. split; [|exact Hlogs].
  unfold keyed. intros Hk.
  apply (f_equal (List.map (fun t : UUID * UUID * list OrderLine * Q
                                   * list (string * json) * UUID * datetime =>
                              let '(i, _, _, _, _, _, _) := t in i))) in Hmap.
  rewrite !List.map_map in Hmap.
  assert (E : List.map o_id (orders (tables db'))
              = List.map o_id (orders (tables db))) by exact Hmap.
  now rewrite E.
Qed.

Lemma delivery_keeps_order_identity_witness :
  exists db',
    exec (subscribe_to_events 5 Examples.payment_failed) Examples.reserved_db
      = Ok db' /\
    List.map o_correlation_id (orders (tables db')) = [9%N] /\
    keyed db'.
Proof.
  eexists. split; [vm_compute; reflexivity|].
  destruct (delivery_keeps_order_identity 5 Examples.payment_failed
              Examples.reserved_db _ ltac:(vm_compute; reflexivity))
    as (Hmap & Hk & _).
  split.
  - apply (f_equal (List.map (fun t : UUID * UUID * list OrderLine * Q
                                     * list (string * json) * UUID * datetime =>
                                let '(_, _, _, _, _, c, _) := t in c))) in Hmap.
    rewrite !List.map_map in Hmap. exact Hmap.
  - apply Hk. unfold keyed. cbn. repeat constructor. intros [].
Defined.

Lemma start_order_saga_run now customer total address addr method
    (db : Session) :
  str_dict address = Some addr ->
  exists order db0 placed requested,
    start_order_saga now customer [] total address method db
      = Ok (order, db0) /\
    order = mkOrder (N.succ (uuid_supply db)) customer OrderStatus.PENDING
              SagaStep.INVENTORY_RESERVATION [] total address
              (uuid_supply db) None None None None now /\
    orders (tables db0) = orders (tables db) ++ [order] /\
    saga_logs (tables db0) =
      saga_logs (tables db)
      ++ [mkSagaLog (o_id order) (o_correlation_id order) "order_placed"
            "order.placed" placed "completed" None now;
          mkSagaLog (o_id order) (o_correlation_id order)
            "inventory_reservation" "inventory.reserve.requested" requested
            "started" None now] /\
    outbox db0 = outbox db ++ List.skipn (List.length (outbox db)) (outbox db0) /\
    List.map payload (emitted db db0) =
      [OrderPlacedEvent customer [] total addr;
       InventoryReserveRequestedEvent (o_id order) []].
Proof.
  intros Ha. unfold start_order_saga, bind. cbn. rewrite Ha. cbn.
  eexists _, _, _, _. split; [reflexivity|]. cbn.
  split; [reflexivity|]. split; [reflexivity|].
  split; [now rewrite <- List.app_assoc|].
  split.
  - now rewrite <- List.app_assoc, List.skipn_app, List.skipn_all,
      Nat.sub_diag.
  - erewrite emitted_app by (cbn; rewrite <- List.app_assoc; reflexivity).
    reflexivity.
Qed.

Lemma select_order_new (db db0 : Session) order :
  List.Forall (fun o => (o_id o < uuid_supply db)%N) (orders (tables db)) ->
  orders (tables db0) = orders (tables db) ++ [order] ->
  o_id order = N.succ (uuid_supply db) ->
  select_order (o_id order) (tables db0) = [order].
Proof.
  intros Hd Ho Hid. unfold select_order. rewrite Ho, List.filter_app.
  rewrite filter_none.
  - cbn. now rewrite N.eqb_refl.
  - intros o Hin. apply N.eqb_neq.
    apply (proj1 (List.Forall_forall _ _) Hd) in Hin. lia.
Qed.

(** The success path, end to end, for an order the service can store.
    [POST /orders] with no line creates the order with total 0; when its
    reservation and its payment then succeed the order ends confirmed,
    with the reservation and the transaction recorded, and the order
    service has sent, in this order: [order.placed],
    [inventory.reserve.requested] (both without lines),
    [payment.requested] for the total 0 in USD, [order.confirmed]. *)
Theorem saga_success_path now0 now1 now2 request addr reserved processed
    reservation lines transaction amount currency (db : Session) :
  drawn db ->
  req_items request = [] ->
  str_dict (req_shipping_address request) = Some addr ->
  exists order db0,
    create_order now0 request db = Ok (Created order, db0) /\
    (payload reserved = InventoryReservedEvent (o_id order) reservation lines ->
     payload processed
       = PaymentProcessedEvent (o_id order) transaction amount currency ->
     exists db1 db2 final,
       exec (subscribe_to_events now1 reserved) db0 = Ok db1 /\
       exec (subscribe_to_events now2 processed) db1 = Ok db2 /\
       select_order (o_id order) (tables db2) = [final] /\
       o_status final = OrderStatus.CONFIRMED /\
       o_current_saga_step final = SagaStep.ORDER_CONFIRMATION /\
       o_reservation_id final = Some reservation /\
       o_transaction_id final = Some transaction /\
       List.map payload (emitted db db2) =
         [OrderPlacedEvent (req_customer_id request) [] 0%Q addr;
          InventoryReserveRequestedEvent (o_id order) [];
          PaymentRequestedEvent (o_id order) (req_customer_id request) 0%Q
            "USD" [("type", "credit_card")];
          OrderConfirmedEvent (o_id order)]).
Proof.
  intros [Hd _] Hi Ha.
  destruct (start_order_saga_run now0 (req_customer_id request) 0%Q
              (req_shipping_address request) addr (req_payment_method request)
              db Ha)
    as (order & db0 & placed & requested & Hrun0 & Horder & Ho0 & _ & Hout0
        & Hpay0).
  exists order, db0. split.
  { unfold create_order, bind. rewrite Hi. cbn [order_total List.fold_left].
    now rewrite Hrun0. }
  intros Hres Hproc.
  assert (Hid : o_id order = N.succ (uuid_supply db)) by now rewrite Horder.
  pose proof (select_order_new db db0 order Hd Ho0 Hid) as Hsel0.
  destruct (orchestrator_step now1 reserved db0 order) as
    (db1 & rows1 & Hrun1 & Ho1 & Hout1 & Hpay1 & _);
    [unfold reply_order_id; now rewrite Hres | exact Hsel0 |].
  set (order1 := transition (payload reserved) order) in *.
  assert (Hid1 : o_id order1 = o_id order) by apply transition_id.
  assert (Hsel1 : select_order (o_id order1) (tables db1) = [order1]).
  { rewrite Hid1. unfold select_order. rewrite Ho1.
    apply (filter_key_replace o_id); [exact Hid1 | exact Hsel0]. }
  destruct (orchestrator_step now2 processed db1 order1) as
    (db2 & rows2 & Hrun2 & Ho2 & Hout2 & Hpay2 & _);
    [unfold reply_order_id; now rewrite Hproc, Hid1 | exact Hsel1 |].
  exists db1, db2, (transition (payload processed) order1).
  split; [exact Hrun1|]. split; [exact Hrun2|]. split.
  { rewrite <- Hid1. unfold select_order. rewrite Ho2.
    apply (filter_key_replace o_id); [apply transition_id | exact Hsel1]. }
  unfold order1. rewrite Hproc, Hres. cbn.
  repeat split.
  set (rows0 := List.skipn (List.length (outbox db)) (outbox db0)) in *.
  assert (Hp0 : List.map (fun r => payload (ob_event_data r)) rows0
                = List.map payload (emitted db db0))
    by (unfold emitted; now rewrite List.map_map).
  rewrite (emitted_app db db2 (rows0 ++ rows1 ++ rows2))
    by (rewrite Hout2, Hout1, Hout0; now rewrite <- !List.app_assoc).
  rewrite List.map_map, !List.map_app, Hp0, Hpay0, Hpay1, Hpay2.
  unfold order1. rewrite Hres, Hproc, Horder. reflexivity.
Qed.

Lemma saga_success_path_witness :
  exists order db0 db1 db2 final,
    create_order 1 MoreExamples.empty_request Examples.empty_db
      = Ok (Created order, db0) /\
    exec (subscribe_to_events 2 MoreExamples.first_reserved) db0 = Ok db1 /\
    exec (subscribe_to_events 3 MoreExamples.first_processed) db1 = Ok db2 /\
    select_order (o_id order) (tables db2) = [final] /\
    o_status final = OrderStatus.CONFIRMED.
Proof.
  destruct (saga_success_path 1 2 3 MoreExamples.empty_request
              [("city", "Paris")]
              MoreExamples.first_reserved MoreExamples.first_processed 12
              [] 80 0%Q "USD" Examples.empty_db)
    as (order & db0 & Hrun & Hnext).
  - split; constructor.
  - reflexivity.
  - reflexivity.
  - assert (Hid : o_id order = 1%N).
    { vm_compute in Hrun. now injection Hrun as <- _. }
    destruct Hnext as (db1 & db2 & final & H1 & H2 & Hsel & Hs & _).
    + now rewrite Hid.
    + now rewrite Hid.
    + exists order, db0, db1, db2, final. auto.
Defined.

(** Insert and look up.  Right after [POST /orders] has stored an order
    (one with no line), the order can be read back:
    [GET /orders/{id}] answers with its fields, total 0 and status
    "pending", the saga log of the order holds the two steps taken, in
    order, and an identifier no order has is answered 404. *)
Theorem created_order_is_readable now request addr (db : Session) :
  drawn db ->
  req_items request = [] ->
  str_dict (req_shipping_address request) = Some addr ->
  exists order db0,
    create_order now request db = Ok (Created order, db0) /\
    get_order (o_id order) db0
      = Ok (Found (mkOrderResponse (o_id order) (req_customer_id request)
                     "pending" 0%Q [] (req_shipping_address request)
                     (o_correlation_id order) now), db0) /\
    get_saga_logs (o_id order) db0
      = Ok ([mkSagaLogResponse (o_id order) "order_placed" "order.placed"
               "completed" now;
             mkSagaLogResponse (o_id order) "inventory_reservation"
               "inventory.reserve.requested" "started" now], db0) /\
    (forall other,
       (forall o, List.In o (orders (tables db0)) -> o_id o <> other) ->
       get_order other db0 = Ok (NotFound, db0)).
Proof.
  intros [Hd Hl] Hi Ha.
  destruct (start_order_saga_run now (req_customer_id request) 0%Q
              (req_shipping_address request) addr (req_payment_method request)
              db Ha)
    as (order & db0 & placed & requested & Hrun0 & Horder & Ho0 & Hlog0 & _).
  exists order, db0. split.
  { unfold create_order, bind. rewrite Hi. cbn [order_total List.fold_left].
    now rewrite Hrun0. }
  assert (Hid : o_id order = N.succ (uuid_supply db)) by now rewrite Horder.
  pose proof (select_order_new db db0 order Hd Ho0 Hid) as Hsel0.
  split; [|split].
  - unfold get_order, bind. cbn. rewrite Hsel0. cbn. unfold ret.
    now rewrite Horder.
  - unfold get_saga_logs, bind. cbn. rewrite Hlog0, List.filter_app.
    rewrite filter_none.
    + cbn. rewrite !N.eqb_refl. cbn. now rewrite Z.leb_refl.
    + intros log Hin. apply N.eqb_neq.
      apply (proj1 (List.Forall_forall _ _) Hl) in Hin. lia.
  - intros other Hnone. unfold get_order, bind. cbn.
    unfold select_order. rewrite filter_none; [reflexivity|].
    intros o Ho. apply N.eqb_neq. now apply Hnone.
Qed.

Lemma created_order_is_readable_witness :
  exists order db0,
    create_order 1 MoreExamples.empty_request Examples.empty_db
      = Ok (Created order, db0) /\
    get_order (o_id order) db0
      = Ok (Found (mkOrderResponse (o_id order) 1 "pending" 0%Q []
                     [("city", JStr "Paris")] (o_correlation_id order) 1),
            db0).
Proof.
  destruct (created_order_is_readable 1 MoreExamples.empty_request
              [("city", "Paris")] Examples.empty_db)
    as (order & db0 & Hrun & Hget & _).
  - split; constructor.
  - reflexivity.
  - reflexivity.
  - exists order, db0. auto.
Defined.

(** Only an order without lines is stored.  For a body that passes
    validation and whose address is a dictionary of texts,
    [POST /orders] creates the order exactly when the list of items is
    empty; with one line or more the commit raises, the route does not
    answer, and neither the order nor its events are written. *)
Theorem only_empty_carts_are_stored now body request addr (db : Session) :
  validate_CreateOrderRequest body = Some request ->
  str_dict (req_shipping_address request) = Some addr ->
  (req_items request = [] ->
   exists order db',
     post_orders now body db = Ok (Created order, db') /\
     orders (tables db') = orders (tables db) ++ [order]) /\
  (req_items request <> [] ->
   post_orders now body db = Raise StatementError).
Proof.
  intros Hv Ha. unfold post_orders. rewrite Hv. split.
  - intros Hi.
    destruct (start_order_saga_run now (req_customer_id request) 0%Q
                (req_shipping_address request) addr
                (req_payment_method request) db Ha)
      as (order & db0 & placed & requested & Hrun0 & _ & Ho0 & _).
    exists order, db0. split; [|exact Ho0].
    unfold create_order, bind. rewrite Hi. cbn [order_total List.fold_left].
    now rewrite Hrun0.
  - intros Hi. unfold create_order, start_order_saga, bind. cbn.
    rewrite Ha. unfold add_order. cbn.
    destruct (req_items request) as [|item items]; [contradiction|].
    reflexivity.
Qed.

Lemma only_empty_carts_are_stored_witness :
  post_orders 3 MoreExamples.one_line_cart Examples.empty_db
  = Raise StatementError.
Proof.
  apply (only_empty_carts_are_stored 3 MoreExamples.one_line_cart
           (mkCreateOrderRequest 1 [mkOrderLine 3 2 (100 # 1)]
              [("city", JStr "Paris")] [])
           [("city", "Paris")] Examples.empty_db).
  - reflexivity.
  - reflexivity.
  - discriminate.
Defined.

End OrchestratorExtras.

(** ** More on the inventory participant *)

Section InventoryExtras.
Import InventoryService Inventory.

(** What every handled event conserves.  For each product, in place,
    the sum of available and reserved quantity is the same before and
    after, as are its identifier, name and price: stock moves between
    the two columns and is never created or lost. *)
Theorem inventory_conserves_stock now event (db db' : Session) :
  exec (subscribe_to_events now event) db = Ok db' ->
  List.map (fun p => (p_id p, p_name p, p_price p,
                      available_quantity p + reserved_quantity p))
    (products (tables db'))
  = List.map (fun p => (p_id p, p_name p, p_price p,
                        available_quantity p + reserved_quantity p))
      (products (tables db)).
Proof.
  assert (Hmoved : forall (d : UUID -> Z) (ps : list Product),
    List.map (fun p => (p_id p, p_name p, p_price p,
                        available_quantity p + reserved_quantity p))
      (List.map (fun p => mkProduct (p_id p) (p_name p) (p_price p)
                            (available_quantity p - d (p_id p))
                            (reserved_quantity p + d (p_id p))) ps)
    = List.map (fun p => (p_id p, p_name p, p_price p,
                          available_quantity p + reserved_quantity p)) ps).
  { intros d ps. rewrite List.map_map. apply List.map_ext. intros p. cbn.
    f_equal. lia. }
  assert (Hback : forall (d : UUID -> Z) (ps : list Product),
    List.map (fun p => (p_id p, p_name p, p_price p,
                        available_quantity p + reserved_quantity p))
      (List.map (fun p => mkProduct (p_id p) (p_name p) (p_price p)
                            (available_quantity p + d (p_id p))
                            (reserved_quantity p - d (p_id p))) ps)
    = List.map (fun p => (p_id p, p_name p, p_price p,
                          available_quantity p + reserved_quantity p)) ps).
  { intros d ps. rewrite List.map_map. apply List.map_ext. intros p. cbn.
    f_equal. lia. }
  unfold subscribe_to_events.
  destruct (payload event) eqn:Hp;
    try (unfold exec, ret; intros H; now injection H as <-).
  - unfold handle_reserve_requested, exec.
    unfold bind at 1. cbn [read_tables]. unfold bind at 1, lift.
    destruct (List.filter _ _) as [|existing [|? ?]];
      cbn [scalar_one_or_none]; cbn beta iota; try discriminate.
    + unfold bind at 1.
      destruct (check_availability items db)
        as [[unavailable db1]|] eqn:Hcheck; [|discriminate].
      apply check_availability_state in Hcheck as ->.
      destruct unavailable as [|u us].
      * unfold bind at 1. rewrite reserve_loop_run.
        unfold bind, add_reservation, read_tables. cbn.
        destruct (List.existsb _ _); cbn; [discriminate|].
        intros H. injection H as <-. cbn.
        apply (Hmoved (fun i => demand i items)).
      * cbn. intros H. now injection H as <-.
    + cbn. intros H. now injection H as <-.
  - unfold handle_release_inventory, exec.
    unfold bind at 1. cbn [read_tables]. unfold bind at 1, lift.
    destruct (List.filter _ _) as [|r [|? ?]];
      cbn [scalar_one_or_none]; cbn beta iota; try discriminate.
    + intros H. now injection H as <-.
    + destruct (ReservationStatus.eqb _ _).
      * intros H. now injection H as <-.
      * unfold bind at 1. rewrite release_loop_run. cbn.
        intros H. injection H as <-. cbn.
        apply (Hback (fun i => demand i (r_items r))).
Qed.

Lemma inventory_conserves_stock_witness :
  exists db',
    exec (subscribe_to_events 1 Examples.reserve_requested) Examples.stock_db
      = Ok db' /\
    List.map (fun p => (p_id p, p_name p, p_price p,
                        available_quantity p + reserved_quantity p))
      (products (tables db'))
    = [(3%N, "Laptop", 1200 # 1, 50)].
Proof.
  eexists. split; [vm_compute; reflexivity|].
  apply (inventory_conserves_stock 1 Examples.reserve_requested
           Examples.stock_db).
  vm_compute. reflexivity.
Defined.

(** A request that can be served, run to its end. *)
Lemma reserve_success_run now event order_id items (db : Session) :
  List.NoDup (List.map p_id (products (tables db))) ->
  payload event = InventoryReserveRequestedEvent order_id items ->
  (forall r, List.In r (reservations (tables db)) -> r_order_id r <> order_id) ->
  List.flat_map (shortfall (products (tables db))) items = [] ->
  exists db' e,
    exec (subscribe_to_events now event) db = Ok db' /\
    products (tables db') =
      List.map (fun p =>
        mkProduct (p_id p) (p_name p) (p_price p)
          (available_quantity p - demand (p_id p) items)
          (reserved_quantity p + demand (p_id p) items))
        (products (tables db)) /\
    reservations (tables db') =
      reservations (tables db)
      ++ [mkReservation (uuid_supply db) order_id (correlation_id event)
            ReservationStatus.ACTIVE items now None] /\
    emitted db db' = [e] /\
    payload e = InventoryReservedEvent order_id (uuid_supply db) items.
Proof.
  intros Hp Hev Hnone Hok.
  unfold subscribe_to_events. rewrite Hev.
  unfold handle_reserve_requested, exec.
  unfold bind at 1. cbn [read_tables]. unfold bind at 1, lift.
  rewrite filter_none; [|intros r Hin; apply N.eqb_neq; now apply Hnone].
  cbn [scalar_one_or_none]. unfold bind at 1.
  rewrite (check_availability_run items db Hp), Hok.
  unfold bind at 1. rewrite (reserve_loop_run items db).
  unfold bind, add_reservation, read_tables. cbn.
  rewrite existsb_none by (intros r Hin; apply N.eqb_neq; now apply Hnone).
  cbn. eexists _, _. split; [reflexivity|].
  split; [reflexivity|]. split; [reflexivity|].
  split; [erewrite emitted_app by (cbn; reflexivity); reflexivity|].
  reflexivity.
Qed.



(** A request for an order that already has a reservation is a replay:
    whatever the request lists and whatever state the reservation is in
    (released included), the handler changes no table and writes
    [inventory.reserved] again with the stored reservation and its
    stored items. *)
Theorem reserve_request_replayed now event order_id items (db : Session) r :
  List.NoDup (List.map r_order_id (reservations (tables db))) ->
  List.In r (reservations (tables db)) ->
  r_order_id r = order_id ->
  payload event = InventoryReserveRequestedEvent order_id items ->
  exists db' e,
    exec (subscribe_to_events now event) db = Ok db' /\
    tables db' = tables db /\
    emitted db db' = [e] /\
    payload e = InventoryReservedEvent order_id (r_id r) (r_items r) /\
    caused_by event e.
Proof.
  intros Hnd Hin Hoid Hev.
  unfold subscribe_to_events. rewrite Hev.
  unfold handle_reserve_requested, exec.
  unfold bind at 1. cbn [read_tables]. unfold bind at 1, lift.
  rewrite <- Hoid.
  rewrite (filter_key_unique r_order_id (reservations (tables db)) r Hnd Hin).
  cbn. eexists _, _. split; [reflexivity|]. split; [reflexivity|].
  split; [erewrite emitted_app by (cbn; reflexivity); reflexivity|].
  split; [reflexivity|]. now split.
Qed.

Lemma reserve_request_replayed_witness :
  exists db' e,
    exec (subscribe_to_events 3 Examples.reserve_requested) Examples.held_db
      = Ok db' /\
    tables db' = tables Examples.held_db /\
    emitted Examples.held_db db' = [e] /\
    payload e = InventoryReservedEvent 7 12 [mkItem 3 2] /\
    caused_by Examples.reserve_requested e.
Proof.
  apply (reserve_request_replayed 3 Examples.reserve_requested 7
           [mkItem 3 50] Examples.held_db Examples.held).
  - cbn. repeat constructor. intros [].
  - now left.
  - reflexivity.
  - reflexivity.
Defined.

Lemma demand_absent pid items :
  ~ List.In pid (List.map product_id items) -> demand pid items = 0.
Proof.
  induction items as [|item items IH]; cbn; [reflexivity|].
  intros H. rewrite IH by tauto.
  destruct (N.eqb_spec pid (product_id item)); [|reflexivity].
  exfalso. apply H. now left.
Qed.

(** With one line per product, a product is asked the quantity of its
    line, or nothing. *)
Lemma demand_distinct pid items :
  List.NoDup (List.map product_id items) ->
  demand pid items = 0 \/
  exists item, List.In item items /\ product_id item = pid /\
               demand pid items = quantity item.
Proof.
  induction items as [|item items IH]; cbn; [now left|].
  intros H. apply List.NoDup_cons_iff in H as [Hx H].
  destruct (N.eqb_spec pid (product_id item)) as [->|NE].
  - right. exists item. rewrite (demand_absent _ _ Hx). split; [now left|].
    split; [reflexivity|lia].
  - destruct (IH H) as [->|(i & Hin & Hid & ->)]; [now left|].
    right. exists i. auto.
Qed.

Lemma flat_map_nil {A B} (f : A -> list B) (l : list A) x :
  List.flat_map f l = [] -> List.In x l -> f x = [].
Proof.
  induction l as [|y l IH]; cbn; [intros _ []|].
  intros H [->|Hin]; apply List.app_eq_nil in H as [Hy Hl]; auto.
Qed.

Lemma find_by_key {A} (key : A -> N) (rows : list A) (r : A) :
  List.NoDup (List.map key rows) -> List.In r rows ->
  List.find (fun x => N.eqb (key x) (key r)) rows = Some r.
Proof.
  intros Hnd Hin.
  pose proof (select_by_key_find key (key r) rows Hnd) as H.
  rewrite (filter_key_unique key rows r Hnd Hin) in H.
  now injection H as <-.
Qed.

(** Stock never goes negative when a request has one line per product
    and asks no negative quantity: on a stock whose quantities are all
    non-negative, whatever the handler does leaves them non-negative. *)
Theorem distinct_lines_keep_stock_nonnegative now event order_id items
    (db db' : Session) :
  keyed db ->
  payload event = InventoryReserveRequestedEvent order_id items ->
  List.NoDup (List.map product_id items) ->
  List.Forall (fun item => 0 <= quantity item) items ->
  List.Forall (fun p => 0 <= available_quantity p /\ 0 <= reserved_quantity p)
    (products (tables db)) ->
  exec (subscribe_to_events now event) db = Ok db' ->
  List.Forall (fun p => 0 <= available_quantity p /\ 0 <= reserved_quantity p)
    (products (tables db')).
Proof.
  intros [Hp _] Hev Hlines Hq Hstock.
  unfold subscribe_to_events. rewrite Hev.
  unfold handle_reserve_requested, exec.
  unfold bind at 1. cbn [read_tables]. unfold bind at 1, lift.
  destruct (List.filter _ _) as [|existing [|? ?]];
    cbn [scalar_one_or_none]; cbn beta iota; try discriminate.
  - unfold bind at 1. rewrite (check_availability_run items db Hp).
    destruct (List.flat_map _ items) as [|u us] eqn:Hok.
    + unfold bind at 1. rewrite reserve_loop_run.
      unfold bind, add_reservation, read_tables. cbn.
      destruct (List.existsb _ _); cbn; [discriminate|].
      intros H. injection H as <-. cbn.
      apply List.Forall_forall. intros p' Hin'.
      apply List.in_map_iff in Hin' as (p & <- & Hin). cbn.
      pose proof (proj1 (List.Forall_forall _ _) Hstock p Hin) as [Ha Hr].
      destruct (demand_distinct (p_id p) items Hlines)
        as [->|(item & Hitem & Hid & ->)]; [lia|].
      pose proof (proj1 (List.Forall_forall _ _) Hq item Hitem) as Hq0.
      cbv beta in Hq0.
      pose proof (flat_map_nil _ _ item Hok Hitem) as Hs.
      unfold shortfall in Hs. rewrite Hid in Hs.
      rewrite (find_by_key p_id _ p Hp Hin) in Hs.
      destruct (Z.ltb_spec (available_quantity p) (quantity item));
        [discriminate|lia].
    + cbn. intros H. now injection H as <-.
  - cbn. intros H. now injection H as <-.
Qed.

Lemma distinct_lines_keep_stock_nonnegative_witness :
  exists db',
    exec (subscribe_to_events 1 Examples.reserve_requested) Examples.stock_db
      = Ok db' /\
    List.Forall (fun p => 0 <= available_quantity p /\ 0 <= reserved_quantity p)
      (products (tables db')).
Proof.
  eexists. split; [vm_compute; reflexivity|].
  apply (distinct_lines_keep_stock_nonnegative 1 Examples.reserve_requested 7
           [mkItem 3 50] Examples.stock_db).
  - split; cbn; repeat constructor. intros [].
  - reflexivity.
  - cbn. repeat constructor. intros [].
  - repeat constructor. cbn. lia.
  - repeat constructor; cbn; lia.
  - vm_compute. reflexivity.
Defined.

End InventoryExtras.

(** ** More on the payment participant *)

Section PaymentExtras.
Import PaymentService Payment.

Lemma consistent_preserved_witness :
  exists db',
    exec (subscribe_to_events 9 Examples.approved
            MoreExamples.payment_refunded) MoreExamples.paid_db = Ok db' /\
    consistent db'.
Proof.
  eexists. split; [vm_compute; reflexivity|].
  apply (consistent_preserved 9 Examples.approved
           MoreExamples.payment_refunded MoreExamples.paid_db).
  - split; cbn.
    + repeat constructor. intros [].
    + repeat constructor. discriminate.
  - vm_compute. reflexivity.
Defined.

(** The first [payment.requested] for an order follows the gateway.  One
    row is inserted under the order's key and the gateway is called
    once.  When the gateway declines (the draw is below 0.2) the row is
    failed with one of the four gateway messages and [payment.failed]
    carries that message with code PAYMENT_FAILED; otherwise the row is
    completed and [payment.processed] carries the row's identifier and
    the requested amount and currency.  Either way the row records the
    time of handling. *)
Theorem first_payment_follows_gateway now draw event order_id customer amount
    currency method (db : Session) :
  consistent db ->
  payload event
    = PaymentRequestedEvent order_id customer amount currency method ->
  select_transaction (idempotency_key_of order_id) (tables db) = [] ->
  exists db' x e,
    exec (subscribe_to_events now draw event) db = Ok db' /\
    transactions (tables db') = transactions (tables db) ++ [x] /\
    gateway_calls (tables db') = S (gateway_calls (tables db)) /\
    emitted db db' = [e] /\
    t_order_id x = order_id /\
    t_amount x = amount /\
    t_currency x = currency /\
    t_processed_at x = Some now /\
    if Qle_bool (2 # 10) (roll draw)
    then t_status x = TransactionStatus.COMPLETED /\
         t_error_message x = None /\
         payload e = PaymentProcessedEvent order_id (t_id x) amount currency
    else exists message,
           List.In message error_messages /\
           t_status x = TransactionStatus.FAILED /\
           t_error_message x = Some message /\
           payload e = PaymentFailedEvent order_id message
                         (Some "PAYMENT_FAILED").
Proof.
  intros Hc Hev Hsel. unfold subscribe_to_events. rewrite Hev.
  unfold handle_payment_requested, exec.
  unfold bind at 1. cbn [read_tables]. unfold bind at 1, lift.
  rewrite Hsel. cbn [scalar_one_or_none]. cbn beta iota.
  unfold create_transaction, add_transaction, complete_transaction,
    process_payment, bind, read_tables.
  pose proof (error_message_nonempty (pick draw)) as Hne.
  assert (Hin : List.In (List.nth (pick draw mod 4)%nat error_messages "")
                  error_messages).
  { apply List.nth_In. cbn.
    apply (Nat.mod_upper_bound (pick draw) 4). discriminate. }
  remember (List.nth (pick draw mod 4)%nat error_messages "") as msg eqn:Emsg.
  clear Emsg. cbn.
  rewrite (no_clash db order_id Hc Hsel). cbn.
  destruct (Qle_bool (2 # 10) (roll draw)); cbn.
  - eexists _, _, _. split; [reflexivity|]. cbn.
    rewrite List.map_app, (replace_fresh _ _ _ (consistent_fresh db Hc)).
    cbn. rewrite N.eqb_refl.
    split; [reflexivity|]. split; [reflexivity|].
    split; [erewrite emitted_app by (cbn; reflexivity); reflexivity|].
    cbn. repeat split.
  - destruct (String.eqb_spec msg ""); [contradiction|].
    eexists _, _, _. split; [reflexivity|]. cbn.
    rewrite List.map_app, (replace_fresh _ _ _ (consistent_fresh db Hc)).
    cbn. rewrite N.eqb_refl.
    split; [reflexivity|]. split; [reflexivity|].
    split; [erewrite emitted_app by (cbn; reflexivity); reflexivity|].
    cbn. repeat split. exists msg. repeat split. exact Hin.
Qed.

Lemma first_payment_follows_gateway_witness :
  exists db' x e,
    exec (subscribe_to_events 3 MoreExamples.declined
            Examples.payment_requested) Examples.no_payments = Ok db' /\
    transactions (tables db') = [x] /\
    emitted Examples.no_payments db' = [e] /\
    t_status x = TransactionStatus.FAILED /\
    payload e = PaymentFailedEvent 7 "Card declined" (Some "PAYMENT_FAILED").
Proof.
  destruct (first_payment_follows_gateway 3 MoreExamples.declined
              Examples.payment_requested 7 1 (200 # 1) "USD"
              [("type", "credit_card")] Examples.no_payments)
    as (db' & x & e & Hrun & Hrows & _ & Hem & _ & _ & _ & _ & Hout).
  - apply consistent_empty.
  - reflexivity.
  - reflexivity.
  - exists db', x, e. cbn in Hout.
    destruct Hout as (message & _ & Hs & Hm & He).
    split; [exact Hrun|]. split; [exact Hrows|]. split; [exact Hem|].
    split; [exact Hs|].
    vm_compute in Hrun. injection Hrun as <-.
    injection Hrows as <-. cbn in Hm. injection Hm as <-. exact He.
Defined.

End PaymentExtras.

(** ** Refunds *)

Section RefundProofs.
Import PaymentService.

(** Refunds are refused silently.  A [payment.refunded] for a
    transaction that does not exist, or whose status is not completed
    (processing, failed, already refunded), returns without writing
    anything: no refund row, no change of status, nothing in the
    outbox. *)
Theorem refund_refused now draw event order_id transaction_id refund_id amount
    (db : Session) :
  List.NoDup (List.map t_id (transactions (tables db))) ->
  payload event
    = PaymentRefundedEvent order_id transaction_id refund_id amount ->
  (forall x, List.In x (transactions (tables db)) ->
             t_id x = transaction_id ->
             t_status x <> TransactionStatus.COMPLETED) ->
  subscribe_to_events now draw event db = Ok (tt, db).
Proof.
  intros Hnd Hev Hno. unfold subscribe_to_events. rewrite Hev.
  unfold handle_payment_refund.
  unfold bind at 1. cbn [read_tables]. unfold bind at 1, lift.
  rewrite (select_by_key_find t_id transaction_id _ Hnd).
  destruct (List.find _ _) as [x|] eqn:Hf; [|reflexivity].
  apply List.find_some in Hf as [Hin Hid]. apply N.eqb_eq in Hid.
  specialize (Hno x Hin Hid).
  destruct (t_status x); try reflexivity. now contradiction Hno.
Qed.

Lemma refund_refused_witness :
  subscribe_to_events 9 Examples.approved MoreExamples.payment_refunded
    MoreExamples.unpaid_db
  = Ok (tt, MoreExamples.unpaid_db).
Proof.
  apply (refund_refused 9 Examples.approved MoreExamples.payment_refunded
           7 80 85 (200 # 1) MoreExamples.unpaid_db).
  - cbn. repeat constructor. intros [].
  - reflexivity.
  - intros x [<-|[]] _. discriminate.
Defined.

(** A refund is applied once.  For a completed transaction without a
    completed refund, and a refund identifier not yet used, the handler
    inserts one refund (completed, for the event's amount, processed at
    the time of handling) and marks the transaction refunded, writing
    nothing to the outbox.  The same event delivered again finds the
    transaction refunded and changes nothing. *)
Theorem refund_applied_once now1 now2 draw1 draw2 event order_id
    transaction_id refund_id amount (db : Session) x :
  List.NoDup (List.map t_id (transactions (tables db))) ->
  payload event
    = PaymentRefundedEvent order_id transaction_id refund_id amount ->
  List.In x (transactions (tables db)) ->
  t_id x = transaction_id ->
  t_status x = TransactionStatus.COMPLETED ->
  (forall f, List.In f (refunds (tables db)) ->
             f_transaction_id f <> transaction_id /\ f_id f <> refund_id) ->
  exists db1 refund x1,
    exec (subscribe_to_events now1 draw1 event) db = Ok db1 /\
    refunds (tables db1) = refunds (tables db) ++ [refund] /\
    (f_id refund, f_transaction_id refund, f_order_id refund, f_amount refund,
     f_status refund, f_processed_at refund)
      = (refund_id, transaction_id, order_id, amount, "completed", Some now1) /\
    List.filter (fun y => N.eqb (t_id y) transaction_id)
      (transactions (tables db1)) = [x1] /\
    t_status x1 = TransactionStatus.REFUNDED /\
    t_amount x1 = t_amount x /\
    outbox db1 = outbox db /\
    subscribe_to_events now2 draw2 event db1 = Ok (tt, db1).
Proof.
  intros Hnd Hev Hin Hid Hs Hfresh.
  assert (Hsel : List.filter (fun y => N.eqb (t_id y) transaction_id)
                   (transactions (tables db)) = [x])
    by (rewrite <- Hid; now apply filter_key_unique).
  unfold subscribe_to_events. rewrite Hev. unfold exec.
  unfold handle_payment_refund at 1.
  unfold bind at 1. cbn [read_tables]. unfold bind at 1, lift.
  rewrite Hsel. cbn [scalar_one_or_none]. cbn beta iota. rewrite Hs.
  unfold bind at 1. rewrite filter_none.
  2:{ intros f Hf. apply Hfresh in Hf as [Hf _].
      apply N.eqb_neq in Hf. now rewrite Hf. }
  cbn [scalar_one_or_none]. cbn beta iota.
  unfold bind, add_refund, commit_refunded, uuid4, read_tables.
  with_strategy opaque [uuid_str] cbn.
  rewrite existsb_none.
  2:{ intros f Hf. apply Hfresh in Hf as [_ Hf]. now apply N.eqb_neq. }
  with_strategy opaque [uuid_str] cbn.
  eexists _, _, _. split; [reflexivity|].
  with_strategy opaque [uuid_str] cbn.
  split; [reflexivity|]. split; [reflexivity|].
  assert (Hsel1 :
    List.filter (fun y => N.eqb (t_id y) transaction_id)
      (List.map (fun y =>
         if N.eqb (t_id y) (t_id x) then mark_refunded x else y)
         (transactions (tables db)))
    = [mark_refunded x]).
  { rewrite <- Hid.
    apply (filter_key_replace t_id); [reflexivity | now rewrite Hid]. }
  split; [exact Hsel1|]. split; [reflexivity|]. split; [reflexivity|].
  split; [reflexivity|].
  unfold handle_payment_refund.
  unfold bind at 1. cbn [read_tables]. unfold bind at 1, lift.
  cbn [tables transactions]. rewrite Hsel1. reflexivity.
Qed.

Lemma refund_applied_once_witness :
  exists db1 refund x1,
    exec (subscribe_to_events 9 Examples.approved
            MoreExamples.payment_refunded) MoreExamples.paid_db = Ok db1 /\
    refunds (tables db1) = [refund] /\
    List.filter (fun y => N.eqb (t_id y) 80)
      (transactions (tables db1)) = [x1] /\
    t_status x1 = TransactionStatus.REFUNDED /\
    subscribe_to_events 10 Examples.approved MoreExamples.payment_refunded db1
      = Ok (tt, db1).
Proof.
  destruct (refund_applied_once 9 10 Examples.approved Examples.approved
              MoreExamples.payment_refunded 7 80 85
              (200 # 1) MoreExamples.paid_db MoreExamples.paid)
    as (db1 & refund & x1 & H1 & H2 & _ & H3 & H4 & _ & _ & H5).
  - cbn. repeat constructor. intros [].
  - reflexivity.
  - now left.
  - reflexivity.
  - reflexivity.
  - intros f [].
  - exists db1, refund, x1. auto.
Defined.

End RefundProofs.

(** ** More on the consumer *)

Section BrokerExtras.
Import MessageBroker Subscription.

Lemma Qpower_two (k : Z) : (0 <= k)%Z -> Qpower (2 # 1) k == inject_Z (2 ^ k).
Proof.
  intros Hk. change (2 # 1) with (inject_Z 2). symmetry.
  now apply Zpower_Qpower.
Qed.

(** The delay before a retry, [min(2 ** retry_count, 60)], for a count
    that is not negative: it is the whole number [min(2^k, 60)], so it
    doubles from 1 second up to 32 and is 60 seconds from the sixth
    retry on. *)
Theorem backoff_doubles_then_caps (k : Z) :
  (0 <= k)%Z ->
  backoff k == inject_Z (Z.min (2 ^ k) 60) /\
  ((k <= 5)%Z -> backoff k == inject_Z (2 ^ k)) /\
  ((6 <= k)%Z -> backoff k == 60 # 1).
Proof.
  intros Hk. unfold backoff.
  assert (Hmin : Qmin (Qpower (2 # 1) k) (60 # 1) == inject_Z (Z.min (2 ^ k) 60)).
  { destruct (Z.le_ge_cases (2 ^ k) 60) as [H|H].
    - rewrite Z.min_l by exact H. rewrite Q.min_l; [now apply Qpower_two|].
      rewrite (Qpower_two k Hk). change (60 # 1) with (inject_Z 60).
      now rewrite <- Zle_Qle.
    - rewrite Z.min_r by exact H. rewrite Q.min_r; [reflexivity|].
      rewrite (Qpower_two k Hk). change (60 # 1) with (inject_Z 60).
      now rewrite <- Zle_Qle. }
  split; [exact Hmin|]. split.
  - intros H5. rewrite Hmin.
    assert (2 ^ k <= 2 ^ 5)%Z by (apply Z.pow_le_mono_r; lia).
    rewrite Z.min_l; [reflexivity|]. change (2 ^ 5)%Z with 32%Z in *. lia.
  - intros H6. rewrite Hmin.
    assert (2 ^ 6 <= 2 ^ k)%Z by (apply Z.pow_le_mono_r; lia).
    rewrite Z.min_r; [reflexivity|]. change (2 ^ 6)%Z with 64%Z in *. lia.
Qed.

Lemma backoff_doubles_then_caps_witness :
  backoff 3 == inject_Z (2 ^ 3) /\ backoff 7 == 60 # 1.
Proof.
  split.
  - apply (backoff_doubles_then_caps 3); lia.
  - apply (backoff_doubles_then_caps 7); lia.
Defined.

Lemma retry_header_next m k key :
  retry_header (mkIncoming (retry_message m k) key) k.
Proof. right. cbn. apply lookup_insert_eq. Qed.

(** A message that cannot be handled uses up its retries and is then
    rejected.  When the body does not decode, or the handler raises on
    the event it decodes to, a delivery that has been retried [n] times
    is followed by one retry for each count from [n + 1] to
    [max_retries] (none when [n] has reached [max_retries]): each sleeps
    the backoff of its count, republishes the same body under the event
    type with the header set to the count, and acknowledges the delivery
    it replaces.  The last delivery is rejected without requeue, and
    nothing follows it; a fresh message is thus tried [max_retries + 1]
    times when [max_retries] is not negative. *)
Theorem unhandled_message_is_dead_lettered (decode : string -> option Event)
    (handler : Event -> option exn) (max_retries : Z)
    (event_type : EventType.t) (m : IncomingMessage) (n : Z) (fuel : nat) :
  (forall event, decode (body (incoming m)) = Some event ->
                 handler event <> None) ->
  retry_header m n ->
  (Z.to_nat (max_retries - n) < fuel)%nat ->
  consume decode handler max_retries event_type fuel m
  = List.map
      (fun k =>
         ([Sleep (backoff (n + Z.of_nat k));
           Publish "saga_events"
             (mkMessage (body (incoming m)) PERSISTENT
                (content_type (incoming m))
                (<["x-retry-count" := HInt (n + Z.of_nat k)]>
                   (headers (incoming m))))
             (EventType.value event_type)],
          Ack))
      (List.seq 1 (Z.to_nat (max_retries - n)))
    ++ [([], Reject false)].
Proof.
  remember (Z.to_nat (max_retries - n)) as r eqn:Hr.
  revert m n fuel Hr. induction r as [|r IH]; intros m n fuel Hr Hfail Hh Hfuel.
  - destruct fuel as [|fuel]; [lia|]. cbn [consume List.seq List.map app].
    assert (Hout : subscribe_to_event_process_message decode handler
                     max_retries event_type m = ([], Reject false)).
    { unfold subscribe_to_event_process_message, try_event, on_exception.
      rewrite (header_retry_count_read m n Hh).
      assert (Hle : (n + 1 <=? max_retries)%Z = false)
        by (apply Z.leb_gt; lia).
      destruct (decode (body (incoming m))) as [event|] eqn:Hd.
      - specialize (Hfail event eq_refl).
        destruct (handler event); [|contradiction].
        now rewrite Hle.
      - now rewrite Hle. }
    rewrite Hout. reflexivity.
  - destruct fuel as [|fuel]; [lia|]. cbn [consume].
    assert (Hout : subscribe_to_event_process_message decode handler
                     max_retries event_type m
                   = ([Sleep (backoff (n + 1));
                       Publish exchange_name (retry_message m (n + 1))
                         (EventType.value event_type)], Ack)).
    { unfold subscribe_to_event_process_message, try_event, on_exception.
      rewrite (header_retry_count_read m n Hh).
      assert (Hle : (n + 1 <=? max_retries)%Z = true)
        by (apply Z.leb_le; lia).
      destruct (decode (body (incoming m))) as [event|] eqn:Hd.
      - specialize (Hfail event eq_refl).
        destruct (handler event); [|contradiction].
        now rewrite Hle.
      - now rewrite Hle. }
    rewrite Hout. cbn [fst List.flat_map bound].
    rewrite !String.eqb_refl. cbn [andb]. rewrite !List.app_nil_r.
    rewrite (IH (mkIncoming (retry_message m (n + 1))
                   (EventType.value event_type)) (n + 1)%Z fuel);
      [|lia|exact Hfail|apply retry_header_next|lia].
    cbn [List.seq List.map app]. f_equal. f_equal.
    rewrite <- (List.seq_shift r 1), List.map_map.
    apply List.map_ext. intros k.
    cbn [incoming retry_message body content_type headers].
    rewrite insert_insert_eq.
    replace (n + 1 + Z.of_nat k)%Z with (n + Z.of_nat (S k))%Z by lia.
    reflexivity.
Qed.

Lemma unhandled_message_is_dead_lettered_witness :
  List.map snd
    (consume (fun _ => Some Examples.payment_failed)
       (fun _ => Some (HandlerError "connection lost")) default_max_retries
       EventType.PAYMENT_FAILED 10
       (delivery (fun _ => "{}") Examples.payment_failed))
  = [Ack; Ack; Ack; Reject false].
Proof.
  rewrite (unhandled_message_is_dead_lettered
             (fun _ => Some Examples.payment_failed)
             (fun _ => Some (HandlerError "connection lost"))
             default_max_retries EventType.PAYMENT_FAILED
             (delivery (fun _ => "{}") Examples.payment_failed) 0 10).
  - reflexivity.
  - intros event _. discriminate.
  - left. split; reflexivity.
  - vm_compute. lia.
Defined.

End BrokerExtras.

(** ** More on the outbox publisher *)

Section OutboxExtras.
Import OutboxPublisher.

Lemma written_not_loaded publish max_retries now batch updated m :
  List.Forall2 (fun m u => publish_one publish max_retries now m = Ok u)
    batch updated ->
  (forall b, List.In b batch -> ob_event_id b <> ob_event_id m) ->
  written updated m = m.
Proof.
  unfold written.
  induction 1 as [|x y batch updated Hxy _ IH]; cbn; [reflexivity|].
  intros Hne. rewrite (publish_one_event_id _ _ _ _ _ Hxy).
  destruct (N.eqb_spec (ob_event_id x) (ob_event_id m)) as [E|_].
  - now destruct (Hne x (or_introl eq_refl)).
  - apply IH. intros b Hb. apply Hne. now right.
Qed.

(** A poll of the outbox publishes what it can and spares the rest.  A
    row of the batch whose publication returns is marked published with
    the time of the poll; its retry count and its last error text stay
    as they were, as does the event it holds.  A row that is not in the
    batch (in particular every row that is already published or failed)
    is left exactly as it was, so a published event is not picked up by
    a later poll.  The poll touches neither the service's tables nor
    the number of rows. *)
Theorem poll_publishes_and_spares {T} (publish : OutboxMessage -> option string)
    (batch_size : nat) (max_retries : Z) (now : datetime) (db : Db T) :
  List.NoDup (List.map ob_event_id (outbox db)) ->
  List.Forall (fun m => exists n, ob_retry_count m = py_str n) (outbox db) ->
  let batch := select_by_status OutboxStatus.PENDING batch_size (outbox db) in
  exists db1,
    exec (_publish_pending_messages publish batch_size max_retries now) db
      = Ok db1 /\
    tables db1 = tables db /\
    List.length (outbox db1) = List.length (outbox db) /\
    (forall m, List.In m batch -> publish m = None ->
       exists m',
         List.In m' (outbox db1) /\
         ob_event_id m' = ob_event_id m /\
         ob_status m' = OutboxStatus.PUBLISHED /\
         ob_published_at m' = Some now /\
         ob_retry_count m' = ob_retry_count m /\
         ob_error_message m' = ob_error_message m /\
         ob_event_data m' = ob_event_data m) /\
    (forall m, List.In m (outbox db) -> ~ List.In m batch ->
       List.In m (outbox db1)) /\
    (forall m, List.In m (outbox db) ->
       ob_status m <> OutboxStatus.PENDING -> List.In m (outbox db1)).
Proof.
  intros Hnd Hwf batch.
  assert (Hsub : forall m, List.In m batch -> List.In m (outbox db))
    by (intros m Hm; now apply select_by_status_In in Hm).
  assert (Hbwf : List.Forall (fun m => exists n, ob_retry_count m = py_str n)
                   batch).
  { apply List.Forall_forall. intros m Hm.
    now apply (proj1 (List.Forall_forall _ _) Hwf), Hsub. }
  destruct (publish_all_total publish max_retries now batch Hbwf)
    as (updated & Hall & Hrel).
  assert (Hspare : forall m, List.In m (outbox db) -> ~ List.In m batch ->
                             written updated m = m).
  { intros m Hm Hn.
    apply (written_not_loaded publish max_retries now batch updated m Hrel).
    intros b Hb E. apply Hn.
    now rewrite <- (key_inj_in ob_event_id (outbox db) b m Hnd (Hsub b Hb) Hm E). }
  unfold _publish_pending_messages, exec, bind, get. cbn.
  fold batch. destruct batch as [|b batch'] eqn:Hb.
  - exists db. split; [reflexivity|]. split; [reflexivity|].
    split; [reflexivity|]. split; [intros m []|]. split; auto.
  - rewrite <- Hb in *. unfold lift. rewrite Hall. cbn.
    eexists. split; [reflexivity|]. cbn.
    split; [reflexivity|]. split; [apply List.length_map|].
    assert (Hrest : forall m, List.In m (outbox db) -> ~ List.In m batch ->
                      List.In m (List.map (written updated) (outbox db))).
    { intros m Hm Hn. apply List.in_map_iff. exists m.
      split; [now apply Hspare | exact Hm]. }
    split; [|split; [exact Hrest|]].
    + intros m Hm Hp.
      assert (Hu : publish_one publish max_retries now m
                   = Ok (set_published_at (Some now)
                           (set_status OutboxStatus.PUBLISHED m)))
        by (unfold publish_one; now rewrite Hp).
      pose proof (written_loaded publish max_retries now batch updated m _
                    (select_by_status_NoDup _ _ _ Hnd) Hrel Hm Hu) as Hw.
      eexists. split.
      { apply List.in_map_iff. exists m. split; [exact Hw|now apply Hsub]. }
      repeat split.
    + intros m Hm Hs. apply Hrest; [exact Hm|]. intros Hin.
      subst batch. now apply select_by_status_In in Hin as [_ Hin].
Qed.

Lemma poll_publishes_and_spares_witness :
  exists db1 m',
    exec (_publish_pending_messages (fun _ => None) 100 default_max_retries 9)
      Examples.stuck_db = Ok db1 /\
    List.In m' (outbox db1) /\
    ob_status m' = OutboxStatus.PUBLISHED /\
    ob_published_at m' = Some 9 /\
    ob_retry_count m' = "2" /\
    ob_error_message m' = Some "broker down".
Proof.
  destruct (poll_publishes_and_spares (fun _ => None) 100 default_max_retries
              9 Examples.stuck_db)
    as (db1 & Hrun & _ & _ & Hrow & _).
  - cbn. repeat constructor. intros [].
  - repeat constructor. exists 2. reflexivity.
  - destruct (Hrow Examples.stuck_row) as (m' & Hin & _ & Hs & Hp & Hr & He & _).
    + now left.
    + reflexivity.
    + exists db1, m'. repeat split; assumption.
Defined.

End OutboxExtras.

(** ** The shipping service *)

Section ShippingProofs.
Import ShippingService.

(** A confirmed order is shipped once.  The first [order.confirmed] for
    an order inserts one shipment, scheduled, due four days after the
    time of handling, addressed as the event's metadata says under
    [shipping_address] (nowhere when it says nothing), and writes one
    [shipping.scheduled] that names the shipment.  Any later
    [order.confirmed] for the order finds the shipment and does
    nothing. *)
Theorem confirmed_order_is_shipped_once now event order_id (db : Session) :
  payload event = OrderConfirmedEvent order_id ->
  List.filter (fun s => N.eqb (s_order_id s) order_id) (tables db) = [] ->
  exists db1 s e,
    exec (subscribe_to_events now event) db = Ok db1 /\
    tables db1 = tables db ++ [s] /\
    s_order_id s = order_id /\
    s_status s = "scheduled" /\
    s_estimated_delivery s = now + 345600 /\
    s_shipping_address s = metadata_get "shipping_address" (metadata event) /\
    emitted db db1 = [e] /\
    payload e
      = ShippingScheduledEvent order_id (s_id s) (now + 345600)
          (s_shipping_address s) /\
    forall now' event',
      payload event' = OrderConfirmedEvent order_id ->
      subscribe_to_events now' event' db1 = Ok (tt, db1).
Proof.
  intros Hev Hsel. unfold subscribe_to_events. rewrite Hev.
  unfold handle_order_confirmed at 1, exec.
  unfold bind at 1. cbn [read_tables]. unfold bind at 1, lift.
  rewrite Hsel. cbn [scalar_one_or_none]. cbn beta iota.
  unfold bind. with_strategy opaque [uuid_hex upper] cbn.
  eexists _, _, _. split; [reflexivity|].
  with_strategy opaque [uuid_hex upper] cbn.
  split; [reflexivity|]. split; [reflexivity|]. split; [reflexivity|].
  split; [reflexivity|]. split; [reflexivity|].
  split; [erewrite emitted_app
            by (with_strategy opaque [uuid_hex upper] cbn; reflexivity);
          reflexivity|].
  split; [reflexivity|].
  intros now' event' Hev'. rewrite Hev'.
  unfold handle_order_confirmed.
  unfold bind at 1. cbn [read_tables]. unfold bind at 1, lift.
  cbn [tables]. rewrite List.filter_app, Hsel.
  with_strategy opaque [uuid_hex upper] cbn. rewrite N.eqb_refl. reflexivity.
Qed.

Lemma confirmed_order_is_shipped_once_witness :
  exists db1 s,
    exec (subscribe_to_events 5 MoreExamples.order_confirmed)
      MoreExamples.no_shipments = Ok db1 /\
    tables db1 = [s] /\
    s_estimated_delivery s = 345605 /\
    subscribe_to_events 6 MoreExamples.order_confirmed db1 = Ok (tt, db1).
Proof.
  destruct (confirmed_order_is_shipped_once 5 MoreExamples.order_confirmed 7
              MoreExamples.no_shipments)
    as (db1 & s & e & Hrun & Hrows & _ & _ & Hd & _ & _ & _ & Hagain).
  - reflexivity.
  - reflexivity.
  - exists db1, s. split; [exact Hrun|]. split; [exact Hrows|].
    split; [exact Hd|]. now apply Hagain.
Defined.

(** The address of an order does not reach its shipment.  The
    [order.confirmed] that the orchestrator writes on [payment.processed]
    carries no metadata, and the shipping service reads the address from
    the metadata: the shipment it schedules for that event, and the
    [shipping.scheduled] it writes, have the empty address whatever
    address the order holds. *)
Theorem confirmed_order_ships_to_empty_address now now' event order_id
    transaction amount currency (db : OrderService.Session) order
    (shipping : Session) :
  payload event = PaymentProcessedEvent order_id transaction amount currency ->
  OrderService.select_order order_id (tables db) = [order] ->
  List.filter (fun s => N.eqb (s_order_id s) (OrderService.o_id order))
    (tables shipping) = [] ->
  exists db1 confirmed shipping1 s e,
    exec (OrderService.subscribe_to_events now event) db = Ok db1 /\
    emitted db db1 = [confirmed] /\
    payload confirmed = OrderConfirmedEvent (OrderService.o_id order) /\
    exec (subscribe_to_events now' confirmed) shipping = Ok shipping1 /\
    tables shipping1 = tables shipping ++ [s] /\
    s_order_id s = OrderService.o_id order /\
    s_shipping_address s = [] /\
    emitted shipping shipping1 = [e] /\
    payload e
      = ShippingScheduledEvent (OrderService.o_id order) (s_id s)
          (now' + 345600) [].
Proof.
  intros Hev Hsel Hnone.
  assert (Hfirst : exists db1 confirmed,
            exec (OrderService.subscribe_to_events now event) db = Ok db1 /\
            emitted db db1 = [confirmed] /\
            payload confirmed = OrderConfirmedEvent (OrderService.o_id order) /\
            metadata confirmed = []).
  { unfold OrderService.subscribe_to_events. rewrite Hev.
    unfold OrderService.handle_payment_processed, OrderService._get_order,
      exec, bind. cbn. rewrite Hsel. cbn.
    eexists _, _. split; [reflexivity|].
    split; [erewrite emitted_app by (cbn; reflexivity); reflexivity|].
    split; reflexivity. }
  destruct Hfirst as (db1 & confirmed & Hrun1 & Hem1 & Hp1 & Hmeta).
  destruct (confirmed_order_is_shipped_once now' confirmed
              (OrderService.o_id order) shipping Hp1 Hnone)
    as (shipping1 & s & e & Hrun & Hrows & Hoid & _ & _ & Haddr & Hem & Hp & _).
  rewrite Hmeta in Haddr. cbn in Haddr.
  exists db1, confirmed, shipping1, s, e.
  split; [exact Hrun1|]. split; [exact Hem1|]. split; [exact Hp1|].
  split; [exact Hrun|]. split; [exact Hrows|]. split; [exact Hoid|].
  split; [exact Haddr|]. split; [exact Hem|]. now rewrite Hp, Haddr.
Qed.

Lemma confirmed_order_ships_to_empty_address_witness :
  exists db1 confirmed shipping1 s,
    exec (OrderService.subscribe_to_events 2 MoreExamples.paid_reply)
      Examples.reserved_db = Ok db1 /\
    emitted Examples.reserved_db db1 = [confirmed] /\
    exec (subscribe_to_events 5 confirmed) MoreExamples.no_shipments
      = Ok shipping1 /\
    tables shipping1 = [s] /\
    s_shipping_address s = [].
Proof.
  destruct (confirmed_order_ships_to_empty_address 2 5 MoreExamples.paid_reply
              7 80 (200 # 1) "USD" Examples.reserved_db
              Examples.reserved_order MoreExamples.no_shipments)
    as (db1 & confirmed & shipping1 & s & e & H1 & H2 & _ & H3 & H4 & _
        & H5 & _).
  - reflexivity.
  - reflexivity.
  - reflexivity.
  - exists db1, confirmed, shipping1, s. auto.
Defined.

End ShippingProofs.

(** ** Compensation across services *)

Section CompensationProofs.

(** The compensation path, end to end.  The inventory service serves a
    reservation request and the order service records the
    [inventory.reserved] it answers with; when the payment of the order
    then fails, the order service marks the order failed and writes an
    [inventory.released] for the recorded reservation followed by an
    [order.failed]; handling that [inventory.released], the inventory
    service puts every product back to the quantities it had before the
    request. *)
Theorem failed_payment_releases_reserved_stock now1 now2 now3 now4 request
    failed order_id items reason code (stock : InventoryService.Session)
    (db : OrderService.Session) order :
  List.NoDup (List.map InventoryService.p_id
                (InventoryService.products (tables stock))) ->
  payload request = InventoryReserveRequestedEvent order_id items ->
  (forall r, List.In r (InventoryService.reservations (tables stock)) ->
             InventoryService.r_order_id r <> order_id) ->
  List.flat_map
    (Inventory.shortfall (InventoryService.products (tables stock))) items
    = [] ->
  OrderService.select_order order_id (tables db) = [order] ->
  payload failed = PaymentFailedEvent order_id reason code ->
  exists stock1 reserved db1 db2 released failure stock2 final,
    exec (InventoryService.subscribe_to_events now1 request) stock
      = Ok stock1 /\
    emitted stock stock1 = [reserved] /\
    exec (OrderService.subscribe_to_events now2 reserved) db = Ok db1 /\
    exec (OrderService.subscribe_to_events now3 failed) db1 = Ok db2 /\
    emitted db1 db2 = [released; failure] /\
    payload failure = OrderFailedEvent order_id reason "payment_processing" /\
    OrderService.select_order order_id (tables db2) = [final] /\
    OrderService.o_status final = OrderStatus.FAILED /\
    exec (InventoryService.subscribe_to_events now4 released) stock1
      = Ok stock2 /\
    InventoryService.products (tables stock2)
      = InventoryService.products (tables stock).
Proof.
  intros Hp Hreq Hnone Hok Hsel Hfail.
  assert (Hid : OrderService.o_id order = order_id).
  { assert (Hin : List.In order (OrderService.select_order order_id (tables db)))
      by (rewrite Hsel; now left).
    apply List.filter_In in Hin as [_ Hin]. now apply N.eqb_eq in Hin. }
  subst order_id.
  destruct (reserve_success_run now1 request (OrderService.o_id order) items
              stock Hp Hreq Hnone Hok)
    as (stock1 & reserved & Hrun1 & Hprod & Hres & Hem1 & Hpay1).
  destruct (orchestrator_step now2 reserved db order) as
    (db1 & rows1 & Hrun2 & Ho1 & _ & _ & _);
    [unfold Orchestrator.reply_order_id; now rewrite Hpay1 | exact Hsel |].
  set (order1 := Orchestrator.transition (payload reserved) order) in *.
  assert (Hid1 : OrderService.o_id order1 = OrderService.o_id order)
    by apply transition_id.
  assert (Hsel1 : OrderService.select_order (OrderService.o_id order1)
                    (tables db1) = [order1]).
  { unfold OrderService.select_order. rewrite Ho1, Hid1.
    apply (filter_key_replace OrderService.o_id); [exact Hid1 | exact Hsel]. }
  destruct (orchestrator_step now3 failed db1 order1) as
    (db2 & rows2 & Hrun3 & Ho2 & Hout2 & Hpay2 & _);
    [unfold Orchestrator.reply_order_id; now rewrite Hfail, Hid1 | exact Hsel1 |].
  assert (Hr1 : OrderService.o_reservation_id order1
                = Some (uuid_supply stock))
    by (unfold order1; rewrite Hpay1; reflexivity).
  rewrite Hfail in Hpay2. cbn [Orchestrator.downstream] in Hpay2.
  rewrite Hr1, Hid1 in Hpay2. cbn [app] in Hpay2.
  destruct rows2 as [|row1 [|row2 [|? ?]]]; try discriminate.
  cbn [List.map] in Hpay2. injection Hpay2 as Hrel Hfl.
  assert (Hsel2 : OrderService.select_order (OrderService.o_id order)
                    (tables db2)
                  = [Orchestrator.transition (payload failed) order1]).
  { unfold OrderService.select_order. rewrite Ho2, <- Hid1.
    apply (filter_key_replace OrderService.o_id);
      [apply transition_id | exact Hsel1]. }
  assert (Hrun4 :
    exists stock2,
      exec (InventoryService.subscribe_to_events now4 (ob_event_data row1))
        stock1 = Ok stock2 /\
      InventoryService.products (tables stock2)
        = InventoryService.products (tables stock)).
  { unfold InventoryService.subscribe_to_events. rewrite Hrel. unfold exec.
    rewrite (release_held now4 (ob_event_data row1) (OrderService.o_id order)
               (uuid_supply stock) stock1
               (InventoryService.mkReservation (uuid_supply stock)
                  (OrderService.o_id order) (correlation_id request)
                  ReservationStatus.ACTIVE items now1 None)).
    - eexists. split; [reflexivity|]. cbn.
      rewrite Hprod, List.map_map.
      rewrite <- (List.map_id (InventoryService.products (tables stock))) at 2.
      apply List.map_ext. intros [i n c a r]. cbn. f_equal; lia.
    - rewrite Hres, List.filter_app, filter_none.
      + cbn. rewrite !N.eqb_refl. reflexivity.
      + intros r Hin. apply Hnone in Hin.
        apply N.eqb_neq in Hin. rewrite Hin. apply Bool.andb_false_r.
    - discriminate. }
  destruct Hrun4 as (stock2 & Hrun4 & Hback).
  exists stock1, reserved, db1, db2, (ob_event_data row1),
    (ob_event_data row2), stock2,
    (Orchestrator.transition (payload failed) order1).
  split; [exact Hrun1|]. split; [exact Hem1|]. split; [exact Hrun2|].
  split; [exact Hrun3|].
  split; [now rewrite (emitted_app db1 db2 [row1; row2] Hout2)|].
  split; [exact Hfl|]. split; [exact Hsel2|].
  split; [now rewrite Hfail|]. split; [exact Hrun4|exact Hback].
Qed.

Lemma failed_payment_releases_reserved_stock_witness :
  exists stock1 reserved db1 db2 released failure stock2,
    exec (InventoryService.subscribe_to_events 1 Examples.reserve_requested)
      Examples.stock_db = Ok stock1 /\
    emitted Examples.stock_db stock1 = [reserved] /\
    exec (OrderService.subscribe_to_events 2 reserved) Examples.pending_db
      = Ok db1 /\
    exec (OrderService.subscribe_to_events 3 Examples.payment_failed) db1
      = Ok db2 /\
    emitted db1 db2 = [released; failure] /\
    exec (InventoryService.subscribe_to_events 4 released) stock1
      = Ok stock2 /\
    InventoryService.products (tables stock2) = [Examples.laptop].
Proof.
  destruct (failed_payment_releases_reserved_stock 1 2 3 4
              Examples.reserve_requested Examples.payment_failed 7
              [mkItem 3 50] "Card declined" (Some "PAYMENT_FAILED")
              Examples.stock_db Examples.pending_db Examples.pending_order)
    as (stock1 & reserved & db1 & db2 & released & failure & stock2 & final
        & H1 & H2 & H3 & H4 & H5 & _ & _ & _ & H6 & H7).
  - cbn. repeat constructor. intros [].
  - reflexivity.
  - intros r [].
  - reflexivity.
  - reflexivity.
  - reflexivity.
  - exists stock1, reserved, db1, db2, released, failure, stock2.
    repeat split; assumption.
Defined.

End CompensationProofs.
